(** * ytshortsgeneration: the clip-generation pipeline of [api/app.py]

    A shallow embedding of the Flask application's background job
    ([process_video_task] and the helpers it calls) and of its two
    request handlers ([generate_clips], [get_logs]).

    Modelling choices.
    - A Python number is an [int] or a [float] ([num]).  Arithmetic on two
      ints is exact; as soon as a float takes part the int operand is
      converted and the operation is the binary64 one, rounded to nearest
      even ([PrimFloat]).  True division always gives a float.  Comparisons
      are exact on the values, also between an int and a float, and false
      when an operand is NaN.  Conversions raise where Python raises
      ([OverflowError], [ZeroDivisionError], [ValueError]).
    - MoviePy reports the duration of a video as a float and the frame size
      as two ints.
    - The global [log_queue], the console, the temporary directory, the
      started worker threads and a record of the calls made to the external
      collaborators (MoviePy's encoder, Vercel Blob, [os.remove]) are the
      components of an explicit [World]; the code is written in a
      state-and-exception monad over it.
    - What the collaborators answer is read from an [Env] record of oracles.
    - An exception is represented by its message [str(e)] and by whether it
      is an instance of [Exception] ([Raise]) or only of [BaseException]
      ([Abort], for instance [SystemExit]): the handlers of the program are
      written [except Exception] and catch the first kind only.
      [os.remove] raises [OSError] or returns. *)

From Stdlib Require Import Floats QArith Qround Qpower ZArith List String Ascii.
From Stdlib Require Import Bool Lia Lqa.
From Stdlib Require Import DecimalString DecimalNat.
Import ListNotations.

Open Scope list_scope.
Open Scope string_scope.

(** ** Outcomes *)

Inductive result (A : Type) : Type :=
| Ok (a : A)
| Raise (e : string)    (* an instance of Exception, with str(e) = e *)
| Abort (e : string).   (* a BaseException that is not an Exception *)
Arguments Ok {A} a.
Arguments Raise {A} e.
Arguments Abort {A} e.

Definition and_then {A B} (r : result A) (k : A -> result B) : result B :=
  match r with
  | Ok a => k a
  | Raise e => Raise e
  | Abort e => Abort e
  end.

Declare Scope result_scope.
Delimit Scope result_scope with result.
Notation "x <- r ;; k" := (and_then r (fun x => k))
  (at level 61, r at next level, right associativity) : result_scope.

(** What a collaborator raises. *)
Inductive fault : Type :=
| Exception (e : string)
| BaseException (e : string).

(** ** Numbers *)

Definition Qlt_bool (x y : Q) : bool := negb (Qle_bool y x).

Inductive num : Type :=
| Int (z : Z)
| Float (f : float).

(** The value of a number: a rational, an infinity, or not a number. *)
Inductive xreal : Type :=
| NaN
| MinusInfinity
| Real (q : Q)
| PlusInfinity.

Definition finite_value (s : bool) (m : positive) (e : Z) : Q :=
  let magnitude := inject_Z (Z.pos m) * 2 ^ e in
  if s then - magnitude else magnitude.

Definition SF_value (x : spec_float) : xreal :=
  match x with
  | S754_zero _ => Real 0
  | S754_infinity false => PlusInfinity
  | S754_infinity true => MinusInfinity
  | S754_nan => NaN
  | S754_finite s m e => Real (finite_value s m e)
  end.

Definition value (x : num) : xreal :=
  match x with
  | Int z => Real (inject_Z z)
  | Float f => SF_value (Prim2SF f)
  end.

Definition xlt (a b : xreal) : bool :=
  match a, b with
  | NaN, _ => false
  | _, NaN => false
  | _, MinusInfinity => false
  | MinusInfinity, _ => true
  | PlusInfinity, _ => false
  | _, PlusInfinity => true
  | Real p, Real q => Qlt_bool p q
  end.

Definition xle (a b : xreal) : bool :=
  match a, b with
  | NaN, _ => false
  | _, NaN => false
  | MinusInfinity, _ => true
  | _, MinusInfinity => false
  | _, PlusInfinity => true
  | PlusInfinity, _ => false
  | Real p, Real q => Qle_bool p q
  end.

(** [a < b], [a <= b], [a > b], [a >= b] *)
Definition py_lt (a b : num) : bool := xlt (value a) (value b).
Definition py_le (a b : num) : bool := xle (value a) (value b).
Definition py_gt (a b : num) : bool := xlt (value b) (value a).
Definition py_ge (a b : num) : bool := xle (value b) (value a).

(** The float nearest to an int, ties to even. *)
Definition float_of_Z (z : Z) : float :=
  SF2Prim (binary_normalize prec emax z 0 false).

(** [float(x)]: an int that rounds to 2^1024 or beyond does not convert. *)
Definition to_float (x : num) : result float :=
  match x with
  | Float f => Ok f
  | Int z =>
      if (Z.abs z <? 2 ^ 1024 - 2 ^ 970)%Z then Ok (float_of_Z z)
      else Raise "int too large to convert to float"
  end.

Definition py_binop (on_ints : Z -> Z -> Z)
    (on_floats : float -> float -> float) (a b : num) : result num :=
  match a, b with
  | Int x, Int y => Ok (Int (on_ints x y))
  | _, _ =>
      (x <- to_float a ;;
       y <- to_float b ;;
       Ok (Float (on_floats x y)))%result
  end.

(** [a * b], [a + b], [a - b] *)
Definition py_mul : num -> num -> result num := py_binop Z.mul PrimFloat.mul.
Definition py_add : num -> num -> result num := py_binop Z.add PrimFloat.add.
Definition py_sub : num -> num -> result num := py_binop Z.sub PrimFloat.sub.

Definition SF_of_Z (z : Z) : spec_float :=
  match z with
  | Z0 => S754_zero false
  | Zpos p => S754_finite false p 0
  | Zneg p => S754_finite true p 0
  end.

(** [a / b]: on two ints the quotient is rounded once, to nearest even. *)
Definition py_truediv (a b : num) : result float :=
  match a, b with
  | Int x, Int y =>
      if (y =? 0)%Z then Raise "division by zero"
      else
        match SFdiv prec emax (SF_of_Z x) (SF_of_Z y) with
        | S754_infinity _ =>
            Raise "integer division result too large for a float"
        | quotient => Ok (SF2Prim quotient)
        end
  | _, _ =>
      (x <- to_float a ;;
       y <- to_float b ;;
       if PrimFloat.eqb y 0 then Raise "float division by zero"
       else Ok (PrimFloat.div x y))%result
  end.

(** [int(x)]: on a float, truncation toward zero. *)
Definition py_int (x : num) : result Z :=
  match x with
  | Int z => Ok z
  | Float f =>
      match Prim2SF f with
      | S754_nan => Raise "cannot convert float NaN to integer"
      | S754_infinity _ => Raise "cannot convert float infinity to integer"
      | S754_zero _ => Ok 0%Z
      | S754_finite s m e =>
          let magnitude := Z.shiftl (Z.pos m) e in
          Ok (if s then (- magnitude)%Z else magnitude)
      end
  end.

(** ** Strings and paths *)

Definition show_nat (n : nat) : string :=
  NilEmpty.string_of_uint (Nat.to_uint n).

Definition show_Z (z : Z) : string :=
  NilEmpty.string_of_int (Z.to_int z).

Definition nl : string := String (ascii_of_nat 10) EmptyString.

(** [s.startswith(p)] *)
Definition startswith (s p : string) : bool := String.prefix p s.

(** Truthiness of a [str]. *)
Definition truthy (s : string) : bool := negb (String.eqb s EmptyString).

Definition slash : ascii := ascii_of_nat 47.

Fixpoint endswith_slash (s : string) : bool :=
  match s with
  | EmptyString => false
  | String c EmptyString => Ascii.eqb c slash
  | String _ rest => endswith_slash rest
  end.

(** [os.path.join(a, b)] on POSIX. *)
Definition path_join (a b : string) : string :=
  if startswith b "/" then b
  else if negb (truthy a) || endswith_slash a then a ++ b
  else a ++ "/" ++ b.

Fixpoint basename_from (acc p : string) : string :=
  match p with
  | EmptyString => acc
  | String c rest =>
      if Ascii.eqb c slash then basename_from EmptyString rest
      else basename_from (acc ++ String c EmptyString) rest
  end.

(** [os.path.basename(p)]: what follows the last slash. *)
Definition basename (p : string) : string := basename_from EmptyString p.

(** ** Values that travel through the queue and out of the handlers *)

#[warnings="-register-all"]
Inductive json : Type :=
| JStr (s : string)
| JArr (items : list json)
| JObj (fields : list (string * json)).

Fixpoint lookup (key : string) (fields : list (string * json)) : option json :=
  match fields with
  | [] => None
  | (k, v) :: rest => if String.eqb k key then Some v else lookup key rest
  end.

(** [isinstance(item, dict) and key in item] *)
Definition is_dict_with (key : string) (item : json) : bool :=
  match item with
  | JObj fields => match lookup key fields with Some _ => true | None => false end
  | _ => false
  end.

(** ** MoviePy clips, as the expression that built them *)

Inductive clip : Type :=
| VideoFile (video_path : string) (duration : float) (w h : Z)
| Subclip (c : clip) (t_start t_end : num)
| CropX (c : clip) (x_center : float) (width : Z)
| CropY (c : clip) (y_center : float) (height : Z)
| Resize (c : clip) (newsize_w newsize_h : Z).

Fixpoint clip_w (c : clip) : Z :=
  match c with
  | VideoFile _ _ w _ => w
  | Subclip c _ _ => clip_w c
  | CropX _ _ width => width
  | CropY c _ _ => clip_w c
  | Resize _ newsize_w _ => newsize_w
  end.

Fixpoint clip_h (c : clip) : Z :=
  match c with
  | VideoFile _ _ _ h => h
  | Subclip c _ _ => clip_h c
  | CropX c _ _ => clip_h c
  | CropY _ _ height => height
  | Resize _ _ newsize_h => newsize_h
  end.

Definition clip_duration_of (c : clip) : float :=
  match c with
  | VideoFile _ duration _ _ => duration
  | _ => 0%float
  end.

(** ** The world the job runs in *)

Inductive event : Type :=
| EvRender (i : nat) (c : clip) (output_filepath : string) (ok : bool)
| EvPublish (local_filepath : string) (url : option string)
| EvRemove (path : string) (ok : bool).

Record World : Type := mkWorld {
  log_queue : list json;      (* the global queue.Queue, oldest first *)
  console : list string;      (* what print wrote *)
  files : list string;        (* paths that exist on the local disk *)
  trace : list event;         (* render, publish and removal steps, in order *)
  threads : list string       (* arguments of the worker threads started *)
}.

Inductive proc_outcome : Type :=
| Exited0 (stdout : string)
| CalledProcessError (returncode : Z) (stdout stderr : string)
| FileNotFoundError
| OtherError (e : string)            (* another instance of Exception *)
| OtherBaseException (e : string).   (* a BaseException that is not one *)

Record Env : Type := mkEnv {
  tempdir : string;                        (* tempfile.gettempdir() *)
  download_stamp : string;                 (* strftime at line 54 *)
  clip_stamp : nat -> string;              (* strftime at line 144, per index *)
  fmt_2f : float -> string;                (* the format spec .2f on a float *)
  subprocess_run : list string -> option string -> proc_outcome;
    (* subprocess.run(cmd_list, ..., check=True, cwd=cwd) *)
  subprocess_files : list string -> list string;  (* files the command leaves *)
  destination_in : string -> option string;
    (* the stripped text after Destination: on the first line of the output
       that contains it *)
  glob_newest_first : string -> list string -> list string;
    (* glob.glob(prefix + "*.mp4") over the existing files, sorted by mtime,
       newest first *)
  open_video : string -> result (float * Z * Z);
    (* VideoFileClip(path): duration, w, h *)
  frame_fault : clip -> option fault;
    (* the exception, if any, that building this clip raises *)
  write_videofile : clip -> string -> option fault;
    (* None: returned; Some f: raised f *)
  blob_put : string -> string -> result string;  (* put(...).url *)
  remove_fault : string -> option string   (* OSError on an existing file *)
}.

Record Config : Type := mkConfig {
  SHORT_VIDEO_WIDTH : Z;
  SHORT_VIDEO_HEIGHT : Z;
  CLIP_DURATION_SECONDS : num;
  NUM_CLIPS_TO_GENERATE : nat
}.

Definition app_config : Config :=
  {| SHORT_VIDEO_WIDTH := 1080;
     SHORT_VIDEO_HEIGHT := 1920;
     CLIP_DURATION_SECONDS := Int 27;
     NUM_CLIPS_TO_GENERATE := 5 |}.

(** ** State-and-exception monad *)

Definition M (A : Type) : Type := World -> result A * World.

Definition ret {A} (a : A) : M A := fun w => (Ok a, w).

Definition raise {A} (e : string) : M A := fun w => (Raise e, w).

Definition abort {A} (e : string) : M A := fun w => (Abort e, w).

Definition bind {A B} (m : M A) (k : A -> M B) : M B :=
  fun w =>
    match m w with
    | (Ok a, w') => k a w'
    | (Raise e, w') => (Raise e, w')
    | (Abort e, w') => (Abort e, w')
    end.

(** [try: m  except Exception as e: handler e] *)
Definition try_except {A} (m : M A) (handler : string -> M A) : M A :=
  fun w =>
    match m w with
    | (Ok a, w') => (Ok a, w')
    | (Raise e, w') => handler e w'
    | (Abort e, w') => (Abort e, w')
    end.

Definition lift {A} (r : result A) : M A := fun w => (r, w).

(** Raise what a collaborator raised. *)
Definition fail {A} (f : fault) : M A :=
  match f with
  | Exception e => raise e
  | BaseException e => abort e
  end.

Declare Scope monad_scope.
Delimit Scope monad_scope with monad.
Notation "x <- m ;; k" := (bind m (fun x => k))
  (at level 61, m at next level, right associativity) : monad_scope.
Notation "m ;; k" := (bind m (fun _ => k))
  (at level 61, right associativity) : monad_scope.
Open Scope monad_scope.

(** *** Primitive effects *)

(** [log_queue.put(item)] *)
Definition put (item : json) : M unit := fun w =>
  (Ok tt, mkWorld (log_queue w ++ [item])%list (console w) (files w) (trace w)
                  (threads w)).

Definition print (message : string) : M unit := fun w =>
  (Ok tt, mkWorld (log_queue w) (console w ++ [message])%list (files w) (trace w)
                  (threads w)).

Definition emit (ev : event) : M unit := fun w =>
  (Ok tt, mkWorld (log_queue w) (console w) (files w) (trace w ++ [ev])%list
                  (threads w)).

Definition on_disk (path : string) (fs : list string) : bool :=
  existsb (String.eqb path) fs.

(** [os.path.exists(path)] *)
Definition path_exists (path : string) : M bool := fun w =>
  (Ok (on_disk path (files w)), w).

(** The directory listing that [glob.glob] reads. *)
Definition list_files : M (list string) := fun w => (Ok (files w), w).

Definition create_files (paths : list string) : M unit := fun w =>
  (Ok tt, mkWorld (log_queue w) (console w) (paths ++ files w)%list (trace w)
                  (threads w)).

Definition unlink (path : string) : M unit := fun w =>
  (Ok tt, mkWorld (log_queue w) (console w)
                  (filter (fun p => negb (String.eqb path p)) (files w))
                  (trace w) (threads w)).

(** [threading.Thread(target=process_video_task, args=(arg,)).start()] *)
Definition start_thread (arg : string) : M unit := fun w =>
  (Ok tt, mkWorld (log_queue w) (console w) (files w) (trace w)
                  (threads w ++ [arg])%list).

(** ** Segment planning: the window schedule of the clip loop
    ([generate_short_clips_to_temp], lines 115-127) *)

(** What one iteration of [for i in range(num_clips)] decides before it
    renders anything: the [break] of line 121, the [break] of line 127, or
    the window that goes to [subclip]. *)
Inductive candidate : Type :=
| ReachedEnd
| TooShort (remaining : num)
| Window (start_time end_time : num).

Definition window (video_duration : float) (clip_duration : num) (i : nat)
  : result candidate :=
  (start_time <- py_mul (Int (Z.of_nat i)) clip_duration ;;
   end_time <- py_add start_time clip_duration ;;
   if py_ge start_time (Float video_duration) then Ok ReachedEnd
   else if py_gt end_time (Float video_duration) then
     let end_time := Float video_duration in
     remaining <- py_sub end_time start_time ;;
     half <- py_truediv clip_duration (Int 2) ;;
     if py_lt remaining (Float half) then Ok (TooShort remaining)
     else Ok (Window start_time end_time)
   else Ok (Window start_time end_time))%result.

(** The windows reached over the given indices, in order, up to the first
    iteration that leaves the loop, by [break] or by an exception. *)
Fixpoint plan_over (video_duration : float) (clip_duration : num)
    (indices : list nat) : list (num * num) :=
  match indices with
  | [] => []
  | i :: rest =>
      match window video_duration clip_duration i with
      | Ok (Window start_time end_time) =>
          (start_time, end_time) :: plan_over video_duration clip_duration rest
      | _ => []
      end
  end.

Definition plan (video_duration : float) (clip_duration : num)
    (num_clips : nat) : list (num * num) :=
  plan_over video_duration clip_duration (seq 0 num_clips).

(** ** The program *)

Definition failed_download : json :=
  JObj [("status", JStr "failed");
        ("message",
         JStr "Failed to download the YouTube video. Cannot generate clips.")].

Definition failed_no_clips : json :=
  JObj [("status", JStr "failed");
        ("message",
         JStr "No clips were generated or uploaded to Vercel Blob.")].

Definition completed (blob_urls : list string) : json :=
  JObj [("status", JStr "completed"); ("clips", JArr (map JStr blob_urls))].

Definition errored (e : string) : json :=
  JObj [("status", JStr "error");
        ("message", JStr ("An unexpected error occurred: " ++ e))].

Definition invalid_link : json :=
  JObj [("status", JStr "error");
        ("message", JStr "Invalid YouTube link provided.")].

Definition processing : json :=
  JObj [("status", JStr "processing");
        ("message",
         JStr "Video generation started. Check logs for updates.")].

Definition logging (logs : list json) : json :=
  JObj [("status", JStr "logging"); ("logs", JArr logs)].

Section Program.

Variable env : Env.
Variable cfg : Config.

Definition log_message (message : string) : M unit :=
  print message ;;
  put (JStr message).

(** [f"{x:.2f}"]: an int is converted to a float first. *)
Definition format_2f (x : num) : M string :=
  f <- lift (to_float x) ;;
  ret (fmt_2f env f).

(** A MoviePy call that builds the clip [c]. *)
Definition moviepy (c : clip) : M clip :=
  match frame_fault env c with
  | Some f => fail f
  | None => ret c
  end.

(** [os.remove(path)] *)
Definition os_remove (path : string) : M unit :=
  present <- path_exists path ;;
  if present then
    match remove_fault env path with
    | Some e => emit (EvRemove path false) ;; raise e
    | None => unlink path ;; emit (EvRemove path true)
    end
  else
    emit (EvRemove path false) ;;
    raise ("[Errno 2] No such file or directory: '" ++ path ++ "'").

Definition run_subprocess_command (cmd_list : list string)
    (error_msg_prefix : string) (cwd : option string) : M (option string) :=
  create_files (subprocess_files env cmd_list) ;;
  match subprocess_run env cmd_list cwd with
  | Exited0 stdout => ret (Some stdout)
  | CalledProcessError returncode stdout stderr =>
      log_message (error_msg_prefix ++ " (command exited with code "
                   ++ show_Z returncode ++ "):") ;;
      log_message ("STDOUT: " ++ stdout) ;;
      log_message ("STDERR: " ++ stderr) ;;
      ret None
  | FileNotFoundError =>
      let cmd0 := hd EmptyString cmd_list in
      log_message ("Error: Command '" ++ cmd0 ++ "' not found.") ;;
      log_message ("Please ensure " ++ cmd0 ++
        " is installed and in your system's PATH on Vercel's build environment.") ;;
      ret None
  | OtherError e => raise e
  | OtherBaseException e => abort e
  end.

(** Lines 84-95: the scan of the temporary directory. [downloaded_filepath]
    is the variable as the loop above left it. *)
Definition download_fallback (temp_dir timestamp : string)
    (downloaded_filepath : option string) : M (option string) :=
  log_message "Could not precisely determine downloaded filename from yt-dlp output. Searching temp directory..." ;;
  existing <- list_files ;;
  let list_of_files :=
    glob_newest_first env (path_join temp_dir ("full_video_" ++ timestamp))
                      existing in
  let warn (p : option string) : M (option string) :=
    log_message ("Warning: Downloaded file path '"
                 ++ match p with Some s => s | None => "None" end
                 ++ "' not confirmed to exist in temp dir.") ;;
    ret None in
  match list_of_files with
  | newest :: _ =>
      log_message ("Download complete (found via temp dir scan)! Temp file at: "
                   ++ newest) ;;
      present <- path_exists newest ;;
      if present then ret (Some newest) else warn (Some newest)
  | [] => warn downloaded_filepath
  end.

Definition download_youtube_video_to_temp (youtube_url temp_dir : string)
  : M (option string) :=
  let timestamp := download_stamp env in
  let output_filename_template := "full_video_" ++ timestamp ++ ".%(ext)s" in
  let output_path_template := path_join temp_dir output_filename_template in
  let cmd := ["yt-dlp";
              "-f"; "bestvideo[ext=mp4]+bestaudio[ext=m4a]/best[ext=mp4]";
              "-o"; output_path_template;
              "--no-part";
              youtube_url] in
  log_message (nl ++ "--- Downloading YouTube video from: " ++ youtube_url
               ++ " ---") ;;
  log_message ("Saving temporarily to: " ++ temp_dir) ;;
  stdout_output <- run_subprocess_command cmd
                     "Error downloading video with yt-dlp" (Some temp_dir) ;;
  match stdout_output with
  | None => ret None
  | Some stdout =>
      match destination_in env stdout with
      | Some downloaded_filepath_from_output =>
          let downloaded_filepath :=
            path_join temp_dir (basename downloaded_filepath_from_output) in
          present <- path_exists downloaded_filepath ;;
          if present then
            log_message ("Download complete! Temp file at: "
                         ++ downloaded_filepath) ;;
            ret (Some downloaded_filepath)
          else download_fallback temp_dir timestamp (Some downloaded_filepath)
      | None => download_fallback temp_dir timestamp None
      end
  end.

(** Lines 133-142: crop to the target aspect, then resize. *)
Definition crop_and_resize (sub_clip : clip) (target_aspect : float)
  : M clip :=
  src_aspect <- lift (py_truediv (Int (clip_w sub_clip))
                                 (Int (clip_h sub_clip))) ;;
  processed_clip <-
    (if py_gt (Float src_aspect) (Float target_aspect) then
       product <- lift (py_mul (Int (clip_h sub_clip)) (Float target_aspect)) ;;
       new_width <- lift (py_int product) ;;
       x_center <- lift (py_truediv (Int (clip_w sub_clip)) (Int 2)) ;;
       moviepy (CropX sub_clip x_center new_width)
     else if py_lt (Float src_aspect) (Float target_aspect) then
       quotient <- lift (py_truediv (Int (clip_w sub_clip))
                                    (Float target_aspect)) ;;
       new_height <- lift (py_int (Float quotient)) ;;
       y_center <- lift (py_truediv (Int (clip_h sub_clip)) (Int 2)) ;;
       moviepy (CropY sub_clip y_center new_height)
     else ret sub_clip) ;;
  moviepy (Resize processed_clip (SHORT_VIDEO_WIDTH cfg)
                  (SHORT_VIDEO_HEIGHT cfg)).

(** Lines 115-161: the loop over [range(num_clips)], given as the list of its
    indices; returns [generated_temp_clip_paths] and
    [generated_clips_count] as they are when the loop is left. *)
Fixpoint clip_loop (full_clip : clip) (target_aspect : float)
    (clip_duration : num) (temp_output_dir : string) (indices : list nat)
    (generated_temp_clip_paths : list string) (generated_clips_count : nat)
  : M (list string * nat) :=
  match indices with
  | [] => ret (generated_temp_clip_paths, generated_clips_count)
  | i :: rest =>
      decision <- lift (window (clip_duration_of full_clip) clip_duration i) ;;
      match decision with
      | ReachedEnd =>
          log_message ("Reached end of video. Generated "
                       ++ show_nat generated_clips_count ++ " clips.") ;;
          ret (generated_temp_clip_paths, generated_clips_count)
      | TooShort remaining =>
          shown <- format_2f remaining ;;
          log_message ("Remaining video segment (" ++ shown
                       ++ "s) is too short. Stopping.") ;;
          ret (generated_temp_clip_paths, generated_clips_count)
      | Window start_time end_time =>
          shown_start <- format_2f start_time ;;
          shown_end <- format_2f end_time ;;
          log_message ("Generating clip " ++ show_nat (i + 1) ++ " from "
                       ++ shown_start ++ "s to " ++ shown_end ++ "s...") ;;
          sub_clip <- moviepy (Subclip full_clip start_time end_time) ;;
          processed_clip <- crop_and_resize sub_clip target_aspect ;;
          let output_filename :=
            "short_clip_" ++ show_nat (i + 1) ++ "_" ++ clip_stamp env i
            ++ ".mp4" in
          let output_filepath := path_join temp_output_dir output_filename in
          log_message ("Rendering clip " ++ show_nat (i + 1) ++ " to: "
                       ++ output_filepath) ;;
          match write_videofile env processed_clip output_filepath with
          | None =>
              create_files [output_filepath] ;;
              emit (EvRender i processed_clip output_filepath true) ;;
              log_message ("Clip " ++ show_nat (i + 1)
                           ++ " generated successfully (temp)! "
                           ++ output_filepath) ;;
              clip_loop full_clip target_aspect clip_duration temp_output_dir
                rest (generated_temp_clip_paths ++ [output_filepath])%list
                (generated_clips_count + 1)
          | Some (Exception e) =>
              emit (EvRender i processed_clip output_filepath false) ;;
              log_message ("Error rendering clip " ++ show_nat (i + 1) ++ ": "
                           ++ e) ;;
              log_message "This often indicates an issue with FFmpeg or specific video codec problems during MoviePy rendering." ;;
              clip_loop full_clip target_aspect clip_duration temp_output_dir
                rest generated_temp_clip_paths generated_clips_count
          | Some (BaseException e) =>
              emit (EvRender i processed_clip output_filepath false) ;;
              abort e
          end
      end
  end.

Definition generate_short_clips_to_temp (video_path : string)
    (clip_duration : num) (num_clips : nat) (temp_output_dir : string)
  : M (list string) :=
  log_message (nl ++ "--- Processing video: " ++ basename video_path
               ++ " ---") ;;
  match open_video env video_path with
  | Raise e =>
      log_message ("Error loading full video clip from " ++ video_path ++ ": "
                   ++ e) ;;
      log_message "This might be due to a corrupted download or an unsupported video format." ;;
      ret []
  | Abort e => abort e
  | Ok (video_duration, w, h) =>
      let full_clip := VideoFile video_path video_duration w h in
      log_message ("Full video duration: " ++ fmt_2f env video_duration
                   ++ " seconds.") ;;
      target_aspect <- lift (py_truediv (Int (SHORT_VIDEO_WIDTH cfg))
                                        (Int (SHORT_VIDEO_HEIGHT cfg))) ;;
      out <- clip_loop full_clip target_aspect clip_duration temp_output_dir
               (seq 0 num_clips) [] 0 ;;
      log_message (nl ++ "--- Finished generating " ++ show_nat (snd out)
                   ++ " temporary clips. ---") ;;
      ret (fst out)
  end.

Definition upload_to_vercel_blob (local_filepath : string)
  : M (option string) :=
  present <- path_exists local_filepath ;;
  if negb present then
    log_message ("Error: Local file '" ++ local_filepath
                 ++ "' not found for upload to Vercel Blob.") ;;
    emit (EvPublish local_filepath None) ;;
    ret None
  else
    let blob_path := "clips/" ++ basename local_filepath in
    log_message ("Uploading '" ++ basename local_filepath
                 ++ "' to Vercel Blob...") ;;
    match blob_put env blob_path local_filepath with
    | Ok url =>
        emit (EvPublish local_filepath (Some url)) ;;
        log_message ("Uploaded to Vercel Blob: " ++ url) ;;
        ret (Some url)
    | Raise e =>
        emit (EvPublish local_filepath None) ;;
        log_message ("Error uploading '" ++ local_filepath
                     ++ "' to Vercel Blob: " ++ e) ;;
        ret None
    | Abort e =>
        emit (EvPublish local_filepath None) ;;
        abort e
    end.

(** Lines 210-219: the loop over [temp_clip_paths]. *)
Fixpoint upload_loop (temp_clip_paths : list string) (blob_urls : list string)
  : M (list string) :=
  match temp_clip_paths with
  | [] => ret blob_urls
  | temp_path :: rest =>
      blob_url <- upload_to_vercel_blob temp_path ;;
      let blob_urls :=
        match blob_url with
        | Some url => if truthy url then (blob_urls ++ [url])%list
                      else blob_urls
        | None => blob_urls
        end in
      try_except
        (os_remove temp_path ;;
         log_message ("Cleaned up temporary clip file: " ++ temp_path))
        (fun e => log_message ("Error cleaning up temp clip file "
                               ++ temp_path ++ ": " ++ e)) ;;
      upload_loop rest blob_urls
  end.

(** Lines 190-231: the body of the [try]. *)
Definition task_body (youtube_link : string) : M unit :=
  downloaded_full_video_path <-
    download_youtube_video_to_temp youtube_link (tempdir env) ;;
  usable <- match downloaded_full_video_path with
            | Some path => if truthy path then path_exists path else ret false
            | None => ret false
            end ;;
  if negb usable then
    put failed_download ;;
    log_message "Failed to download the YouTube video. Cannot generate clips."
  else
    let downloaded_full_video_path :=
      match downloaded_full_video_path with
      | Some path => path
      | None => EmptyString
      end in
    temp_clip_paths <-
      generate_short_clips_to_temp downloaded_full_video_path
        (CLIP_DURATION_SECONDS cfg) (NUM_CLIPS_TO_GENERATE cfg)
        (tempdir env) ;;
    blob_urls <-
      match temp_clip_paths with
      | [] => ret []
      | _ :: _ =>
          log_message (nl ++ "--- Uploading generated clips to Vercel Blob ---") ;;
          upload_loop temp_clip_paths []
      end ;;
    try_except
      (os_remove downloaded_full_video_path ;;
       log_message ("Cleaned up temporary downloaded video: "
                    ++ downloaded_full_video_path))
      (fun e => log_message ("Error cleaning up temp downloaded video "
                             ++ downloaded_full_video_path ++ ": " ++ e)) ;;
    match blob_urls with
    | _ :: _ => put (completed blob_urls)
    | [] => put failed_no_clips
    end.

Definition process_video_task (youtube_link : string) : M unit :=
  try_except (task_body youtube_link)
    (fun e =>
       put (errored e) ;;
       log_message ("An unexpected error occurred in processing task: " ++ e)).

End Program.
(** ** The request handlers *)

(** Lines 249-253: empty the queue one item at a time. *)
Fixpoint discard_all (queue : list json) : list json :=
  match queue with
  | [] => []
  | _ :: rest => discard_all rest
  end.

Definition clear_log_queue : M unit := fun w =>
  (Ok tt, mkWorld (discard_all (log_queue w)) (console w) (files w) (trace w)
                  (threads w)).

(** [POST /generate_clips] with form field [youtube_link]. *)
Definition generate_clips (youtube_link : string) : M json :=
  if negb (truthy youtube_link)
     || negb (startswith youtube_link "http://"
              || startswith youtube_link "https://")
  then ret invalid_link
  else
    clear_log_queue ;;
    put (JStr "Starting video processing...") ;;
    put (JStr "NOTE: Video processing is resource-intensive and may take time. Please monitor logs.") ;;
    put (JStr "NOTE: Serverless functions have time limits (e.g., 5 min). Long videos might time out.") ;;
    start_thread youtube_link ;;
    ret processing.

(** Lines 267-278: the drain loop of [get_logs] over the queue contents;
    returns the response and what is left in the queue. *)
Fixpoint get_logs_loop (queue : list json) (logs : list json)
  : json * list json :=
  match queue with
  | [] => (logging logs, [])
  | item :: rest =>
      if is_dict_with "status" item then (item, rest)
      else get_logs_loop rest (logs ++ [item])%list
  end.

(** [GET /get_logs] *)
Definition get_logs : M json := fun w =>
  let (response, left) := get_logs_loop (log_queue w) [] in
  (Ok response,
   mkWorld left (console w) (files w) (trace w) (threads w)).

(** ** Reading a run *)

Definition field (key : string) (item : json) : option json :=
  match item with
  | JObj fields => lookup key fields
  | _ => None
  end.

Definition status_of (item : json) : option string :=
  match field "status" item with
  | Some (JStr s) => Some s
  | _ => None
  end.

(** What [get_logs] takes for a terminal record. *)
Definition terminal (item : json) : bool := is_dict_with "status" item.

(** The URL an event contributes to [blob_urls] (line 212 keeps a returned
    URL only when it is truthy). *)
Definition ev_published (ev : event) : list string :=
  match ev with
  | EvPublish _ (Some url) => if truthy url then [url] else []
  | _ => []
  end.

Definition published_urls (evs : list event) : list string :=
  flat_map ev_published evs.

Definition ev_rendered (ev : event) : list string :=
  match ev with
  | EvRender _ _ output_filepath true => [output_filepath]
  | _ => []
  end.

(** The artifacts whose [write_videofile] returned, in order. *)
Definition rendered_paths (evs : list event) : list string :=
  flat_map ev_rendered evs.

Definition is_render (ev : event) : bool :=
  match ev with
  | EvRender _ _ _ _ => true
  | _ => false
  end.

Definition ev_index (ev : event) : list nat :=
  match ev with
  | EvRender i _ _ _ => [i]
  | _ => []
  end.

Definition render_indices (evs : list event) : list nat :=
  flat_map ev_index evs.

(** The flag of a render event is what the encoder answered. *)
Definition encoder_said (env : Env) (ev : event) : Prop :=
  match ev with
  | EvRender _ c output_filepath ok =>
      ok = match write_videofile env c output_filepath with
           | None => true
           | Some _ => false
           end
  | _ => True
  end.

(** The time window a clip was cut to. *)
Fixpoint source_window (c : clip) : option (num * num) :=
  match c with
  | VideoFile _ _ _ _ => None
  | Subclip _ t_start t_end => Some (t_start, t_end)
  | CropX c _ _ => source_window c
  | CropY c _ _ => source_window c
  | Resize c _ _ => source_window c
  end.

Definition ev_window (ev : event) : list (num * num) :=
  match ev with
  | EvRender _ c _ _ =>
      match source_window c with
      | Some se => [se]
      | None => []
      end
  | _ => []
  end.

Definition render_windows (evs : list event) : list (num * num) :=
  flat_map ev_window evs.

(** Each path is published and then removed before the next one is
    touched. *)
Inductive publish_cleanup : list string -> list event -> Prop :=
| publish_cleanup_nil : publish_cleanup [] []
| publish_cleanup_cons path url ok rest evs :
    publish_cleanup rest evs ->
    publish_cleanup (path :: rest)
      (EvPublish path url :: EvRemove path ok :: evs).

(** Nothing follows a terminal record. *)
Definition terminal_is_last (written : list json) : Prop :=
  forall before record after,
    written = (before ++ record :: after)%list ->
    terminal record = true -> after = [].

(** Every successful render is followed at once by the publish step of its
    own artifact. *)
Definition publish_follows_render (evs : list event) : Prop :=
  forall before i c output_filepath after,
    evs = (before ++ EvRender i c output_filepath true :: after)%list ->
    exists url after', after = EvPublish output_filepath url :: after'.


(** None of the given artifacts is on disk any more, leaving aside those
    whose removal fails. *)
Definition artifacts_gone (env : Env) (paths : list string) (w : World)
  : Prop :=
  forall p, In p paths -> remove_fault env p = None ->
            on_disk p (files w) = false.



(** No item of the list is a terminal record. *)
Definition plain (items : list json) : bool :=
  forallb (fun item => negb (terminal item)) items.

(** The items the program puts into the queue: log lines and the four
    records of [process_video_task]. *)
Definition written_by_app (item : json) : Prop :=
  (exists s, item = JStr s) \/
  item = failed_download \/
  item = failed_no_clips \/
  (exists blob_urls, item = completed blob_urls) \/
  (exists e, item = errored e).

(** The responses of [get_logs] as the code builds them. *)
Inductive poll_shape : json -> Prop :=
| poll_logging (logs : list string) : poll_shape (logging (map JStr logs))
| poll_completed (blob_urls : list string) : poll_shape (completed blob_urls)
| poll_failed (message : string) :
    poll_shape (JObj [("status", JStr "failed"); ("message", JStr message)])
| poll_error (message : string) :
    poll_shape (JObj [("status", JStr "error"); ("message", JStr message)]).

(** The three response shapes as the specification words them: URLs under
    the key urls, failures with state failed or errored.  The idle shape is
    taken as the code has it. *)
Definition spec_poll_shape (response : json) : Prop :=
  (exists pending, response = logging (map JStr pending)) \/
  (status_of response = Some "completed" /\
   exists urls, field "urls" response = Some (JArr (map JStr urls))) \/
  ((status_of response = Some "failed" \/
    status_of response = Some "errored") /\
   exists message, field "message" response = Some (JStr message)).

(** A second poll that follows a first one without writes in between is
    idle and finds nothing pending. *)
Definition second_poll_idle (w : World) : Prop :=
  log_queue (snd (get_logs w)) = [] /\
  fst (get_logs (snd (get_logs w))) = Ok (logging []).

Definition is_alpha (c : ascii) : bool :=
  let n := nat_of_ascii c in
  ((65 <=? n) && (n <=? 90) || (97 <=? n) && (n <=? 122))%nat.

Definition is_scheme_char (c : ascii) : bool :=
  let n := nat_of_ascii c in
  is_alpha c || ((48 <=? n) && (n <=? 57))%nat
  || Ascii.eqb c "+" || Ascii.eqb c "-" || Ascii.eqb c ".".

Fixpoint scheme_tail (s : string) : bool :=
  match s with
  | EmptyString => false
  | String c rest =>
      if Ascii.eqb c ":" then true else is_scheme_char c && scheme_tail rest
  end.

(** A scheme-qualified reference in the words of the specification: it
    begins with a URI scheme, that is a letter, then letters, digits, plus,
    minus or dot, then a colon. *)
Definition spec_scheme_qualified (s : string) : bool :=
  match s with
  | EmptyString => false
  | String c rest => is_alpha c && scheme_tail rest
  end.

(** The submission was turned down: the error response, and the world left
    as it was. *)
Definition rejected (youtube_link : string) (w : World) : Prop :=
  generate_clips youtube_link w = (Ok invalid_link, w).

(** The source file the task goes on with after line 193, if any. *)
Definition acquired (env : Env) (youtube_link : string) (w : World)
  : option string :=
  match download_youtube_video_to_temp env youtube_link (tempdir env) w with
  | (Ok (Some path), w1) =>
      if truthy path && on_disk path (files w1) then Some path else None
  | _ => None
  end.

(** The windows the clip loop is going to visit for a source file. *)
Definition planned (env : Env) (cfg : Config) (video_path : string)
  : list (num * num) :=
  match open_video env video_path with
  | Ok (video_duration, _, _) =>
      plan video_duration (CLIP_DURATION_SECONDS cfg)
           (NUM_CLIPS_TO_GENERATE cfg)
  | _ => []
  end.

(** ** Describing what a run does *)

(** [wp m w Q]: running [m] from [w] ends in a result and a world that
    satisfy [Q]. *)
Definition wp {A} (m : M A) (w : World) (Q : result A -> World -> Prop)
  : Prop :=
  Q (fst (m w)) (snd (m w)).

(** [step lines evs w w']: from [w] to [w'] the queue received exactly the
    log lines [lines], the trace exactly [evs], and no thread was started. *)
Definition step (lines : list string) (evs : list event) (w w' : World)
  : Prop :=
  log_queue w' = (log_queue w ++ map JStr lines)%list /\
  trace w' = (trace w ++ evs)%list /\
  threads w' = threads w.

(** Only log lines were written. *)
Definition quiet (w w' : World) : Prop := exists lines, step lines [] w w'.

(** ** Sample collaborators, for running the program on concrete inputs *)

Module Sample.

(** A rendering of [.2f] for non-negative floats. *)
Definition two_decimals (f : float) : string :=
  match SF_value (Prim2SF f) with
  | Real x =>
      let cents := Qfloor (x * 100 + (1 # 2)) in
      show_Z (cents / 100) ++ "."
      ++ (if (cents mod 100 <? 10)%Z then "0" else EmptyString)
      ++ show_Z (cents mod 100)
  | NaN => "nan"
  | PlusInfinity => "inf"
  | MinusInfinity => "-inf"
  end.

Definition source_file : string := "/tmp/full_video_20240101_120000.mp4".

Definition clip_file (n : nat) : string :=
  "/tmp/short_clip_" ++ show_nat n ++ "_20240101_120500.mp4".

Definition yt_dlp_ok : proc_outcome :=
  Exited0 "[download] Destination: full_video_20240101_120000.mp4".

Definition yt_dlp_unavailable : proc_outcome :=
  CalledProcessError 1 EmptyString "ERROR: Video unavailable".

(** [subprocess.run] raises [PermissionError]: yt-dlp is there but may not
    be executed. *)
Definition yt_dlp_denied : proc_outcome :=
  OtherError "[Errno 13] Permission denied: 'yt-dlp'".

(** Collaborators parameterised by what yt-dlp does, what the source
    video is, what the encoder answers and what the blob store answers. *)
Definition make_env (yt_dlp : proc_outcome) (video : result (float * Z * Z))
    (encoder : clip -> string -> option fault)
    (store : string -> string -> result string) : Env :=
  {| tempdir := "/tmp";
     download_stamp := "20240101_120000";
     clip_stamp := fun _ => "20240101_120500";
     fmt_2f := two_decimals;
     subprocess_run := fun _ _ => yt_dlp;
     subprocess_files := fun _ =>
       match yt_dlp with Exited0 _ => [source_file] | _ => [] end;
     destination_in := fun _ =>
       match yt_dlp with
       | Exited0 _ => Some "full_video_20240101_120000.mp4"
       | _ => None
       end;
     glob_newest_first := fun _ _ => [];
     open_video := fun _ => video;
     frame_fault := fun _ => None;
     write_videofile := encoder;
     blob_put := store;
     remove_fault := fun _ => None |}.

Definition hd_video (seconds : float) : result (float * Z * Z) :=
  Ok (seconds, 1920%Z, 1080%Z).

Definition encoder_ok : clip -> string -> option fault := fun _ _ => None.

Definition encoder_down : clip -> string -> option fault :=
  fun _ _ => Some (Exception "ffmpeg: broken pipe").

(** An encoder that leaves with [SystemExit]. *)
Definition encoder_exits : clip -> string -> option fault :=
  fun _ _ => Some (BaseException "1").

Definition store_ok : string -> string -> result string :=
  fun blob_path _ => Ok ("https://blob.example/" ++ blob_path).

(** A store that refuses the second and the fourth clip. *)
Definition store_flaky : string -> string -> result string :=
  fun blob_path local_filepath =>
    if String.eqb local_filepath (clip_file 2)
       || String.eqb local_filepath (clip_file 4)
    then Raise "503 Service Unavailable"
    else Ok ("https://blob.example/" ++ blob_path).

Definition env : Env := make_env yt_dlp_ok (hd_video 200) encoder_ok store_ok.

Definition env_no_source : Env :=
  make_env yt_dlp_unavailable (hd_video 200) encoder_ok store_ok.

Definition env_no_permission : Env :=
  make_env yt_dlp_denied (hd_video 200) encoder_ok store_ok.

Definition env_encoder_exits : Env :=
  make_env yt_dlp_ok (hd_video 200) encoder_exits store_ok.

Definition env_encoder_down : Env :=
  make_env yt_dlp_ok (hd_video 200) encoder_down store_ok.

Definition env_flaky_store : Env :=
  make_env yt_dlp_ok (hd_video 200) encoder_ok store_flaky.

(** A source whose frames have height 0: line 133 divides by it. *)
Definition env_flat_video : Env :=
  make_env yt_dlp_ok (Ok (200%float, 1920%Z, 0%Z)) encoder_ok store_ok.

Definition empty_world : World := mkWorld [] [] [] [] [].

Definition hd_clip : clip :=
  Subclip (VideoFile source_file 200 1920 1080) (Int 0) (Int 27).

(** A 1280x720 source and a 840x1200 target. *)
Definition hd720_clip : clip :=
  Subclip (VideoFile source_file 200 1280 720) (Int 0) (Int 27).

Definition config_840x1200 : Config :=
  {| SHORT_VIDEO_WIDTH := 840;
     SHORT_VIDEO_HEIGHT := 1200;
     CLIP_DURATION_SECONDS := Int 27;
     NUM_CLIPS_TO_GENERATE := 5 |}.

End Sample.

(** ** Further vocabulary for reading a run *)

(** No slash occurs in the string. *)
Fixpoint slash_free (s : string) : bool :=
  match s with
  | EmptyString => true
  | String c rest => negb (Ascii.eqb c slash) && slash_free rest
  end.

(** Lines 144-145: the name and the path of the file clip [i] is rendered
    to. *)
Definition output_filename (env : Env) (i : nat) : string :=
  "short_clip_" ++ show_nat (i + 1) ++ "_" ++ clip_stamp env i ++ ".mp4".

Definition output_filepath (env : Env) (temp_output_dir : string) (i : nat)
  : string :=
  path_join temp_output_dir (output_filename env i).

(** The file a render event wrote to is the one lines 144-145 name for its
    index. *)
Definition ev_named (env : Env) (temp_output_dir : string) (ev : event)
  : Prop :=
  match ev with
  | EvRender i _ output_filepath' _ =>
      output_filepath' = output_filepath env temp_output_dir i
  | _ => True
  end.

Definition ev_output (ev : event) : list string :=
  match ev with
  | EvRender _ _ output_filepath' _ => [output_filepath']
  | _ => []
  end.

(** The files of all render attempts, failed ones included, in order. *)
Definition render_outputs (evs : list event) : list string :=
  flat_map ev_output evs.

Definition item_line (item : json) : list string :=
  match item with
  | JStr s => [s]
  | _ => []
  end.

(** The plain log lines among the items of a queue, in order. *)
Definition lines_of (queue : list json) : list string :=
  flat_map item_line queue.

(** [keeps R m]: whatever world [m] starts in, it ends in one related to it
    by [R], whether it returns or raises. *)
Definition keeps (R : World -> World -> Prop) {A} (m : M A) : Prop :=
  forall w, R w (snd (m w)).

(** Every file that was on disk still is. *)
Definition grows (w w' : World) : Prop :=
  forall p, on_disk p (files w) = true -> on_disk p (files w') = true.

(** The queue only received items at its end, and the console received
    exactly the plain lines among them, in the same order. *)
Definition mirrored (w w' : World) : Prop :=
  exists written,
    log_queue w' = (log_queue w ++ written)%list /\
    console w' = (console w ++ lines_of written)%list.

(** The trace only received events at its end, and every render among them
    wrote to the file named for its index. *)
Definition named_renders (env : Env) (temp_output_dir : string)
    (w w' : World) : Prop :=
  exists evs,
    trace w' = (trace w ++ evs)%list /\
    Forall (ev_named env temp_output_dir) evs.

Definition is_digit (c : ascii) : bool :=
  let n := nat_of_ascii c in ((48 <=? n) && (n <=? 57))%nat.

Fixpoint all_digits (s : string) : bool :=
  match s with
  | EmptyString => true
  | String c rest => is_digit c && all_digits rest
  end.

(** No file was deleted, the trace only received events at its end, and the
    file of every successful render among them is on disk. *)
Definition rendered_kept (w w' : World) : Prop :=
  grows w w' /\
  exists evs,
    trace w' = (trace w ++ evs)%list /\
    forall p, In p (rendered_paths evs) -> on_disk p (files w') = true.

(** The two outcomes of the command that [run_subprocess_command] catches. *)
Definition command_failed (outcome : proc_outcome) : bool :=
  match outcome with
  | CalledProcessError _ _ _ => true
  | FileNotFoundError => true
  | _ => false
  end.

(** Lines 206-231: what [process_video_task] does with the clips that
    [generate_short_clips_to_temp] returned. *)
Definition after_generate (env : Env) (downloaded_full_video_path : string)
    (temp_clip_paths : list string) : M unit :=
  blob_urls <-
    match temp_clip_paths with
    | [] => ret []
    | _ :: _ =>
        log_message (nl ++ "--- Uploading generated clips to Vercel Blob ---") ;;
        upload_loop env temp_clip_paths []
    end ;;
  try_except
    (os_remove env downloaded_full_video_path ;;
     log_message ("Cleaned up temporary downloaded video: "
                  ++ downloaded_full_video_path))
    (fun e => log_message ("Error cleaning up temp downloaded video "
                           ++ downloaded_full_video_path ++ ": " ++ e)) ;;
  match blob_urls with
  | _ :: _ => put (completed blob_urls)
  | [] => put failed_no_clips
  end.

(** What [upload_to_vercel_blob] returns for a file that is on disk: the URL
    the store answered, or [None] when the store raised. *)
Definition store_answer (env : Env) (local_filepath : string)
  : option string :=
  match blob_put env ("clips/" ++ basename local_filepath) local_filepath with
  | Ok url => Some url
  | _ => None
  end.

(** A publish event carries the answer of the store. *)
Definition ev_store_answered (env : Env) (ev : event) : Prop :=
  match ev with
  | EvPublish local_filepath url => url = store_answer env local_filepath
  | _ => True
  end.

(** Line 212: what the upload of a clip on disk adds to [blob_urls]. *)
Definition kept_url (env : Env) (local_filepath : string) : list string :=
  match store_answer env local_filepath with
  | Some url => if truthy url then [url] else []
  | None => []
  end.


(** ** Vocabulary for the runs that do not return *)

(** No event of the list is a render. *)
Definition no_render (evs : list event) : bool :=
  forallb (fun ev => negb (is_render ev)) evs.

(** How [process_video_task] ends, given how the body of its [try] ends. *)
Definition outcome_of_job (body : result unit) : result unit :=
  match body with
  | Abort e => Abort e
  | _ => Ok tt
  end.

(** ** Statements of the specification that the code does not meet, in the
    specification's words *)


(** The responses of [n] polls in a row, without writes in between. *)
Fixpoint poll_responses (n : nat) (w : World) : list (result json) :=
  match n with
  | O => []
  | S n => fst (get_logs w) :: poll_responses n (snd (get_logs w))
  end.

(** The response hands the item to the client: as the record it returns, or
    among the lines of an idle response. *)
Definition delivers (response : result json) (item : json) : Prop :=
  response = Ok item \/
  exists logs, response = Ok (logging logs) /\ In item logs.

(** Every entry queued after the terminal record that a poll returned is
    delivered by a later poll. *)
Definition spec_later_entries_delivered (w : World)
    (queued_after : list json) : Prop :=
  forall item, In item queued_after ->
    exists n response,
      In response (poll_responses n (snd (get_logs w))) /\
      delivers response item.

(** Segments are disjoint: each one ends no later than any later one
    starts. *)
Definition spec_disjoint (segments : list (num * num)) : Prop :=
  forall j k sj ej sk ek,
    (j < k)%nat ->
    nth_error segments j = Some (sj, ej) ->
    nth_error segments k = Some (sk, ek) ->
    py_le ej sk = true.

(** The width of a horizontal crop in exact arithmetic:
    floor(frameH * targetW/targetH). *)
Definition spec_crop_width (frameH targetW targetH : Z) : Z :=
  Qfloor (inject_Z frameH * (inject_Z targetW / inject_Z targetH)).

(** The frame is cropped horizontally to [spec_crop_width] and then
    resized. *)
Definition spec_horizontal_crop (env : Env) (cfg : Config) (sub_clip : clip)
    (w : World) : Prop :=
  forall target_aspect,
    py_truediv (Int (SHORT_VIDEO_WIDTH cfg)) (Int (SHORT_VIDEO_HEIGHT cfg))
    = Ok target_aspect ->
    exists x_center,
      fst (crop_and_resize env cfg sub_clip target_aspect w)
      = Ok (Resize (CropX sub_clip x_center
                      (spec_crop_width (clip_h sub_clip)
                         (SHORT_VIDEO_WIDTH cfg) (SHORT_VIDEO_HEIGHT cfg)))
                   (SHORT_VIDEO_WIDTH cfg) (SHORT_VIDEO_HEIGHT cfg)).

(** ** Faults that the job does not catch *)

(** No fault outside [Exception] leaves the computation. *)
Definition never_aborts {A} (m : M A) : Prop :=
  forall w e, fst (m w) <> Abort e.

(** Whatever a collaborator raises is an instance of [Exception]. *)
Definition only_exceptions (env : Env) : Prop :=
  (forall cmd_list cwd e,
      subprocess_run env cmd_list cwd <> OtherBaseException e) /\
  (forall video_path e, open_video env video_path <> Abort e) /\
  (forall c e, frame_fault env c <> Some (BaseException e)) /\
  (forall c output_filepath e,
      write_videofile env c output_filepath <> Some (BaseException e)) /\
  (forall blob_path local_filepath e,
      blob_put env blob_path local_filepath <> Abort e).
(** * Properties *)

Open Scope list_scope.

(** ** Arithmetic helpers *)

Lemma Qlt_bool_iff (x y : Q) : Qlt_bool x y = true <-> x < y.
Proof.
  unfold Qlt_bool. rewrite negb_true_iff.
  split; intro H.
  - apply Qnot_le_lt. intro Hle. apply Qle_bool_iff in Hle. congruence.
  - destruct (Qle_bool y x) eqn:E; [|reflexivity].
    apply Qle_bool_iff in E. exfalso. apply (Qlt_not_le _ _ H E).
Qed.

Lemma Qlt_bool_false (x y : Q) : Qlt_bool x y = false <-> y <= x.
Proof.
  unfold Qlt_bool. rewrite negb_false_iff. apply Qle_bool_iff.
Qed.

Lemma Qle_bool_false (x y : Q) : Qle_bool x y = false <-> y < x.
Proof.
  rewrite <- Qlt_bool_iff. unfold Qlt_bool.
  destruct (Qle_bool x y); simpl; intuition congruence.
Qed.

(** Turn the comparisons of the goal and the context into facts on
    rationals. *)
Ltac to_Q :=
  repeat match goal with
    | H : Qlt_bool _ _ = true |- _ => apply Qlt_bool_iff in H
    | H : Qlt_bool _ _ = false |- _ => apply Qlt_bool_false in H
    | H : Qle_bool _ _ = true |- _ => apply Qle_bool_iff in H
    | H : Qle_bool _ _ = false |- _ => apply Qle_bool_false in H
    | H : Z.le _ _ |- _ => rewrite Zle_Qle in H
    | H : Z.lt _ _ |- _ => rewrite Zlt_Qlt in H
    | |- Qlt_bool _ _ = true => apply Qlt_bool_iff
    | |- Qlt_bool _ _ = false => apply Qlt_bool_false
    | |- Qle_bool _ _ = true => apply Qle_bool_iff
    | |- Qle_bool _ _ = false => apply Qle_bool_false
    end.

(** *** Comparing integers with a positive value, finite or not *)

Section Order.

Variable V : xreal.
Hypothesis V_pos : xlt (Real 0) V = true.

Lemma xle_refl_pos : xle V V = true.
Proof.
  destruct V; try discriminate; simpl; [|reflexivity].
  to_Q. apply Qle_refl.
Qed.

Lemma xle_false_xlt (a : Q) : xle V (Real a) = false <-> xlt (Real a) V = true.
Proof.
  destruct V; try discriminate; simpl.
  - rewrite Qle_bool_false, Qlt_bool_iff. reflexivity.
  - tauto.
Qed.

Lemma xlt_false_xle (a : Q) : xlt V (Real a) = false <-> xle (Real a) V = true.
Proof.
  destruct V; try discriminate; simpl.
  - rewrite Qlt_bool_false, Qle_bool_iff. reflexivity.
  - tauto.
Qed.

Lemma xlt_below (a b : Z) :
  (a <= b)%Z -> xlt (Real (inject_Z b)) V = true ->
  xlt (Real (inject_Z a)) V = true.
Proof.
  intro Hab. destruct V; simpl; try discriminate; [|reflexivity].
  intro H. to_Q. lra.
Qed.

Lemma xle_below (a b : Z) :
  (a <= b)%Z -> xle (Real (inject_Z b)) V = true ->
  xle (Real (inject_Z a)) V = true.
Proof.
  intro Hab. destruct V; simpl; try discriminate; [|reflexivity].
  intro H. to_Q. lra.
Qed.

Lemma xlt_xle_below (a b : Z) :
  (a <= b)%Z -> xlt (Real (inject_Z b)) V = true ->
  xle (Real (inject_Z a)) V = true.
Proof.
  intro Hab. destruct V; simpl; try discriminate; [|reflexivity].
  intro H. to_Q. lra.
Qed.

Lemma xle_xlt_below (a b : Z) :
  (a < b)%Z -> xle (Real (inject_Z b)) V = true ->
  xlt (Real (inject_Z a)) V = true.
Proof.
  intro Hab. destruct V; simpl; try discriminate; [|reflexivity].
  intro H. to_Q. lra.
Qed.

Lemma xlt_between (a b : Z) :
  (a <= b)%Z -> xlt V (Real (inject_Z a)) = true ->
  xlt (Real (inject_Z b)) V = true -> False.
Proof.
  intro Hab. destruct V; simpl; try discriminate.
  intros H1 H2. to_Q. lra.
Qed.

End Order.

Lemma py_comparisons_Int (a b : Z) :
  py_lt (Int a) (Int b) = (a <? b)%Z /\ py_le (Int a) (Int b) = (a <=? b)%Z.
Proof.
  unfold py_lt, py_le. simpl. split.
  - destruct (Z.ltb_spec a b) as [H | H]; to_Q; assumption.
  - destruct (Z.leb_spec a b) as [H | H]; to_Q; assumption.
Qed.
(** ** The window schedule *)

(** What a window returned by iteration [k] looks like, whatever the type of
    [clip_duration]. *)
Lemma window_inv (video_duration : float) (clip_duration : num) (k : nat)
    (s e : num) :
  window video_duration clip_duration k = Ok (Window s e) ->
  py_mul (Int (Z.of_nat k)) clip_duration = Ok s /\
  py_ge s (Float video_duration) = false /\
  exists e0,
    py_add s clip_duration = Ok e0 /\
    ((py_gt e0 (Float video_duration) = false /\ e = e0) \/
     (py_gt e0 (Float video_duration) = true /\ e = Float video_duration /\
      exists remaining half,
        py_sub (Float video_duration) s = Ok remaining /\
        py_truediv clip_duration (Int 2) = Ok half /\
        py_lt remaining (Float half) = false)).
Proof.
  unfold window, and_then.
  destruct (py_mul (Int (Z.of_nat k)) clip_duration) as [s0|?|?] eqn:Es;
    try discriminate.
  destruct (py_add s0 clip_duration) as [e0|?|?] eqn:Ee; try discriminate.
  destruct (py_ge s0 (Float video_duration)) eqn:E1; [discriminate|].
  destruct (py_gt e0 (Float video_duration)) eqn:E2.
  - destruct (py_sub (Float video_duration) s0) as [remaining|?|?] eqn:Er;
      try discriminate.
    destruct (py_truediv clip_duration (Int 2)) as [half|?|?] eqn:Eh;
      try discriminate.
    destruct (py_lt remaining (Float half)) eqn:E3; [discriminate|].
    intro H. inversion H; subst.
    split; [reflexivity|]. split; [assumption|].
    exists e0. split; [assumption|]. right. eauto 8.
  - intro H. inversion H; subst.
    split; [reflexivity|]. split; [assumption|].
    exists e. split; [assumption|]. left. auto.
Qed.

Section Schedule.

Variable video_duration : float.
Variable clip_duration : num.

Lemma plan_over_nth (m i k : nat) (s e : num) :
  nth_error (plan_over video_duration clip_duration (seq i m)) k = Some (s, e) ->
  window video_duration clip_duration (i + k) = Ok (Window s e).
Proof.
  revert i k. induction m as [|m IH]; intros i k; simpl.
  - destruct k; discriminate.
  - destruct (window video_duration clip_duration i) as [[| |s0 e0]|?|?] eqn:E;
      try (destruct k; discriminate).
    destruct k; simpl.
    + intro H. inversion H; subst. rewrite Nat.add_0_r. assumption.
    + intro H. apply IH in H. rewrite <- Nat.add_succ_comm. assumption.
Qed.

Lemma plan_over_length (m i : nat) :
  (List.length (plan_over video_duration clip_duration (seq i m)) <= m)%nat.
Proof.
  revert i. induction m as [|m IH]; intro i; simpl; [lia|].
  destruct (window video_duration clip_duration i) as [[| |s0 e0]|?|?];
    simpl; try lia.
  specialize (IH (S i)). lia.
Qed.

(** Where the schedule ends early, the next iteration left the loop. *)
Lemma plan_over_stop (m i : nat) :
  (List.length (plan_over video_duration clip_duration (seq i m)) < m)%nat ->
  forall s e,
    window video_duration clip_duration
      (i + List.length (plan_over video_duration clip_duration (seq i m)))
    <> Ok (Window s e).
Proof.
  revert i. induction m as [|m IH]; intro i; simpl; [lia|].
  destruct (window video_duration clip_duration i) as [[| |s0 e0]|?|?] eqn:E;
    simpl;
    try (intros _ ? ?; rewrite Nat.add_0_r, E; discriminate).
  intro Hlt. rewrite <- Nat.add_succ_comm. apply IH. lia.
Qed.

(** The schedule is complete when every iteration reaches [subclip]. *)
Lemma plan_over_all (indices : list nat) :
  (forall i, In i indices ->
     exists s e, window video_duration clip_duration i = Ok (Window s e)) ->
  List.length (plan_over video_duration clip_duration indices)
  = List.length indices.
Proof.
  induction indices as [|i rest IH]; intro H; [reflexivity|]. simpl.
  destruct (H i (or_introl eq_refl)) as (s & e & ->). simpl.
  rewrite IH; [reflexivity|]. intros j Hj. apply H. right. exact Hj.
Qed.

Lemma plan_nth (num_clips k : nat) (s e : num) :
  nth_error (plan video_duration clip_duration num_clips) k = Some (s, e) ->
  window video_duration clip_duration k = Ok (Window s e).
Proof. intro H. apply plan_over_nth in H. assumption. Qed.

End Schedule.

(** The iteration on an int [clip_duration]: start and end are ints. *)
Lemma window_whole (video_duration : float) (clip_duration : Z) (k : nat) :
  window video_duration (Int clip_duration) k
  = (let s := Int (Z.of_nat k * clip_duration) in
     let e := Int (Z.of_nat k * clip_duration + clip_duration) in
     if py_ge s (Float video_duration) then Ok ReachedEnd
     else if py_gt e (Float video_duration) then
       and_then (py_sub (Float video_duration) s) (fun remaining =>
       and_then (py_truediv (Int clip_duration) (Int 2)) (fun half =>
         if py_lt remaining (Float half) then Ok (TooShort remaining)
         else Ok (Window s (Float video_duration))))
     else Ok (Window s e)).
Proof. reflexivity. Qed.

(** *** With a whole number of seconds per clip, as the application
    configures it, the schedule is computed on ints *)

Section WholeSeconds.

Variable video_duration : float.
Variable clip_duration : Z.
Hypothesis video_duration_pos : py_lt (Int 0) (Float video_duration) = true.
Hypothesis clip_duration_pos : (0 < clip_duration)%Z.

Let start_of (k : nat) : Z := (Z.of_nat k * clip_duration)%Z.

(** The test of line 125 lets the clamped window of iteration [k] through. *)
Let long_enough (k : nat) : Prop :=
  exists remaining half,
    py_sub (Float video_duration) (Int (start_of k)) = Ok remaining /\
    py_truediv (Int clip_duration) (Int 2) = Ok half /\
    py_lt remaining (Float half) = false.

Lemma window_whole_inv (k : nat) (s e : num) :
  window video_duration (Int clip_duration) k = Ok (Window s e) ->
  s = Int (start_of k) /\
  py_lt s (Float video_duration) = true /\
  ((e = Int (start_of k + clip_duration) /\
    py_le e (Float video_duration) = true) \/
   (e = Float video_duration /\
    py_lt (Float video_duration) (Int (start_of k + clip_duration)) = true /\
    long_enough k)).
Proof using video_duration_pos.
  intro H. apply window_inv in H.
  destruct H as (Hs & Hge & e0 & He0 & Hcases).
  change (Ok (Int (start_of k)) = Ok s) in Hs. inversion Hs; subst s.
  change (Ok (Int (start_of k + clip_duration)) = Ok e0) in He0.
  inversion He0; subst e0.
  split; [reflexivity|].
  split; [apply (xle_false_xlt _ video_duration_pos), Hge|].
  destruct Hcases as [[Hgt ->] | (Hgt & -> & Hlong)].
  - left. split; [reflexivity|].
    apply (xlt_false_xle _ video_duration_pos), Hgt.
  - right. auto.
Qed.

Lemma py_ge_false (a : Z) :
  py_ge (Int a) (Float video_duration) = false <->
  py_lt (Int a) (Float video_duration) = true.
Proof using video_duration_pos.
  exact (xle_false_xlt _ video_duration_pos (inject_Z a)).
Qed.

Lemma py_gt_false (a : Z) :
  py_gt (Int a) (Float video_duration) = false <->
  py_le (Int a) (Float video_duration) = true.
Proof using video_duration_pos.
  exact (xlt_false_xle _ video_duration_pos (inject_Z a)).
Qed.

(** Iteration [k] reaches [subclip] exactly when its start lies inside the
    video and its clamped window passes the test of line 125. *)
Lemma window_whole_is_Window (k : nat) :
  (exists s e, window video_duration (Int clip_duration) k = Ok (Window s e))
  <->
  py_lt (Int (start_of k)) (Float video_duration) = true /\
  (py_lt (Float video_duration) (Int (start_of k + clip_duration)) = true ->
   long_enough k).
Proof using video_duration_pos.
  split.
  - intros (s & e & H). apply window_whole_inv in H.
    destruct H as (-> & Hs & [[-> Hle] | (_ & _ & Hlong)]).
    + split; [assumption|]. intro Hlt. exfalso.
      apply py_gt_false in Hle.
      change (py_gt (Int (start_of k + clip_duration)) (Float video_duration)
              = true) in Hlt.
      congruence.
    + split; auto.
  - intros [Hs Hlong]. rewrite window_whole. cbv zeta.
    fold (start_of k).
    rewrite (proj2 (py_ge_false _) Hs).
    destruct (py_gt (Int (start_of k + clip_duration)) (Float video_duration))
      eqn:E2; [|eauto].
    destruct (Hlong E2) as (remaining & half & Hr & Hh & Hlt).
    rewrite Hr. cbn [and_then]. rewrite Hh. cbn [and_then]. rewrite Hlt.
    eauto.
Qed.

(** A later window in range forces every earlier one to be a full window. *)
Lemma window_whole_earlier (j k : nat) :
  (j < k)%nat ->
  py_lt (Int (start_of k)) (Float video_duration) = true ->
  (start_of j + clip_duration <= start_of k)%Z /\
  window video_duration (Int clip_duration) j
  = Ok (Window (Int (start_of j)) (Int (start_of j + clip_duration))).
Proof using video_duration_pos clip_duration_pos.
  intros Hjk Hk.
  assert (Hstep : (start_of j + clip_duration <= start_of k)%Z)
    by (unfold start_of; nia).
  split; [assumption|].
  rewrite window_whole. cbv zeta. fold (start_of j).
  assert (H1 : py_ge (Int (start_of j)) (Float video_duration) = false).
  { apply py_ge_false.
    apply (xlt_below _ video_duration_pos (start_of j) (start_of k)); [lia | exact Hk]. }
  assert (H2 : py_gt (Int (start_of j + clip_duration)) (Float video_duration)
               = false).
  { apply py_gt_false.
    apply (xlt_xle_below _ video_duration_pos (start_of j + clip_duration)
             (start_of k));
      [lia | exact Hk]. }
  rewrite H1, H2. reflexivity.
Qed.

Lemma plan_whole_index (num_clips k : nat) :
  (k < num_clips)%nat ->
  ((k < List.length (plan video_duration (Int clip_duration) num_clips))%nat
   <->
   exists s e, window video_duration (Int clip_duration) k = Ok (Window s e)).
Proof using video_duration_pos clip_duration_pos.
  intro Hk. unfold plan. split.
  - intro Hlen. apply nth_error_Some in Hlen.
    destruct (nth_error _ k) as [[s e]|] eqn:E; [|congruence].
    apply plan_over_nth in E. eauto.
  - intro Hw.
    destruct (Nat.lt_ge_cases k
                (List.length (plan_over video_duration (Int clip_duration)
                           (seq 0 num_clips)))) as [|Hge]; [assumption|].
    exfalso.
    apply Nat.le_lteq in Hge. destruct Hge as [Hlt | Heq].
    + apply window_whole_is_Window in Hw. destruct Hw as [Hs _].
      destruct (window_whole_earlier _ _ Hlt Hs) as [_ Hj].
      apply (plan_over_stop video_duration (Int clip_duration) num_clips 0)
        in Hj; [assumption | lia].
    + destruct Hw as (s & e & Hw).
      apply (plan_over_stop video_duration (Int clip_duration) num_clips 0
               ltac:(lia) s e).
      simpl. rewrite Heq. exact Hw.
Qed.

End WholeSeconds.

(** A video of 100 s gives three full windows and a clamped fourth; the
    fifth candidate starts at 108 s and is never reached. *)
Example plan_100_27_5 :
  plan 100 (Int 27) 5
  = [(Int 0, Int 27); (Int 27, Int 54); (Int 54, Int 81); (Int 81, Float 100)].
Proof. vm_compute. reflexivity. Qed.

(** A video of 30 s: the second candidate clamps to 3 s and is dropped. *)
Example plan_30_27_5 : plan 30 (Int 27) 5 = [(Int 0, Int 27)].
Proof. vm_compute. reflexivity. Qed.

(** With clips of 0.3 s, computed in binary64, the sixth segment ends at
    1.8 and the seventh starts at 1.7999999999999998: they overlap. *)
Lemma segments_overlap_in_binary64 :
  ~ spec_disjoint (plan 3 (Float (3 / 10)) 10).
Proof.
  intro H.
  remember (plan 3 (Float (3 / 10)) 10) as segments eqn:E.
  vm_compute in E. subst segments.
  specialize (H 5%nat 6%nat _ _ _ _ ltac:(lia) eq_refl eq_refl).
  vm_compute in H. discriminate H.
Qed.

(** C1 (amended). Segment planning.  Whatever the type of clipDuration, in
    Python's arithmetic (binary64 as soon as a float takes part): segment k
    of the plan is the window of candidate k, which starts at k*clipDuration
    and ends at start+clipDuration, or at totalDuration when that end
    compares greater, a clamped window being kept only when the computed
    totalDuration-start does not compare below the computed clipDuration/2;
    its start does not compare >= totalDuration; there are at most clipCount
    segments, and the plan stops at the first candidate that is not kept.
    For a clipDuration that is an int, as the application configures it,
    starts and unclamped ends are exact: every emitted segment satisfies
    [0 <= start < end <= totalDuration], segments are strictly ordered and
    disjoint, candidate k is emitted exactly when it starts before
    totalDuration and passes the half-length test, and the segments number
    clipCount whenever [totalDuration >= clipCount*clipDuration]. *)
Theorem segment_planning (totalDuration : float) (clipDuration : num)
    (clipCount : nat) :
  py_gt (Float totalDuration) (Int 0) = true ->
  py_gt clipDuration (Int 0) = true ->
  (1 <= clipCount)%nat ->
  let segments := plan totalDuration clipDuration clipCount in
  (List.length segments <= clipCount)%nat /\
  (forall k s e, nth_error segments k = Some (s, e) ->
     py_mul (Int (Z.of_nat k)) clipDuration = Ok s /\
     py_ge s (Float totalDuration) = false /\
     exists e0,
       py_add s clipDuration = Ok e0 /\
       ((py_gt e0 (Float totalDuration) = false /\ e = e0) \/
        (py_gt e0 (Float totalDuration) = true /\ e = Float totalDuration /\
         exists remaining half,
           py_sub (Float totalDuration) s = Ok remaining /\
           py_truediv clipDuration (Int 2) = Ok half /\
           py_lt remaining (Float half) = false))) /\
  ((List.length segments < clipCount)%nat ->
   forall s e,
     window totalDuration clipDuration (List.length segments)
     <> Ok (Window s e)) /\
  (forall d, clipDuration = Int d ->
     (forall k s e, nth_error segments k = Some (s, e) ->
        s = Int (Z.of_nat k * d) /\
        (e = Int (Z.of_nat k * d + d) \/ e = Float totalDuration)) /\
     (forall k, (k < clipCount)%nat ->
        ((k < List.length segments)%nat <->
         py_lt (Int (Z.of_nat k * d)) (Float totalDuration) = true /\
         (py_lt (Float totalDuration) (Int (Z.of_nat k * d + d)) = true ->
          exists remaining half,
            py_sub (Float totalDuration) (Int (Z.of_nat k * d))
            = Ok remaining /\
            py_truediv (Int d) (Int 2) = Ok half /\
            py_lt remaining (Float half) = false))) /\
     (forall s e, In (s, e) segments ->
        py_le (Int 0) s = true /\ py_lt s e = true /\
        py_le e (Float totalDuration) = true) /\
     (forall j k sj ej sk ek, (j < k)%nat ->
        nth_error segments j = Some (sj, ej) ->
        nth_error segments k = Some (sk, ek) ->
        py_lt sj sk = true /\ py_le ej sk = true) /\
     (py_le (Int (Z.of_nat clipCount * d)) (Float totalDuration) = true ->
      List.length segments = clipCount)).
Proof.
  intros Htotal Hclip Hcount segments. subst segments.
  split; [apply plan_over_length|].
  split; [intros k s e H; apply plan_nth, window_inv in H; exact H|].
  split; [intro Hlt; apply (plan_over_stop _ _ clipCount 0 Hlt)|].
  intros d ->.
  assert (Hd : (0 < d)%Z).
  { unfold py_gt in Hclip. simpl in Hclip. to_Q.
    rewrite <- Zlt_Qlt in Hclip. exact Hclip. }
  change (py_lt (Int 0) (Float totalDuration) = true) in Htotal.
  split; [|split; [|split; [|split]]].
  - intros k s e H. apply plan_nth, (window_whole_inv _ _ Htotal) in H.
    destruct H as (-> & _ & [[-> _] | (-> & _)]); auto.
  - intros k Hk. rewrite (plan_whole_index _ _ Htotal Hd) by assumption.
    apply (window_whole_is_Window _ _ Htotal).
  - intros s e H. apply In_nth_error in H. destruct H as [k H].
    apply plan_nth, (window_whole_inv _ _ Htotal) in H.
    destruct H as (-> & Hs & [[-> Hle] | (-> & _)]).
    + rewrite !(proj1 (py_comparisons_Int _ _)),
              !(proj2 (py_comparisons_Int _ _)).
      split; [apply Z.leb_le; nia|]. split; [apply Z.ltb_lt; lia|].
      exact Hle.
    + rewrite (proj2 (py_comparisons_Int _ _)).
      split; [apply Z.leb_le; nia|]. split; [exact Hs|].
      apply (xle_refl_pos _ Htotal).
  - intros j k sj ej sk ek Hjk Hj Hk.
    apply plan_nth, (window_whole_inv _ _ Htotal) in Hj, Hk.
    destruct Hk as (-> & Hk & _).
    destruct (window_whole_earlier totalDuration d Htotal Hd j k Hjk Hk)
      as [Hstep _].
    destruct Hj as (-> & _ & [[-> _] | (-> & Hlt & _)]).
    + rewrite (proj1 (py_comparisons_Int _ _)),
              (proj2 (py_comparisons_Int _ _)).
      split; [apply Z.ltb_lt; lia | apply Z.leb_le; lia].
    + exfalso. apply (xlt_between _ Htotal _ _ Hstep Hlt Hk).
  - intro Hfull. unfold plan.
    rewrite plan_over_all; [apply length_seq|].
    intros k Hk. apply in_seq in Hk.
    apply (window_whole_is_Window _ _ Htotal). split.
    + apply (xle_xlt_below _ Htotal (Z.of_nat k * d) (Z.of_nat clipCount * d));
        [nia | exact Hfull].
    + intro Hlt. exfalso.
      apply (xlt_false_xle _ Htotal) in Hfull.
      assert (Hle : (Z.of_nat k * d + d <= Z.of_nat clipCount * d)%Z) by nia.
      unfold py_lt, py_le in *. simpl in *.
      destruct (SF_value (Prim2SF totalDuration)); simpl in *;
        try discriminate.
      to_Q. lra.
Qed.

Lemma segment_planning_witness :
  let segments := plan 100 (Int 27) 5 in
  List.length segments = 4%nat /\
  py_lt (Int 54) (Int 81) = true /\ py_le (Int 81) (Int 81) = true.
Proof.
  pose proof (segment_planning 100 (Int 27) 5 eq_refl eq_refl
                ltac:(lia)) as H.
  cbv zeta in H. destruct H as (_ & _ & _ & H).
  destruct (H 27%Z eq_refl) as (_ & _ & _ & Hordered & _).
  split; [vm_compute; reflexivity|].
  apply (Hordered 2%nat 3%nat (Int 54) (Int 81) (Int 81) (Float 100));
    [lia | vm_compute; reflexivity ..].
Defined.
(** ** Frame geometry *)

Lemma finite_value_floor (m : positive) (e : Z) :
  Qfloor (finite_value false m e) = Z.shiftl (Z.pos m) e.
Proof.
  unfold finite_value.
  destruct (Z.le_gt_cases 0 e) as [He | He].
  - rewrite Z.shiftl_mul_pow2 by assumption.
    rewrite <- (Qfloor_Z (Z.pos m * 2 ^ e)). apply Qfloor_comp.
    rewrite inject_Z_mult, Zpower_Qpower by assumption. reflexivity.
  - rewrite Z.shiftl_div_pow2 by lia.
    rewrite Zdiv_Qdiv. apply Qfloor_comp.
    rewrite Zpower_Qpower by lia. unfold Qdiv.
    rewrite Qpower_opp, Qinv_involutive. reflexivity.
Qed.

Lemma finite_value_pos (m : positive) (e : Z) : 0 < finite_value false m e.
Proof.
  unfold finite_value. apply Qmult_lt_0_compat; [reflexivity|].
  apply Qpower_0_lt. reflexivity.
Qed.

(** On a float that is not negative, [int] is the floor of the value. *)
Lemma py_int_floor (f : float) (q : Q) :
  value (Float f) = Real q -> 0 <= q -> py_int (Float f) = Ok (Qfloor q).
Proof.
  unfold value, py_int.
  destruct (Prim2SF f) as [s|s| |s m e]; simpl.
  - intros H _. inversion H. reflexivity.
  - destruct s; discriminate.
  - discriminate.
  - intros H Hq. inversion H; subst q. clear H. destruct s.
    + exfalso. pose proof (finite_value_pos m e) as Hpos.
      unfold finite_value in *. lra.
    + rewrite finite_value_floor. reflexivity.
Qed.

(** A 1280x720 frame cropped for a 840x1200 target: the binary64 product
    720 * 0.7 is 503.99999999999994, so the crop is 503 wide, where
    floor(720 * 840/1200) is 504. *)
Lemma crop_width_below_floor :
  spec_crop_width 720 840 1200 = 504%Z /\
  fst (crop_and_resize Sample.env Sample.config_840x1200 Sample.hd720_clip
         (840 / 1200) Sample.empty_world)
  = Ok (Resize (CropX Sample.hd720_clip 640 503) 840 1200) /\
  ~ spec_horizontal_crop Sample.env Sample.config_840x1200 Sample.hd720_clip
      Sample.empty_world.
Proof.
  split; [reflexivity|]. split; [vm_compute; reflexivity|].
  intro H. destruct (H (840 / 1200)%float eq_refl) as [x_center Hx].
  vm_compute in Hx. discriminate Hx.
Qed.

(** C2 (amended). Frame geometry, with the aspect ratios, the product and
    the quotient computed in binary64 as the code computes them: a frame
    whose computed aspect compares greater than the computed target aspect
    is cropped horizontally, centered at frameW/2, to width
    int(frameH * targetAspect), the floor of the rounded product, with the
    full height kept; one whose aspect compares smaller is cropped
    vertically, centered at frameH/2, to height int(frameW / targetAspect)
    with the full width kept; otherwise there is no crop; the crop comes
    first and the result is resized to exactly (targetW, targetH).  A
    1920x1080 frame with target 1080x1920 is cropped to width 607, height
    1080. *)
Theorem frame_geometry (env : Env) (cfg : Config) (sub_clip : clip)
    (frameW frameH targetW targetH : Z) (world : World)
    (target_aspect src_aspect : float) :
  (0 < frameW)%Z -> (0 < frameH)%Z -> (0 < targetW)%Z -> (0 < targetH)%Z ->
  clip_w sub_clip = frameW -> clip_h sub_clip = frameH ->
  SHORT_VIDEO_WIDTH cfg = targetW -> SHORT_VIDEO_HEIGHT cfg = targetH ->
  (forall c, frame_fault env c = None) ->
  py_truediv (Int targetW) (Int targetH) = Ok target_aspect ->
  py_truediv (Int frameW) (Int frameH) = Ok src_aspect ->
  let run := crop_and_resize env cfg sub_clip target_aspect world in
  (py_gt (Float src_aspect) (Float target_aspect) = true ->
   forall product new_width x_center,
     py_mul (Int frameH) (Float target_aspect) = Ok product ->
     py_int product = Ok new_width ->
     py_truediv (Int frameW) (Int 2) = Ok x_center ->
     let cropped := CropX sub_clip x_center new_width in
     run = (Ok (Resize cropped targetW targetH), world) /\
     clip_w cropped = new_width /\ clip_h cropped = frameH /\
     (forall q, value product = Real q -> 0 <= q -> new_width = Qfloor q)) /\
  (py_lt (Float src_aspect) (Float target_aspect) = true ->
   forall quotient new_height y_center,
     py_truediv (Int frameW) (Float target_aspect) = Ok quotient ->
     py_int (Float quotient) = Ok new_height ->
     py_truediv (Int frameH) (Int 2) = Ok y_center ->
     let cropped := CropY sub_clip y_center new_height in
     run = (Ok (Resize cropped targetW targetH), world) /\
     clip_w cropped = frameW /\ clip_h cropped = new_height /\
     (forall q, value (Float quotient) = Real q -> 0 <= q ->
                new_height = Qfloor q)) /\
  (py_gt (Float src_aspect) (Float target_aspect) = false ->
   py_lt (Float src_aspect) (Float target_aspect) = false ->
   run = (Ok (Resize sub_clip targetW targetH), world)) /\
  (forall cropped, run = (Ok (Resize cropped targetW targetH), world) ->
   clip_w (Resize cropped targetW targetH) = targetW /\
   clip_h (Resize cropped targetW targetH) = targetH) /\
  (frameW = 1920%Z -> frameH = 1080%Z ->
   targetW = 1080%Z -> targetH = 1920%Z ->
   run = (Ok (Resize (CropX sub_clip 960 607) 1080 1920), world) /\
   clip_h (CropX sub_clip 960 607) = 1080%Z).
Proof.
  intros HfW HfH HtW HtH Hw Hh HcW HcH Hfault Hta Hsa run.
  assert (Hwide :
    py_gt (Float src_aspect) (Float target_aspect) = true ->
    forall product new_width x_center,
      py_mul (Int frameH) (Float target_aspect) = Ok product ->
      py_int product = Ok new_width ->
      py_truediv (Int frameW) (Int 2) = Ok x_center ->
      run = (Ok (Resize (CropX sub_clip x_center new_width) targetW targetH),
             world)).
  { intros Hgt product new_width x_center Hp Hn Hx.
    subst run. unfold crop_and_resize.
    rewrite Hw, Hh, HcW, HcH.
    cbv beta iota zeta delta [bind lift moviepy ret fst snd].
    rewrite Hsa. cbv beta iota. rewrite Hgt. cbv beta iota.
    rewrite Hp. cbv beta iota. rewrite Hn. cbv beta iota.
    rewrite Hx. cbv beta iota. rewrite !Hfault. reflexivity. }
  split; [|split; [|split; [|split]]].
  - intros Hgt product new_width x_center Hp Hn Hx. cbv zeta.
    split; [apply (Hwide Hgt _ _ _ Hp Hn Hx)|].
    split; [reflexivity|]. split; [exact Hh|].
    intros q Hq Hpos. destruct product as [z|f].
    + unfold py_mul, py_binop, to_float, and_then in Hp.
      destruct (Z.abs frameH <? _)%Z; discriminate Hp.
    + rewrite (py_int_floor _ _ Hq Hpos) in Hn. inversion Hn. reflexivity.
  - intros Hlt quotient new_height y_center Hquot Hn Hy. cbv zeta.
    split.
    { subst run. unfold crop_and_resize.
      rewrite Hw, Hh, HcW, HcH.
      cbv beta iota zeta delta [bind lift moviepy ret fst snd].
      rewrite Hsa. cbv beta iota.
      assert (Hgt : py_gt (Float src_aspect) (Float target_aspect) = false).
      { unfold py_gt, py_lt in *.
        destruct (value (Float src_aspect)), (value (Float target_aspect));
          simpl in *; try discriminate; try reflexivity.
        to_Q. lra. }
      rewrite Hgt, Hlt. cbv beta iota.
      rewrite Hquot. cbv beta iota. rewrite Hn. cbv beta iota.
      rewrite Hy. cbv beta iota. rewrite !Hfault. reflexivity. }
    split; [exact Hw|]. split; [reflexivity|].
    intros q Hq Hpos.
    rewrite (py_int_floor _ _ Hq Hpos) in Hn. inversion Hn. reflexivity.
  - intros Hgt Hlt. subst run. unfold crop_and_resize.
    rewrite Hw, Hh, HcW, HcH.
    cbv beta iota zeta delta [bind lift moviepy ret fst snd].
    rewrite Hsa. cbv beta iota. rewrite Hgt, Hlt. cbv beta iota.
    rewrite !Hfault. reflexivity.
  - intros cropped _. split; reflexivity.
  - intros -> -> -> ->.
    vm_compute in Hta. inversion Hta; subst target_aspect.
    vm_compute in Hsa. inversion Hsa; subst src_aspect.
    split; [|simpl; exact Hh].
    apply (Hwide eq_refl (Float 607.5) 607%Z 960%float);
      vm_compute; reflexivity.
Qed.

Lemma frame_geometry_witness :
  crop_and_resize Sample.env app_config Sample.hd_clip (1080 / 1920)
    Sample.empty_world
  = (Ok (Resize (CropX Sample.hd_clip 960 607) 1080 1920),
     Sample.empty_world).
Proof.
  destruct (frame_geometry Sample.env app_config Sample.hd_clip
              1920 1080 1080 1920 Sample.empty_world
              (1080 / 1920) (1920 / 1080)
              eq_refl eq_refl eq_refl eq_refl eq_refl eq_refl eq_refl eq_refl
              (fun _ => eq_refl) eq_refl eq_refl)
    as (_ & _ & _ & _ & Hhd).
  destruct (Hhd eq_refl eq_refl eq_refl eq_refl) as [Hrun _].
  exact Hrun.
Defined.
(** ** Reasoning about runs *)

Lemma wp_ret {A} (a : A) w Q : Q (Ok a) w -> wp (ret a) w Q.
Proof. exact (fun H => H). Qed.

Lemma wp_raise {A} (e : string) w (Q : result A -> World -> Prop) :
  Q (Raise e) w -> wp (raise e) w Q.
Proof. exact (fun H => H). Qed.

Lemma wp_abort {A} (e : string) w (Q : result A -> World -> Prop) :
  Q (Abort e) w -> wp (abort e) w Q.
Proof. exact (fun H => H). Qed.

Lemma wp_lift {A} (r : result A) w Q : Q r w -> wp (lift r) w Q.
Proof. exact (fun H => H). Qed.

Lemma wp_bind {A B} (m : M A) (k : A -> M B) w Q :
  wp m w (fun r w1 =>
            match r with
            | Ok a => wp (k a) w1 Q
            | Raise e => Q (Raise e) w1
            | Abort e => Q (Abort e) w1
            end) ->
  wp (bind m k) w Q.
Proof.
  unfold wp, bind. destruct (m w) as [[a|e|e] w1]; simpl; auto.
Qed.

Lemma wp_try {A} (m : M A) (handler : string -> M A) w Q :
  wp m w (fun r w1 =>
            match r with
            | Ok a => Q (Ok a) w1
            | Raise e => wp (handler e) w1 Q
            | Abort e => Q (Abort e) w1
            end) ->
  wp (try_except m handler) w Q.
Proof.
  unfold wp, try_except. destruct (m w) as [[a|e|e] w1]; simpl; auto.
Qed.

Lemma wp_conseq {A} (m : M A) w (Q Q' : result A -> World -> Prop) :
  wp m w Q -> (forall r w', Q r w' -> Q' r w') -> wp m w Q'.
Proof. unfold wp. auto. Qed.

(** Use the specification [lem] for the first action of a sequence. *)
Ltac wp_step lem :=
  apply wp_bind; eapply wp_conseq; [apply lem | cbv beta].

Lemma step_refl w : step [] [] w w.
Proof. unfold step. simpl. rewrite !app_nil_r. auto. Qed.

Lemma step_trans l1 e1 l2 e2 w w1 w2 :
  step l1 e1 w w1 -> step l2 e2 w1 w2 -> step (l1 ++ l2) (e1 ++ e2) w w2.
Proof.
  intros (Hq1 & Ht1 & Hth1) (Hq2 & Ht2 & Hth2). unfold step.
  rewrite Hq2, Hq1, Ht2, Ht1, Hth2, Hth1, map_app, !app_assoc. auto.
Qed.

Lemma quiet_refl w : quiet w w.
Proof. exists []. apply step_refl. Qed.

Lemma quiet_trans w w1 w2 : quiet w w1 -> quiet w1 w2 -> quiet w w2.
Proof.
  intros [l1 H1] [l2 H2]. exists (l1 ++ l2).
  apply (step_trans _ _ _ _ _ _ _ H1 H2).
Qed.

Section Runs.

Variable env : Env.
Variable cfg : Config.

Lemma log_message_spec message w :
  wp (log_message message) w
     (fun r w' => r = Ok tt /\ step [message] [] w w' /\ files w' = files w).
Proof.
  unfold wp, log_message, bind, print, put, step. simpl.
  rewrite app_nil_r. auto.
Qed.

Lemma log_message_quiet message w :
  wp (log_message message) w
     (fun r w' => r = Ok tt /\ quiet w w' /\ files w' = files w).
Proof.
  eapply wp_conseq; [apply log_message_spec|].
  intros r w' (Hr & Hs & Hf). unfold quiet. eauto.
Qed.

Lemma moviepy_spec c w :
  wp (moviepy env c) w
     (fun r w' =>
        w' = w /\
        (r = Ok c \/ (exists e, r = Raise e) \/ exists e, r = Abort e)).
Proof.
  unfold wp, moviepy. destruct (frame_fault env c) as [[e|e]|]; simpl; eauto.
Qed.

Lemma os_remove_spec path w :
  wp (os_remove env path) w
     (fun r w' =>
        exists ok, step [] [EvRemove path ok] w w' /\
          ((r = Ok tt /\ ok = true /\
            files w' = filter (fun p => negb (String.eqb path p)) (files w))
           \/
           (exists e, r = Raise e /\ ok = false /\ files w' = files w /\
              (on_disk path (files w) = true ->
               remove_fault env path = Some e)))).
Proof.
  unfold wp, os_remove, bind, path_exists, emit, unlink, raise, step.
  destruct (on_disk path (files w)) eqn:E; simpl.
  - destruct (remove_fault env path) eqn:F; simpl.
    + exists false. rewrite app_nil_r. split; [auto|]. right. eauto 6.
    + exists true. rewrite app_nil_r. auto.
  - exists false. rewrite app_nil_r. split; [auto|]. right.
    eexists. repeat split. discriminate.
Qed.

(** The [try: os.remove(path); log_message(..) except OSError] blocks of
    lines 215-219 and 222-226. *)
Lemma cleanup_spec path (done : string) (failed : string -> string) w :
  wp (try_except (os_remove env path ;; log_message done)
                 (fun e => log_message (failed e))) w
     (fun r w' =>
        r = Ok tt /\
        exists line ok, step [line] [EvRemove path ok] w w' /\
          (forall p, on_disk p (files w') = true ->
                     on_disk p (files w) = true) /\
          (remove_fault env path = None -> on_disk path (files w') = false)).
Proof.
  apply wp_try. wp_step os_remove_spec.
  intros r w1 (ok & Hstep & [(-> & -> & Hf) | (e & -> & -> & Hf & Hwhy)]).
  - eapply wp_conseq; [apply log_message_spec|].
    intros r w2 (-> & Hlog & Hf2). split; [reflexivity|].
    exists done, true. split.
    + apply (step_trans _ _ _ _ _ _ _ Hstep Hlog).
    + rewrite Hf2, Hf. unfold on_disk. split.
      * intros p Hp. apply existsb_exists in Hp. destruct Hp as (x & Hx & Hpx).
        apply filter_In in Hx. apply existsb_exists. exists x. tauto.
      * intros _. apply not_true_is_false. intro Hp.
        apply existsb_exists in Hp. destruct Hp as (x & Hx & Hpx).
        apply filter_In in Hx. destruct Hx as [_ Hx].
        rewrite Hpx in Hx. discriminate.
  - eapply wp_conseq; [apply log_message_spec|].
    intros r w2 (-> & Hlog & Hf2). split; [reflexivity|].
    exists (failed e), false. split.
    + apply (step_trans _ _ _ _ _ _ _ Hstep Hlog).
    + rewrite Hf2, Hf. split; [auto|].
      intro Hnone. apply not_true_is_false. intro Hp.
      apply Hwhy in Hp. congruence.
Qed.

End Runs.

(** Step over a [log_message]. *)
Ltac wp_log :=
  wp_step log_message_quiet;
  let r := fresh "r" in let w := fresh "w" in
  let Hq := fresh "Hq" in let Hf := fresh "Hf" in
  intros r w (-> & Hq & Hf).

Section Acquisition.

Variable env : Env.

Lemma run_subprocess_command_quiet cmd_list error_msg_prefix cwd w :
  wp (run_subprocess_command env cmd_list error_msg_prefix cwd) w
     (fun _ w' => quiet w w').
Proof.
  unfold run_subprocess_command.
  apply wp_bind. unfold wp at 1, create_files. simpl.
  set (w0 := mkWorld _ _ _ _ _).
  assert (H0 : quiet w w0) by (exists []; unfold step; simpl;
                               rewrite !app_nil_r; auto).
  destruct (subprocess_run env cmd_list cwd).
  - apply wp_ret. assumption.
  - do 3 wp_log. apply wp_ret. eauto using quiet_trans.
  - do 2 wp_log. apply wp_ret. eauto using quiet_trans.
  - apply wp_raise. assumption.
  - apply wp_abort. assumption.
Qed.

Lemma download_fallback_quiet temp_dir timestamp downloaded_filepath w :
  wp (download_fallback env temp_dir timestamp downloaded_filepath) w
     (fun _ w' => quiet w w').
Proof.
  unfold download_fallback. wp_log.
  apply wp_bind. unfold wp at 1, list_files. simpl.
  destruct (glob_newest_first env _ (files w0)) as [|newest rest].
  - wp_log. apply wp_ret. eauto using quiet_trans.
  - wp_log. apply wp_bind. unfold wp at 1, path_exists. simpl.
    destruct (on_disk newest (files w1)).
    + apply wp_ret. eauto using quiet_trans.
    + wp_log. apply wp_ret. eauto using quiet_trans.
Qed.

(** Acquisition writes log lines only: no record, no event. *)
Lemma download_quiet youtube_url temp_dir w :
  wp (download_youtube_video_to_temp env youtube_url temp_dir) w
     (fun _ w' => quiet w w').
Proof.
  unfold download_youtube_video_to_temp. do 2 wp_log.
  wp_step run_subprocess_command_quiet.
  intros [[stdout|]|e|e] w2 Hq2.
  - destruct (destination_in env stdout) as [dest|].
    + apply wp_bind. unfold wp at 1, path_exists. simpl.
      destruct (on_disk _ (files w2)).
      * wp_log. apply wp_ret. eauto 6 using quiet_trans.
      * eapply wp_conseq; [apply download_fallback_quiet|].
        intros. cbv beta in *. eauto 6 using quiet_trans.
    + eapply wp_conseq; [apply download_fallback_quiet|].
      intros. cbv beta in *. eauto 6 using quiet_trans.
  - apply wp_ret. eauto using quiet_trans.
  - eauto using quiet_trans.
  - eauto using quiet_trans.
Qed.

End Acquisition.

(** Step over a [log_message], keeping the line that was written. *)
Ltac wp_line :=
  wp_step log_message_spec;
  let r := fresh "r" in let w := fresh "w" in
  let Hs := fresh "Hs" in let Hf := fresh "Hf" in
  intros r w (-> & Hs & Hf).

(** Merge consecutive [step] facts into one. *)
Ltac chain :=
  repeat match goal with
         | H1 : step _ _ ?w ?w1, H2 : step _ _ ?w1 ?w2 |- _ =>
             let H := fresh "Hs" in
             pose proof (step_trans _ _ _ _ _ _ _ H1 H2) as H;
             cbn [app] in H; rewrite ?app_nil_r in H; clear H1 H2
         end.

Section Rendering.

Variable env : Env.
Variable cfg : Config.

Lemma create_files_spec paths w :
  wp (create_files paths) w (fun r w' => r = Ok tt /\ step [] [] w w').
Proof.
  unfold wp, create_files, step. simpl. rewrite !app_nil_r. auto.
Qed.

Lemma emit_spec ev w :
  wp (emit ev) w
     (fun r w' => r = Ok tt /\ step [] [ev] w w' /\ files w' = files w).
Proof.
  unfold wp, emit, step. simpl. rewrite !app_nil_r. auto.
Qed.

Lemma format_2f_spec x w :
  wp (format_2f env x) w (fun _ w' => w' = w).
Proof.
  unfold wp, format_2f, bind, lift, ret. destruct (to_float x); reflexivity.
Qed.

Lemma crop_and_resize_spec sub_clip target_aspect w :
  wp (crop_and_resize env cfg sub_clip target_aspect) w
     (fun r w' =>
        w' = w /\
        forall c, r = Ok c -> source_window c = source_window sub_clip).
Proof.
  unfold crop_and_resize.
  apply wp_bind, wp_lift.
  destruct (py_truediv _ _) as [src_aspect|e|e];
    [|split; [auto | discriminate] ..].
  assert (Hresize : forall processed_clip,
             source_window processed_clip = source_window sub_clip ->
             wp (moviepy env (Resize processed_clip (SHORT_VIDEO_WIDTH cfg)
                                     (SHORT_VIDEO_HEIGHT cfg))) w
                (fun r w' =>
                   w' = w /\
                   forall c, r = Ok c ->
                             source_window c = source_window sub_clip)).
  { intros processed_clip Hp.
    eapply wp_conseq; [apply moviepy_spec|].
    intros r w' (-> & [-> | [[e ->] | [e ->]]]); split; auto;
      try discriminate.
    intros c Hc. inversion Hc. assumption. }
  assert (Hcrop : forall cropped,
             source_window cropped = source_window sub_clip ->
             wp (moviepy env cropped) w
                (fun r w1 =>
                   match r with
                   | Ok a =>
                       wp (moviepy env (Resize a (SHORT_VIDEO_WIDTH cfg)
                                               (SHORT_VIDEO_HEIGHT cfg))) w1
                          (fun r w' =>
                             w' = w /\
                             forall c, r = Ok c ->
                                       source_window c
                                       = source_window sub_clip)
                   | Raise e =>
                       w1 = w /\
                       forall c, @Raise clip e = Ok c ->
                                 source_window c = source_window sub_clip
                   | Abort e =>
                       w1 = w /\
                       forall c, @Abort clip e = Ok c ->
                                 source_window c = source_window sub_clip
                   end)).
  { intros cropped Hp.
    eapply wp_conseq; [apply moviepy_spec|].
    intros r w' (-> & [-> | [[e ->] | [e ->]]]).
    - apply Hresize. exact Hp.
    - split; [auto | discriminate].
    - split; [auto | discriminate]. }
  apply wp_bind.
  destruct (py_gt (Float src_aspect) (Float target_aspect)).
  - apply wp_bind, wp_lift.
    destruct (py_mul _ _) as [product|e|e];
      [|split; [auto | discriminate] ..].
    apply wp_bind, wp_lift.
    destruct (py_int product) as [new_width|e|e];
      [|split; [auto | discriminate] ..].
    apply wp_bind, wp_lift.
    destruct (py_truediv _ _) as [x_center|e|e];
      [|split; [auto | discriminate] ..].
    apply Hcrop. reflexivity.
  - destruct (py_lt (Float src_aspect) (Float target_aspect)).
    + apply wp_bind, wp_lift.
      destruct (py_truediv _ _) as [quotient|e|e];
        [|split; [auto | discriminate] ..].
      apply wp_bind, wp_lift.
      destruct (py_int (Float quotient)) as [new_height|e|e];
        [|split; [auto | discriminate] ..].
      apply wp_bind, wp_lift.
      destruct (py_truediv _ _) as [y_center|e|e];
        [|split; [auto | discriminate] ..].
      apply Hcrop. reflexivity.
    + apply wp_ret. apply Hresize. reflexivity.
Qed.

Lemma clip_loop_spec full_clip target_aspect clip_duration temp_output_dir
      indices :
  forall paths count w,
  wp (clip_loop env cfg full_clip target_aspect clip_duration temp_output_dir
                indices paths count) w
     (fun r w' =>
        exists lines evs,
          step lines evs w w' /\
          (forallb is_render evs = true /\ Forall (encoder_said env) evs) /\
          (exists rest, indices = render_indices evs ++ rest) /\
          (exists rest,
              plan_over (clip_duration_of full_clip) clip_duration indices
              = render_windows evs ++ rest) /\
          (forall out, r = Ok out ->
             fst out = paths ++ rendered_paths evs /\
             plan_over (clip_duration_of full_clip) clip_duration indices
             = render_windows evs)).
Proof.
  induction indices as [|i rest IH]; intros paths count w.
  - apply wp_ret. exists [], []. simpl.
    split; [apply step_refl|]. split; [split; [reflexivity | constructor]|].
    split; [exists []; reflexivity|]. split; [exists []; reflexivity|].
    intros out H. inversion H. simpl. rewrite app_nil_r. auto.
  - cbn [clip_loop plan_over].
    (* leaving the loop before anything is rendered in this iteration *)
    assert (Hleave : forall (r : result (list string * nat)) lines w' windows,
               step lines [] w w' ->
               (forall out, r = Ok out -> out = (paths, count) /\ windows = []) ->
               exists lines evs,
                 step lines evs w w' /\
                 (forallb is_render evs = true /\
                  Forall (encoder_said env) evs) /\
                 (exists rest0, i :: rest = render_indices evs ++ rest0) /\
                 (exists rest0, windows = render_windows evs ++ rest0) /\
                 (forall out, r = Ok out ->
                    fst out = paths ++ rendered_paths evs /\
                    windows = render_windows evs)).
    { intros r lines w' windows Hs Hr. exists lines, []. simpl.
      split; [assumption|]. split; [split; [reflexivity | constructor]|].
      split; [eexists; reflexivity|]. split; [eexists; reflexivity|].
      intros out Hout. destruct (Hr out Hout) as [-> ->].
      simpl. rewrite app_nil_r. auto. }
    apply wp_bind, wp_lift.
    destruct (window (clip_duration_of full_clip) clip_duration i)
      as [[|remaining|start_time end_time]|e|e] eqn:Ewin.
    + wp_line. apply wp_ret. apply (Hleave _ _ _ _ Hs).
      intros out H. inversion H. auto.
    + wp_step format_2f_spec. intros [shown|e|e] w1 ->.
      * wp_line. apply wp_ret. apply (Hleave _ _ _ _ Hs).
        intros out H. inversion H. auto.
      * apply (Hleave _ _ _ _ (step_refl w)). discriminate.
      * apply (Hleave _ _ _ _ (step_refl w)). discriminate.
    + assert (Hfault : forall (r : result (list string * nat)) lines w',
                 step lines [] w w' ->
                 (forall out, r <> Ok out) ->
                 exists lines evs,
                   step lines evs w w' /\
                   (forallb is_render evs = true /\
                    Forall (encoder_said env) evs) /\
                   (exists rest0, i :: rest = render_indices evs ++ rest0) /\
                   (exists rest0,
                       (start_time, end_time)
                         :: plan_over (clip_duration_of full_clip)
                              clip_duration rest
                       = render_windows evs ++ rest0) /\
                   (forall out, r = Ok out ->
                      fst out = paths ++ rendered_paths evs /\
                      (start_time, end_time)
                        :: plan_over (clip_duration_of full_clip)
                             clip_duration rest
                      = render_windows evs)).
      { intros r lines w' Hs Hr. apply (Hleave _ _ _ _ Hs).
        intros out Hout. destruct (Hr out Hout). }
      wp_step format_2f_spec. intros [shown_start|e|e] w1 ->;
        [|apply (Hfault _ _ _ (step_refl w)); discriminate ..].
      wp_step format_2f_spec. intros [shown_end|e|e] w1 ->;
        [|apply (Hfault _ _ _ (step_refl w)); discriminate ..].
      wp_line.
      wp_step moviepy_spec. intros r w1 (-> & [-> | [[e ->] | [e ->]]]);
        [|apply (Hfault _ _ _ Hs); discriminate ..].
      wp_step crop_and_resize_spec.
      intros [processed_clip|e|e] w1 (-> & Hwin);
        [|apply (Hfault _ _ _ Hs); discriminate ..].
      specialize (Hwin _ eq_refl). simpl in Hwin.
      wp_line.
      set (output_filepath := path_join temp_output_dir _) in *.
      destruct (write_videofile env processed_clip output_filepath)
        as [[e|e]|] eqn:Eenc.
      * (* the encoder raised an Exception *)
        wp_step emit_spec. intros r w2 (-> & Hs1 & _).
        do 2 wp_line.
        eapply wp_conseq; [apply IH|].
        intros r w5 (lines & evs & Hs5 & [Hrender Hsaid] & [ri Hri] & [rw Hrw]
                     & Hok).
        chain. do 2 eexists. split; [eassumption|].
        simpl. rewrite Hwin. simpl.
        split; [split; [assumption|];
                constructor; [simpl; rewrite Eenc; reflexivity | assumption]|].
        split; [exists ri; rewrite Hri; reflexivity|].
        split; [exists rw; rewrite Hrw; reflexivity|].
        intros out Hout. destruct (Hok out Hout) as [Hp Hw].
        rewrite Hw. auto.
      * (* the encoder raised something else *)
        wp_step emit_spec. intros r w2 (-> & Hs1 & _).
        apply wp_abort. chain. do 2 eexists. split; [eassumption|].
        simpl. rewrite Hwin. simpl.
        split; [split; [reflexivity|];
                constructor; [simpl; rewrite Eenc; reflexivity | constructor]|].
        split; [exists rest; reflexivity|].
        split; [eexists; reflexivity|].
        discriminate.
      * (* the encoder returned *)
        wp_step create_files_spec. intros r w2 (-> & Hs1).
        wp_step emit_spec. intros r w3 (-> & Hs2 & _).
        wp_line.
        eapply wp_conseq; [apply IH|].
        intros r w5 (lines & evs & Hs5 & [Hrender Hsaid] & [ri Hri] & [rw Hrw]
                     & Hok).
        chain. do 2 eexists. split; [eassumption|].
        simpl. rewrite Hwin. simpl.
        split; [split; [assumption|];
                constructor; [simpl; rewrite Eenc; reflexivity | assumption]|].
        split; [exists ri; rewrite Hri; reflexivity|].
        split; [exists rw; rewrite Hrw; reflexivity|].
        intros out Hout. destruct (Hok out Hout) as [Hp Hw].
        rewrite Hw, Hp, <- app_assoc. auto.
    + apply (Hleave _ _ _ _ (step_refl w)). discriminate.
    + apply (Hleave _ _ _ _ (step_refl w)). discriminate.
Qed.

End Rendering.

Lemma seq_prefix_from (l rest : list nat) :
  forall a n, seq a n = l ++ rest -> l = seq a (List.length l).
Proof.
  induction l as [|x l IH]; intros a n H; [reflexivity|].
  destruct n as [|n]; [discriminate|].
  simpl in H. inversion H; subst. simpl. f_equal. eauto.
Qed.

Lemma seq_prefix (n : nat) (l rest : list nat) :
  seq 0 n = l ++ rest -> l = seq 0 (List.length l).
Proof. apply seq_prefix_from. Qed.
Section Publishing.

Variable env : Env.
Variable cfg : Config.

Lemma generate_spec video_path temp_output_dir w :
  wp (generate_short_clips_to_temp env cfg video_path
        (CLIP_DURATION_SECONDS cfg) (NUM_CLIPS_TO_GENERATE cfg)
        temp_output_dir) w
     (fun r w' =>
        exists lines evs,
          step lines evs w w' /\
          (forallb is_render evs = true /\ Forall (encoder_said env) evs) /\
          render_indices evs = seq 0 (List.length (render_indices evs)) /\
          (exists rest,
              planned env cfg video_path = render_windows evs ++ rest) /\
          (forall paths, r = Ok paths ->
             paths = rendered_paths evs /\
             planned env cfg video_path = render_windows evs)).
Proof.
  unfold generate_short_clips_to_temp, planned. wp_line.
  destruct (open_video env video_path) as [[[video_duration w1] h]|e|e].
  - wp_line. apply wp_bind, wp_lift.
    destruct (py_truediv _ _) as [target_aspect|e|e].
    + wp_step clip_loop_spec.
      intros r w3 (lines & evs & Hs3 & Hrender & [ri Hri] & [rw Hrw] & Hok).
      simpl in Hrw, Hok. fold (plan video_duration (CLIP_DURATION_SECONDS cfg)
                                 (NUM_CLIPS_TO_GENERATE cfg)) in Hrw, Hok.
      apply seq_prefix in Hri.
      destruct r as [out|e|e].
      * wp_line. apply wp_ret. chain.
        do 2 eexists. split; [eassumption|].
        split; [assumption|]. split; [assumption|]. split; [eauto|].
        intros paths Hp. inversion Hp; subst.
        destruct (Hok out eq_refl) as [Hpaths Hplan]. auto.
      * chain. do 2 eexists. split; [eassumption|].
        split; [assumption|]. split; [assumption|]. split; [eauto|].
        discriminate.
      * chain. do 2 eexists. split; [eassumption|].
        split; [assumption|]. split; [assumption|]. split; [eauto|].
        discriminate.
    + chain. do 2 eexists. split; [eassumption|]. simpl.
      split; [split; [reflexivity | constructor]|].
      split; [reflexivity|]. split; [eauto|].
      discriminate.
    + chain. do 2 eexists. split; [eassumption|]. simpl.
      split; [split; [reflexivity | constructor]|].
      split; [reflexivity|]. split; [eauto|].
      discriminate.
  - do 2 wp_line. apply wp_ret. chain.
    do 2 eexists. split; [eassumption|]. simpl.
    split; [split; [reflexivity | constructor]|]. split; [reflexivity|].
    split; [exists []; reflexivity|].
    intros paths Hp. inversion Hp. auto.
  - apply wp_abort. do 2 eexists. split; [eassumption|]. simpl.
    split; [split; [reflexivity | constructor]|]. split; [reflexivity|].
    split; [exists []; reflexivity|].
    discriminate.
Qed.

Lemma upload_to_vercel_blob_spec local_filepath w :
  wp (upload_to_vercel_blob env local_filepath) w
     (fun r w' =>
        exists lines url,
          step lines [EvPublish local_filepath url] w w' /\
          files w' = files w /\
          (r = Ok url \/ (url = None /\ exists e, r = Abort e)) /\
          (on_disk local_filepath (files w) = true ->
           url = match blob_put env ("clips/" ++ basename local_filepath)%string
                                local_filepath with
                 | Ok u => Some u
                 | _ => None
                 end)).
Proof.
  unfold upload_to_vercel_blob.
  apply wp_bind. unfold wp at 1, path_exists. simpl.
  destruct (on_disk local_filepath (files w)); simpl.
  - wp_line.
    destruct (blob_put env _ local_filepath) as [url|e|e].
    + wp_step emit_spec. intros r w1 (-> & Hs1 & Hf1).
      wp_line. apply wp_ret. chain.
      do 2 eexists. split; [eassumption|].
      split; [congruence | auto].
    + wp_step emit_spec. intros r w1 (-> & Hs1 & Hf1).
      wp_line. apply wp_ret. chain.
      do 2 eexists. split; [eassumption|].
      split; [congruence | auto].
    + wp_step emit_spec. intros r w1 (-> & Hs1 & Hf1).
      apply wp_abort. chain.
      do 2 eexists. split; [eassumption|].
      split; [congruence|]. split; [right; eauto | auto].
  - wp_line.
    wp_step emit_spec. intros r w1 (-> & Hs1 & Hf1).
    apply wp_ret. chain.
    do 2 eexists. split; [eassumption|].
    split; [congruence|]. split; [auto | discriminate].
Qed.

Lemma upload_loop_spec temp_clip_paths :
  forall blob_urls w,
  wp (upload_loop env temp_clip_paths blob_urls) w
     (fun r w' =>
        exists lines evs,
          step lines evs w w' /\
          no_render evs = true /\
          (forall p, on_disk p (files w') = true ->
                     on_disk p (files w) = true) /\
          match r with
          | Ok urls =>
              publish_cleanup temp_clip_paths evs /\
              urls = blob_urls ++ published_urls evs /\
              (forall p, In p temp_clip_paths -> remove_fault env p = None ->
                         on_disk p (files w') = false)
          | Raise _ => False
          | Abort _ => True
          end).
Proof.
  induction temp_clip_paths as [|temp_path rest IH]; intros blob_urls w.
  - apply wp_ret. exists [], []. simpl. rewrite app_nil_r.
    split; [apply step_refl|]. split; [reflexivity|]. split; [auto|].
    split; [constructor|]. split; [reflexivity | contradiction].
  - cbn [upload_loop].
    wp_step upload_to_vercel_blob_spec.
    intros r w1 (lines1 & url & Hs1 & Hf1 & [-> | [-> [e ->]]] & _).
    2:{ do 2 eexists. split; [eassumption|]. split; [reflexivity|].
        split; [|exact I]. intros p Hp. rewrite <- Hf1. exact Hp. }
    wp_step cleanup_spec.
    intros r w2 (-> & line & ok & Hs2 & Hkeep2 & Hgone2).
    eapply wp_conseq; [apply IH|].
    intros r w3 (lines3 & evs3 & Hs3 & Hnr & Hkeep3 & Hr).
    chain. do 2 eexists. split; [eassumption|].
    split; [exact Hnr|].
    split; [intros p Hp; rewrite <- Hf1; auto|].
    destruct r as [urls|e|e]; [|exact Hr | exact I].
    destruct Hr as (Hpc & -> & Hgone3).
    split; [constructor; assumption|].
    split.
    + unfold published_urls. simpl.
      destruct url as [u|]; simpl; [destruct (truthy u); simpl|];
        rewrite <- ?app_assoc; reflexivity.
    + intros p [<- | Hin] Hnone.
      * apply not_true_is_false. intro Hp. apply Hkeep3 in Hp.
        rewrite Hgone2 in Hp by assumption. discriminate.
      * auto.
Qed.

End Publishing.

Section Orchestrator.

Variable env : Env.
Variable cfg : Config.

Lemma put_spec item w :
  wp (put item) w
     (fun r w' =>
        r = Ok tt /\ log_queue w' = log_queue w ++ [item] /\
        trace w' = trace w /\ threads w' = threads w /\ files w' = files w).
Proof. unfold wp, put. simpl. auto. Qed.


Lemma published_urls_renders evs :
  forallb is_render evs = true -> published_urls evs = [].
Proof.
  induction evs as [|ev evs IH]; [reflexivity|]. simpl.
  destruct ev; simpl; try discriminate. exact IH.
Qed.

Lemma published_urls_app evs1 evs2 :
  published_urls (evs1 ++ evs2) = published_urls evs1 ++ published_urls evs2.
Proof. apply flat_map_app. Qed.

Lemma no_render_app evs1 evs2 :
  no_render (evs1 ++ evs2) = no_render evs1 && no_render evs2.
Proof. apply forallb_app. Qed.

Lemma publish_cleanup_no_render_events paths evs :
  publish_cleanup paths evs -> no_render evs = true.
Proof. induction 1; auto. Qed.

(** What the body of the [try] leaves behind, by the way it ends: an
    exception, a source that was not acquired, or a run through all four
    stages. *)
Lemma task_body_spec youtube_link w :
  wp (task_body env cfg youtube_link) w
     (fun r w' =>
        threads w' = threads w /\
        match r with
        | Raise e =>
            exists lines renders,
              step lines renders w w' /\
              (forallb is_render renders = true /\
               Forall (encoder_said env) renders) /\
              render_indices renders
              = seq 0 (List.length (render_indices renders)) /\
              forall path, acquired env youtube_link w = Some path ->
                exists rest,
                  planned env cfg path = render_windows renders ++ rest
        | Abort e =>
            exists lines renders others,
              step lines (renders ++ others) w w' /\
              (forallb is_render renders = true /\
               Forall (encoder_said env) renders) /\
              render_indices renders
              = seq 0 (List.length (render_indices renders)) /\
              no_render others = true /\
              forall path, acquired env youtube_link w = Some path ->
                exists rest,
                  planned env cfg path = render_windows renders ++ rest
        | Ok _ =>
            match acquired env youtube_link w with
            | None =>
                exists pre,
                  log_queue w'
                  = log_queue w ++ map JStr pre
                      ++ [failed_download;
                          JStr "Failed to download the YouTube video. Cannot generate clips."] /\
                  trace w' = trace w
            | Some path =>
                exists pre renders uploads ok,
                  log_queue w'
                  = log_queue w ++ map JStr pre
                      ++ [match published_urls uploads with
                          | [] => failed_no_clips
                          | _ :: _ => completed (published_urls uploads)
                          end] /\
                  trace w'
                  = trace w ++ renders ++ uploads ++ [EvRemove path ok] /\
                  (forallb is_render renders = true /\
                   Forall (encoder_said env) renders) /\
                  render_indices renders
                  = seq 0 (List.length (render_indices renders)) /\
                  render_windows renders = planned env cfg path /\
                  publish_cleanup (rendered_paths renders) uploads /\
                  artifacts_gone env (rendered_paths renders) w'
            end
        end).
Proof.
  unfold task_body, acquired.
  apply wp_bind. unfold wp at 1.
  pose proof (download_quiet env youtube_link (tempdir env) w) as Hdl.
  unfold wp in Hdl.
  destruct (download_youtube_video_to_temp env youtube_link (tempdir env) w)
    as [[downloaded|e|e] w1].
  cbn [fst snd] in *.
  2:{ (* acquisition raised *)
    cbn [fst snd] in *. destruct Hdl as [lines Hs].
    split; [apply Hs|].
    exists lines, []. split; [assumption|].
    split; [split; [reflexivity | constructor]|]. split; [reflexivity|].
    discriminate. }
  2:{ (* acquisition was aborted *)
    cbn [fst snd] in *. destruct Hdl as [lines Hs].
    split; [apply Hs|].
    exists lines, [], []. split; [assumption|].
    split; [split; [reflexivity | constructor]|]. split; [reflexivity|].
    split; [reflexivity | discriminate]. }
  assert (Hno_source :
            forall w2, w2 = w1 ->
            wp (put failed_download ;;
                log_message "Failed to download the YouTube video. Cannot generate clips.")
               w2
               (fun r w' =>
                  threads w' = threads w /\
                  match r with
                  | Ok _ =>
                      exists pre,
                        log_queue w'
                        = log_queue w ++ map JStr pre
                          ++ [failed_download;
                              JStr "Failed to download the YouTube video. Cannot generate clips."] /\
                        trace w' = trace w
                  | _ => False
                  end)).
  { intros w2 ->. destruct Hdl as [pre (Hq & Ht & Hth)].
    wp_step put_spec. intros r w2 (-> & Hq2 & Ht2 & Hth2 & _).
    eapply wp_conseq; [apply log_message_spec|].
    intros r w3 (-> & (Hq3 & Ht3 & Hth3) & _).
    split; [congruence|]. exists pre. split.
    - rewrite Hq3, Hq2, Hq. simpl. rewrite <- !app_assoc. reflexivity.
    - rewrite Ht3, Ht2, Ht, !app_nil_r. reflexivity. }
  destruct downloaded as [path|].
  2:{ apply wp_bind, wp_ret. cbn [negb].
      eapply wp_conseq; [apply Hno_source; reflexivity|].
      intros [[]|e|e] w' [Hth H]; [auto | contradiction ..]. }
  destruct (truthy path).
  2:{ apply wp_bind, wp_ret. cbn [negb andb].
      eapply wp_conseq; [apply Hno_source; reflexivity|].
      intros [[]|e|e] w' [Hth H]; [auto | contradiction ..]. }
  apply wp_bind. unfold wp at 1, path_exists. cbn [fst snd andb].
  destruct (on_disk path (files w1)).
  2:{ cbn [negb].
      eapply wp_conseq; [apply Hno_source; reflexivity|].
      intros [[]|e|e] w' [Hth H]; [auto | contradiction ..]. }
  cbn [negb]. destruct Hdl as [lines0 Hs0].
  wp_step generate_spec.
  intros r w2 (lines & renders & Hs2 & Hrender & Hidx & Hprefix & Hok).
  destruct r as [temp_clip_paths|e|e].
  2:{ chain. split; [apply Hs|].
      do 2 eexists. split; [eassumption|].
      split; [assumption|]. split; [assumption|].
      intros p Hp. inversion Hp; subst. assumption. }
  2:{ chain. split; [apply Hs|].
      exists (lines0 ++ lines), renders, []. rewrite app_nil_r.
      split; [assumption|].
      split; [assumption|]. split; [assumption|]. split; [reflexivity|].
      intros p Hp. inversion Hp; subst. assumption. }
  destruct (Hok _ eq_refl) as [-> Hplan]. clear Hok Hprefix.
  assert (Huploads :
            wp (match rendered_paths renders with
                | [] => ret []
                | _ :: _ =>
                    log_message (nl ++ "--- Uploading generated clips to Vercel Blob ---") ;;
                    upload_loop env (rendered_paths renders) []
                end) w2
               (fun r w' =>
                  exists lines uploads,
                    step lines uploads w2 w' /\
                    no_render uploads = true /\
                    match r with
                    | Ok urls =>
                        publish_cleanup (rendered_paths renders) uploads /\
                        urls = published_urls uploads /\
                        artifacts_gone env (rendered_paths renders) w'
                    | Raise _ => False
                    | Abort _ => True
                    end)).
  { destruct (rendered_paths renders) as [|p ps].
    - apply wp_ret. exists [], [].
      split; [apply step_refl|]. split; [reflexivity|].
      split; [constructor|].
      split; [reflexivity|]. intros p [].
    - wp_line. eapply wp_conseq; [apply upload_loop_spec|].
      intros r w4 (lines4 & uploads & Hs4 & Hnr & _ & Hr).
      do 2 eexists.
      split; [apply (step_trans _ _ _ _ _ _ _ Hs Hs4)|].
      split; [exact Hnr|].
      destruct r as [urls|e|e]; [|exact Hr | exact I].
      destruct Hr as (Hpc & -> & Hgone). auto. }
  wp_step Huploads.
  intros r w3 (lines3 & uploads & Hs3 & Hnr & Hr).
  destruct r as [urls|e|e]; [|destruct Hr|].
  2:{ chain.
      match goal with H : step _ _ w w3 |- _ => rename H into Hall end.
      split; [apply Hall|].
      exists (lines0 ++ lines ++ lines3), renders, uploads.
      split; [assumption|].
      split; [assumption|]. split; [assumption|]. split; [assumption|].
      intros p Hp. inversion Hp; subst. exists []. rewrite app_nil_r.
      assumption. }
  destruct Hr as (Hpc & -> & Hgone3).
  wp_step cleanup_spec.
  intros r w4 (-> & line & ok & Hs4 & Hkeep4 & _).
  chain. destruct Hs as (Hq & Ht & Hth).
  assert (Hend : forall record,
             wp (put record) w4
                (fun r w' =>
                   threads w' = threads w /\
                   match r with
                   | Ok _ =>
                       exists pre renders0 uploads0 ok0,
                         log_queue w' = log_queue w ++ map JStr pre ++ [record]
                         /\ trace w'
                            = trace w ++ renders0 ++ uploads0
                                ++ [EvRemove path ok0]
                         /\ (forallb is_render renders0 = true /\
                             Forall (encoder_said env) renders0)
                         /\ render_indices renders0
                            = seq 0 (List.length (render_indices renders0))
                         /\ render_windows renders0 = planned env cfg path
                         /\ publish_cleanup (rendered_paths renders0) uploads0
                         /\ artifacts_gone env (rendered_paths renders0) w'
                         /\ uploads0 = uploads
                   | _ => False
                   end)).
  { intro record. eapply wp_conseq; [apply put_spec|].
    intros r w5 (-> & Hq5 & Ht5 & Hth5 & Hf5).
    split; [congruence|].
    exists (lines0 ++ lines ++ lines3 ++ [line]), renders, uploads, ok.
    split; [rewrite Hq5, Hq, <- app_assoc; reflexivity|].
    split; [rewrite Ht5, Ht; reflexivity|].
    assert (Hgone5 : artifacts_gone env (rendered_paths renders) w5).
    { intros p Hin Hnone. rewrite Hf5. apply not_true_is_false. intro Hp.
      apply Hkeep4 in Hp. rewrite (Hgone3 p Hin Hnone) in Hp.
      discriminate. }
    auto 8. }
  destruct (published_urls uploads) as [|url urls] eqn:Eurls.
  - eapply wp_conseq; [apply Hend|].
    intros [[]|e|e] w' [Hth' H]; [|contradiction ..].
    split; [assumption|].
    destruct H as (pre & r0 & u0 & ok0 & H1 & H2 & H3 & H4 & H5 & H6 & H7
                   & ->).
    exists pre, r0, uploads, ok0. rewrite Eurls. auto 8.
  - eapply wp_conseq; [apply Hend|].
    intros [[]|e|e] w' [Hth' H]; [|contradiction ..].
    split; [assumption|].
    destruct H as (pre & r0 & u0 & ok0 & H1 & H2 & H3 & H4 & H5 & H6 & H7
                   & ->).
    exists pre, r0, uploads, ok0. rewrite Eurls. auto 8.
Qed.

End Orchestrator.
Lemma filter_terminal_lines (lines : list string) :
  filter terminal (map JStr lines) = [].
Proof. induction lines; simpl; auto. Qed.

Lemma filter_terminal_written pre record post :
  terminal record = true ->
  filter terminal (map JStr pre ++ record :: map JStr post) = [record].
Proof.
  intro H. rewrite filter_app. simpl.
  rewrite H, !filter_terminal_lines. reflexivity.
Qed.

Lemma rendered_paths_none env renders :
  (forall c p, write_videofile env c p <> None) ->
  Forall (encoder_said env) renders ->
  rendered_paths renders = [].
Proof.
  intros Hdown H. induction H as [|ev evs Hev _ IH]; [reflexivity|].
  unfold rendered_paths in *. simpl. rewrite IH, app_nil_r.
  destruct ev as [i c p ok| |]; simpl; try reflexivity.
  simpl in Hev. specialize (Hdown c p).
  destruct (write_videofile env c p); [subst; reflexivity | congruence].
Qed.

Lemma published_urls_run renders uploads path ok :
  forallb is_render renders = true ->
  published_urls (renders ++ uploads ++ [EvRemove path ok])
  = published_urls uploads.
Proof.
  intro H. rewrite !published_urls_app, (published_urls_renders _ H).
  simpl. apply app_nil_r.
Qed.

Section Job.

Variable env : Env.
Variable cfg : Config.

(** One run of [process_video_task], by the way the body of its [try]
    ends. *)
Lemma process_video_task_run youtube_link w :
  let body := fst (task_body env cfg youtube_link w) in
  let w' := snd (process_video_task env cfg youtube_link w) in
  fst (process_video_task env cfg youtube_link w) = outcome_of_job body /\
  exists pre record post evs,
    trace w' = trace w ++ evs /\
    threads w' = threads w /\
    match body with
    | Abort e =>
        log_queue w' = log_queue w ++ map JStr pre /\
        exists renders others,
          evs = renders ++ others /\
          (forallb is_render renders = true /\
           Forall (encoder_said env) renders) /\
          render_indices renders
          = seq 0 (List.length (render_indices renders)) /\
          no_render others = true /\
          forall path, acquired env youtube_link w = Some path ->
            exists rest, planned env cfg path = render_windows renders ++ rest
    | Raise e =>
        log_queue w' = log_queue w ++ map JStr pre ++ record :: map JStr post /\
        record = errored e /\
        post = [("An unexpected error occurred in processing task: " ++ e)%string]
        /\ (forallb is_render evs = true /\ Forall (encoder_said env) evs)
        /\ render_indices evs = seq 0 (List.length (render_indices evs))
        /\ forall path, acquired env youtube_link w = Some path ->
             exists rest, planned env cfg path = render_windows evs ++ rest
    | Ok _ =>
        log_queue w' = log_queue w ++ map JStr pre ++ record :: map JStr post /\
        match acquired env youtube_link w with
        | None =>
            record = failed_download /\
            post = ["Failed to download the YouTube video. Cannot generate clips."%string]
            /\ evs = []
        | Some path =>
            post = [] /\
            record = match published_urls evs with
                     | [] => failed_no_clips
                     | _ :: _ => completed (published_urls evs)
                     end /\
            exists renders uploads ok,
              evs = renders ++ uploads ++ [EvRemove path ok] /\
              (forallb is_render renders = true /\
               Forall (encoder_said env) renders) /\
              render_indices renders
              = seq 0 (List.length (render_indices renders)) /\
              render_windows renders = planned env cfg path /\
              publish_cleanup (rendered_paths renders) uploads /\
              artifacts_gone env (rendered_paths renders) w'
        end
    end.
Proof.
  cbv zeta. unfold process_video_task, try_except.
  pose proof (task_body_spec env cfg youtube_link w) as Hbody.
  unfold wp in Hbody.
  destruct (task_body env cfg youtube_link w) as [[[]|e|e] w1];
    cbn [fst snd] in *; destruct Hbody as [Hth Hbody].
  - split; [reflexivity|].
    destruct (acquired env youtube_link w) as [path|].
    + destruct Hbody as (pre & renders & uploads & ok & Hq & Ht & Hr & Hi
                         & Hw & Hpc & Hgone).
      destruct Hr as [Hr Hsaid].
      eexists pre, _, [], _. simpl map.
      split; [exact Ht|]. split; [exact Hth|]. split; [exact Hq|].
      split; [reflexivity|].
      rewrite (published_urls_run _ _ _ _ Hr).
      split; [reflexivity|]. exists renders, uploads, ok. auto 7.
    + destruct Hbody as (pre & Hq & Ht).
      eexists pre, _, [_], []. simpl map.
      split; [rewrite app_nil_r; exact Ht|]. split; [exact Hth|].
      split; [exact Hq|]. auto.
  - destruct Hbody as (lines & renders & (Hq & Ht & Hth1) & Hr & Hi & Hplan).
    assert (Hhandler :
              wp (put (errored e) ;;
                  log_message
                    ("An unexpected error occurred in processing task: " ++ e))
                 w1
                 (fun r w' =>
                    r = Ok tt /\
                    log_queue w'
                    = log_queue w1
                        ++ [errored e;
                            JStr ("An unexpected error occurred in processing task: " ++ e)]
                    /\ trace w' = trace w1 /\ threads w' = threads w1)).
    { wp_step put_spec. intros r w2 (-> & Hq2 & Ht2 & Hth2 & _).
      eapply wp_conseq; [apply log_message_spec|].
      intros r w3 (-> & (Hq3 & Ht3 & Hth3) & _).
      rewrite Hq3, Hq2, Ht3, Ht2, Hth3, Hth2, app_nil_r, <- app_assoc. auto. }
    unfold wp in Hhandler. destruct Hhandler as (Hr3 & Hq3 & Ht3 & Hth3).
    split; [exact Hr3|].
    eexists lines, _, [_], renders. simpl map.
    split; [rewrite Ht3, Ht; reflexivity|].
    split; [congruence|].
    split; [rewrite Hq3, Hq, <- !app_assoc; reflexivity|]. auto 6.
  - split; [reflexivity|].
    destruct Hbody as (lines & renders & others & (Hq & Ht & Hth1) & Hr & Hi
                       & Hnr & Hplan).
    exists lines, (JStr EmptyString), [], (renders ++ others).
    split; [exact Ht|]. split; [exact Hth|]. split; [exact Hq|].
    exists renders, others. auto 6.
Qed.

End Job.
(** ** The terminal outcome *)




(** ** The progress channel *)

(** After a failed acquisition the queue ends with the terminal record and
    then one more log line. *)
Lemma write_after_terminal_record :
  ~ terminal_is_last
      (log_queue (snd (process_video_task Sample.env_no_source app_config
                         "https://youtu.be/x" Sample.empty_world))).
Proof.
  intro H.
  specialize (H [JStr (nl ++ "--- Downloading YouTube video from: https://youtu.be/x ---");
                 JStr "Saving temporarily to: /tmp";
                 JStr "Error downloading video with yt-dlp (command exited with code 1):";
                 JStr "STDOUT: ";
                 JStr "STDERR: ERROR: Video unavailable"]
                failed_download
                [JStr "Failed to download the YouTube video. Cannot generate clips."]
                eq_refl eq_refl).
  discriminate H.
Qed.

(** C5 (amended). Progress channel: a run enqueues at most one terminal
    record; it enqueues exactly one when it returns, and none when a fault
    that is not an instance of [Exception] leaves it.  A run never ends with
    an [Exception].  When the source was acquired and no fault escaped the
    body, the record is the last write of the run; after a failed
    acquisition and after an uncaught [Exception] the run writes one more
    plain log line, the failure message, behind the record. *)
Theorem one_terminal_record_per_run (env : Env) (cfg : Config)
    (youtube_link : string) (w : World) :
  let body := fst (task_body env cfg youtube_link w) in
  let run := process_video_task env cfg youtube_link w in
  let w' := snd run in
  exists written,
    log_queue w' = log_queue w ++ written /\
    (List.length (filter terminal written) <= 1)%nat /\
    (forall e, fst run <> Raise e) /\
    (fst run = Ok tt ->
     exists pre record post,
       written = map JStr pre ++ record :: map JStr post /\
       terminal record = true /\
       filter terminal written = [record] /\
       (body = Ok tt -> acquired env youtube_link w <> None -> post = []) /\
       (body = Ok tt -> acquired env youtube_link w = None ->
        post = ["Failed to download the YouTube video. Cannot generate clips."%string]) /\
       (forall e, body = Raise e ->
        post = [("An unexpected error occurred in processing task: " ++ e)%string])) /\
    (forall e, fst run = Abort e ->
     body = Abort e /\ filter terminal written = []).
Proof.
  cbv zeta.
  destruct (process_video_task_run env cfg youtube_link w)
    as (Hout & pre & record & post & evs & _ & _ & Hshape).
  cbv zeta in Hout, Hshape. rewrite Hout.
  destruct (fst (task_body env cfg youtube_link w)) as [[]|e|e];
    cbn [outcome_of_job].
  - destruct Hshape as (Hq & Hshape).
    assert (Hterm : terminal record = true).
    { destruct (acquired env youtube_link w).
      - destruct Hshape as (_ & -> & _).
        destruct (published_urls evs); reflexivity.
      - destruct Hshape as (-> & _). reflexivity. }
    exists (map JStr pre ++ record :: map JStr post).
    split; [exact Hq|].
    rewrite (filter_terminal_written _ _ _ Hterm).
    split; [simpl; lia|]. split; [discriminate|].
    split; [|discriminate].
    intros _. exists pre, record, post.
    split; [reflexivity|]. split; [exact Hterm|]. split; [reflexivity|].
    destruct (acquired env youtube_link w) as [path|].
    + destruct Hshape as (-> & _).
      split; [auto|]. split; discriminate.
    + destruct Hshape as (_ & -> & _).
      split; [congruence|]. split; [auto | discriminate].
  - destruct Hshape as (Hq & -> & -> & _).
    eexists. split; [exact Hq|].
    rewrite (filter_terminal_written pre (errored e) _ eq_refl).
    split; [simpl; lia|]. split; [discriminate|].
    split; [|discriminate].
    intros _. eexists pre, _, _.
    split; [reflexivity|]. split; [reflexivity|]. split; [reflexivity|].
    split; [discriminate|]. split; [discriminate|].
    intros e' He'. inversion He'. reflexivity.
  - destruct Hshape as (Hq & _).
    exists (map JStr pre). split; [exact Hq|].
    rewrite filter_terminal_lines.
    split; [simpl; lia|]. split; [discriminate|].
    split; [discriminate|].
    intros e' He'. inversion He'; subst. auto.
Qed.

Lemma one_terminal_record_per_run_witness :
  exists pre record,
    log_queue (snd (process_video_task Sample.env app_config
                      "https://youtu.be/x" Sample.empty_world))
    = map JStr pre ++ [record] /\ terminal record = true.
Proof.
  destruct (one_terminal_record_per_run Sample.env app_config
              "https://youtu.be/x" Sample.empty_world)
    as (written & Hq & _ & _ & Hreturns & _).
  destruct Hreturns as (pre & record & post & -> & Hterm & _ & Hlast & _).
  - vm_compute. reflexivity.
  - rewrite Hlast in Hq.
    + exists pre, record. split; [exact Hq | exact Hterm].
    + vm_compute. reflexivity.
    + vm_compute. discriminate.
Defined.

(** ** Order of rendering and publishing *)

(** With every collaborator answering, the second clip is rendered before
    the first one is published. *)
Lemma publishing_is_batched :
  ~ publish_follows_render
      (trace (snd (process_video_task Sample.env app_config
                     "https://youtu.be/x" Sample.empty_world))).
Proof.
  remember (trace (snd (process_video_task Sample.env app_config
                          "https://youtu.be/x" Sample.empty_world)))
    as evs eqn:E.
  vm_compute in E. subst evs. intro H.
  destruct (H [] _ _ _ _ eq_refl) as (url & after' & Habs).
  discriminate Habs.
Qed.

Lemma render_indices_length (evs : list event) :
  forallb is_render evs = true ->
  List.length (render_indices evs) = List.length evs.
Proof.
  induction evs as [|ev evs IH]; [reflexivity|]. simpl.
  destruct ev; simpl; try discriminate. intro H. rewrite (IH H).
  reflexivity.
Qed.

(** C6 (amended). Order within a job: the planned segments are rendered one
    after the other in plan order, and every render precedes every publish
    and cleanup step.  In a run whose body ends without an uncaught fault
    and with an acquired source, all planned segments are rendered, then
    publishing goes through the rendered artifacts in render order, each
    publish step followed at once by the cleanup of the same artifact, and
    the source file is removed last; without a source nothing is rendered or
    published.  A run that an [Exception] stops has rendered a prefix of the
    plan and published nothing; a run that another fault stops has rendered
    a prefix of the plan, and no render follows a step of another kind. *)
Theorem render_all_then_publish_each (env : Env) (cfg : Config)
    (youtube_link : string) (w : World) :
  let body := fst (task_body env cfg youtube_link w) in
  let w' := snd (process_video_task env cfg youtube_link w) in
  exists renders uploads final,
    trace w' = trace w ++ renders ++ uploads ++ final /\
    forallb is_render renders = true /\
    no_render (uploads ++ final) = true /\
    render_indices renders = seq 0 (List.length renders) /\
    (forall path, acquired env youtube_link w = Some path ->
       exists rest, planned env cfg path = render_windows renders ++ rest) /\
    (body = Ok tt ->
     forall path, acquired env youtube_link w = Some path ->
       render_windows renders = planned env cfg path /\
       publish_cleanup (rendered_paths renders) uploads /\
       exists ok, final = [EvRemove path ok]) /\
    (body = Ok tt -> acquired env youtube_link w = None ->
     renders = [] /\ uploads = [] /\ final = []) /\
    (forall e, body = Raise e -> uploads = [] /\ final = []) /\
    (forall e, body = Abort e -> final = []).
Proof.
  cbv zeta.
  destruct (process_video_task_run env cfg youtube_link w)
    as (_ & pre & record & post & evs & Ht & _ & Hshape).
  cbv zeta in Ht, Hshape.
  destruct (fst (task_body env cfg youtube_link w)) as [[]|e|e].
  - destruct Hshape as (_ & Hshape).
    destruct (acquired env youtube_link w) as [path|].
    + destruct Hshape as (_ & _ & renders & uploads & ok & -> & [Hr _] & Hi
                          & Hw & Hpc & _).
      exists renders, uploads, [EvRemove path ok].
      split; [exact Ht|]. split; [exact Hr|].
      split.
      { rewrite no_render_app. simpl.
        rewrite (publish_cleanup_no_render_events _ _ Hpc). reflexivity. }
      split; [rewrite <- (render_indices_length _ Hr); exact Hi|].
      split.
      { intros p Hp. inversion Hp; subst. exists []. rewrite app_nil_r.
        auto. }
      split.
      { intros _ p Hp. inversion Hp; subst. split; [exact Hw|].
        split; [exact Hpc|]. exists ok. reflexivity. }
      split; [discriminate|]. split; discriminate.
    + destruct Hshape as (_ & _ & ->).
      exists [], [], []. simpl. split; [exact Ht|].
      split; [reflexivity|]. split; [reflexivity|]. split; [reflexivity|].
      split; [discriminate|]. split; [discriminate|].
      split; [auto|]. split; discriminate.
  - destruct Hshape as (_ & _ & _ & [Hr _] & Hi & Hplan).
    exists evs, [], []. rewrite !app_nil_r.
    split; [exact Ht|]. split; [exact Hr|]. split; [reflexivity|].
    split; [rewrite <- (render_indices_length _ Hr); exact Hi|].
    split; [exact Hplan|].
    split; [discriminate|]. split; [discriminate|].
    split; [auto | discriminate].
  - destruct Hshape as (_ & renders & others & -> & [Hr _] & Hi & Hnr
                        & Hplan).
    exists renders, others, []. rewrite !app_nil_r.
    split; [exact Ht|]. split; [exact Hr|]. split; [exact Hnr|].
    split; [rewrite <- (render_indices_length _ Hr); exact Hi|].
    split; [exact Hplan|].
    split; [discriminate|]. split; [discriminate|].
    split; [discriminate | auto].
Qed.

Lemma render_all_then_publish_each_witness :
  exists renders uploads ok,
    trace (snd (process_video_task Sample.env app_config
                  "https://youtu.be/x" Sample.empty_world))
    = renders ++ uploads ++ [EvRemove Sample.source_file ok] /\
    render_windows renders = planned Sample.env app_config Sample.source_file /\
    publish_cleanup (rendered_paths renders) uploads.
Proof.
  destruct (render_all_then_publish_each Sample.env app_config
              "https://youtu.be/x" Sample.empty_world)
    as (renders & uploads & final & Ht & _ & _ & _ & _ & Hfull & _).
  destruct (Hfull eq_refl Sample.source_file) as (Hw & Hpc & ok & ->).
  - vm_compute. reflexivity.
  - exists renders, uploads, ok. split; [exact Ht|]. split; assumption.
Defined.

(** ** Publish failures *)



Lemma publish_cleanup_no_render paths evs :
  publish_cleanup paths evs -> rendered_paths evs = [].
Proof. induction 1; auto. Qed.


Lemma rendered_paths_run renders paths uploads path ok :
  publish_cleanup paths uploads ->
  rendered_paths (renders ++ uploads ++ [EvRemove path ok])
  = rendered_paths renders.
Proof.
  intro H. unfold rendered_paths. rewrite !flat_map_app.
  fold (rendered_paths uploads). rewrite (publish_cleanup_no_render _ _ H).
  simpl. apply app_nil_r.
Qed.




(** ** Polling *)

Lemma get_logs_loop_plain (queue logs : list json) :
  plain queue = true ->
  get_logs_loop queue logs = (logging (logs ++ queue), []).
Proof.
  revert logs. induction queue as [|item rest IH]; intros logs H; simpl.
  - rewrite app_nil_r. reflexivity.
  - simpl in H. apply andb_true_iff in H. destruct H as [Hitem Hrest].
    unfold terminal in Hitem. apply negb_true_iff in Hitem. rewrite Hitem.
    rewrite (IH _ Hrest), <- app_assoc. reflexivity.
Qed.

Lemma get_logs_loop_terminal (lines : list json) (record : json)
    (queued_after logs : list json) :
  plain lines = true -> terminal record = true ->
  get_logs_loop (lines ++ record :: queued_after) logs
  = (record, queued_after).
Proof.
  revert logs. induction lines as [|item rest IH]; intros logs Hl Hr; simpl.
  - unfold terminal in Hr. rewrite Hr. reflexivity.
  - simpl in Hl. apply andb_true_iff in Hl. destruct Hl as [Hitem Hrest].
    unfold terminal in Hitem. apply negb_true_iff in Hitem. rewrite Hitem.
    apply IH; assumption.
Qed.

(** A queue is a run of plain items, followed or not by a first terminal
    record and what was queued after it. *)
Lemma queue_split (queue : list json) :
  plain queue = true \/
  exists lines record queued_after,
    queue = lines ++ record :: queued_after /\
    plain lines = true /\ terminal record = true.
Proof.
  induction queue as [|item rest IH]; [left; reflexivity|].
  destruct (terminal item) eqn:E.
  - right. exists [], item, rest. auto.
  - destruct IH as [Hp | (lines & record & after & -> & Hl & Hr)].
    + left. simpl. rewrite E. exact Hp.
    + right. exists (item :: lines), record, after.
      simpl. rewrite E. auto.
Qed.

Lemma get_logs_run (w : World) :
  get_logs w
  = (Ok (fst (get_logs_loop (log_queue w) [])),
     mkWorld (snd (get_logs_loop (log_queue w) [])) (console w) (files w)
             (trace w) (threads w)).
Proof.
  unfold get_logs. destruct (get_logs_loop (log_queue w) []). reflexivity.
Qed.

Lemma poll_responses_drained (n : nat) (w : World) :
  log_queue w = [] ->
  forall response, In response (poll_responses n w) ->
                   response = Ok (logging []).
Proof.
  revert w. induction n as [|n IH]; intros w Hq response; simpl; [tauto|].
  rewrite get_logs_run, Hq. cbn [get_logs_loop fst snd].
  intros [<- | H]; [reflexivity|].
  revert H. apply IH. reflexivity.
Qed.

(** With two terminal records in the queue, the line between them is read
    and dropped by the poll that returns the second record: no poll delivers
    it. *)
Lemma line_between_records_is_lost :
  let w := mkWorld [JStr "Saving temporarily to: /tmp"; failed_download;
                    JStr "Starting video processing..."; failed_no_clips]
                   [] [] [] [] in
  ~ spec_later_entries_delivered w
      [JStr "Starting video processing..."; failed_no_clips].
Proof.
  cbv zeta. intro H.
  destruct (H (JStr "Starting video processing...") (or_introl eq_refl))
    as (n & response & Hin & Hd).
  destruct n as [|n]; [destruct Hin|].
  simpl in Hin. destruct Hin as [<- | Hin].
  - destruct Hd as [Hd | (logs & Hd & _)]; vm_compute in Hd; discriminate Hd.
  - apply poll_responses_drained in Hin; [|reflexivity]. subst response.
    destruct Hd as [Hd | (logs & Hd & Hl)]; [discriminate Hd|].
    inversion Hd; subst logs. destruct Hl.
Qed.

(** C10 (amended). A poll that meets a terminal record after plain items
    returns the record alone: the items read before it are neither in the
    response nor left in the queue.  What was queued after the record stays
    in the queue.  The next poll delivers all of it, as log lines, when it
    holds no terminal record; when it holds one, the next poll returns the
    first such record alone, and the lines queued between the two records
    are dropped like those before the first. *)
Theorem poll_drops_lines_before_terminal (w : World) (lines : list json)
    (record : json) (queued_after : list json) :
  log_queue w = lines ++ record :: queued_after ->
  plain lines = true ->
  terminal record = true ->
  let w1 := snd (get_logs w) in
  fst (get_logs w) = Ok record /\
  log_queue w1 = queued_after /\
  (plain queued_after = true ->
   fst (get_logs w1) = Ok (logging queued_after) /\
   log_queue (snd (get_logs w1)) = []) /\
  (forall lines' record' queued_after',
      queued_after = lines' ++ record' :: queued_after' ->
      plain lines' = true -> terminal record' = true ->
      fst (get_logs w1) = Ok record' /\
      log_queue (snd (get_logs w1)) = queued_after') /\
  (plain queued_after = true \/
   exists lines' record' queued_after',
     queued_after = lines' ++ record' :: queued_after' /\
     plain lines' = true /\ terminal record' = true).
Proof.
  intros Hq Hl Hr. cbv zeta. rewrite !get_logs_run. cbn [fst snd log_queue].
  rewrite Hq, (get_logs_loop_terminal _ _ _ _ Hl Hr). cbn [fst snd].
  split; [reflexivity|]. split; [reflexivity|].
  split; [|split; [|apply queue_split]].
  - intro Ha. rewrite (get_logs_loop_plain _ _ Ha). auto.
  - intros lines' record' after' -> Hl' Hr'.
    rewrite (get_logs_loop_terminal _ _ _ _ Hl' Hr'). auto.
Qed.

Lemma poll_drops_lines_before_terminal_witness :
  let w := mkWorld [JStr "Saving temporarily to: /tmp"; failed_download;
                    JStr "Failed to download the YouTube video. Cannot generate clips."]
                   [] [] [] [] in
  fst (get_logs w) = Ok failed_download /\
  fst (get_logs (snd (get_logs w)))
  = Ok (logging [JStr "Failed to download the YouTube video. Cannot generate clips."]).
Proof.
  cbv zeta.
  destruct (poll_drops_lines_before_terminal
              (mkWorld [JStr "Saving temporarily to: /tmp"; failed_download;
                        JStr "Failed to download the YouTube video. Cannot generate clips."]
                       [] [] [] [])
              [JStr "Saving temporarily to: /tmp"] failed_download
              [JStr "Failed to download the YouTube video. Cannot generate clips."]
              eq_refl eq_refl eq_refl)
    as (H1 & _ & H3 & _).
  split; [exact H1|]. apply H3. reflexivity.
Defined.

(** After a failed acquisition the second poll is not idle: it delivers the
    line the job wrote behind its terminal record. *)
Lemma second_poll_not_idle :
  ~ second_poll_idle
      (snd (process_video_task Sample.env_no_source app_config
              "https://youtu.be/x" Sample.empty_world)).
Proof.
  unfold second_poll_idle. intros [H _]. vm_compute in H. discriminate H.
Qed.

(** C7 (amended). Polling twice: a poll removes from the queue exactly the
    prefix it read, so no entry is delivered twice.  The second of two polls
    without writes in between is idle and empty whenever the first one
    emptied the queue, which is the case when the queue held no terminal
    record or nothing behind its first terminal record; what was queued
    behind a terminal record is still pending after the first poll. *)
Theorem poll_twice (w : World) :
  let w1 := snd (get_logs w) in
  (exists consumed,
      log_queue w = consumed ++ log_queue w1 /\
      (fst (get_logs w) = Ok (logging consumed) \/
       exists lines record,
         consumed = lines ++ [record] /\ fst (get_logs w) = Ok record)) /\
  (log_queue w1 = [] -> second_poll_idle w) /\
  (plain (log_queue w) = true -> log_queue w1 = []) /\
  (forall lines record queued_after,
      log_queue w = lines ++ record :: queued_after ->
      plain lines = true -> terminal record = true ->
      log_queue w1 = queued_after).
Proof.
  cbv zeta. unfold second_poll_idle. rewrite !get_logs_run.
  cbn [fst snd log_queue].
  split; [|split; [|split]].
  - destruct (queue_split (log_queue w))
      as [Hp | (lines & record & after & Hq & Hl & Hr)].
    + rewrite (get_logs_loop_plain _ _ Hp). cbn [fst snd app].
      exists (log_queue w). rewrite app_nil_r. auto.
    + rewrite Hq, (get_logs_loop_terminal _ _ _ _ Hl Hr). cbn [fst snd].
      exists (lines ++ [record]). rewrite <- app_assoc.
      split; [reflexivity|]. right. eauto.
  - intros ->. auto.
  - intro Hp. rewrite (get_logs_loop_plain _ _ Hp). reflexivity.
  - intros lines record after Hq Hl Hr.
    rewrite Hq, (get_logs_loop_terminal _ _ _ _ Hl Hr). reflexivity.
Qed.

Lemma poll_twice_witness :
  second_poll_idle
    (snd (process_video_task Sample.env app_config "https://youtu.be/x"
            Sample.empty_world)).
Proof.
  destruct (poll_twice (snd (process_video_task Sample.env app_config
                               "https://youtu.be/x" Sample.empty_world)))
    as (_ & Hidle & _).
  apply Hidle. vm_compute. reflexivity.
Defined.

(** ** Submission *)

Lemma discard_all_nil (queue : list json) : discard_all queue = [].
Proof. induction queue; auto. Qed.

(** The two ways [generate_clips] ends. *)
Lemma generate_clips_run (youtube_link : string) (w : World) :
  generate_clips youtube_link w
  = if negb (truthy youtube_link)
       || negb (startswith youtube_link "http://"
                || startswith youtube_link "https://")
    then (Ok invalid_link, w)
    else (Ok processing,
          mkWorld
            [JStr "Starting video processing...";
             JStr "NOTE: Video processing is resource-intensive and may take time. Please monitor logs.";
             JStr "NOTE: Serverless functions have time limits (e.g., 5 min). Long videos might time out."]
            (console w) (files w) (trace w) (threads w ++ [youtube_link])).
Proof.
  unfold generate_clips.
  destruct (negb (truthy youtube_link) || _); [reflexivity|].
  unfold bind, clear_log_queue, put, start_thread, ret.
  cbn [log_queue console files trace threads].
  rewrite discard_all_nil. reflexivity.
Qed.

(** ** The shape of a poll response *)

Lemma written_plain_lines (queue : list json) :
  Forall written_by_app queue -> plain queue = true ->
  exists logs, queue = map JStr logs.
Proof.
  induction 1 as [|item rest Hitem _ IH]; intro Hp.
  - exists []. reflexivity.
  - simpl in Hp. apply andb_true_iff in Hp. destruct Hp as [Hi Hrest].
    destruct (IH Hrest) as [logs ->].
    destruct Hitem as [[s ->] | [-> | [-> | [[urls ->] | [e ->]]]]];
      try discriminate.
    exists (s :: logs). reflexivity.
Qed.

Lemma written_terminal_shape (record : json) :
  written_by_app record -> terminal record = true -> poll_shape record.
Proof.
  intros [[s ->] | [-> | [-> | [[urls ->] | [e ->]]]]] H;
    try discriminate; constructor.
Qed.

Lemma written_lines (lines : list string) :
  Forall written_by_app (map JStr lines).
Proof.
  induction lines; constructor; [left; eauto | assumption].
Qed.

(** The response given for a finished job names its URL list clips, and
    the response given for a job that broke has status error: neither is one
    of the shapes the specification lists. *)
Lemma poll_response_keys_differ :
  ~ spec_poll_shape
      (completed ["https://blob.example/clips/short_clip_1.mp4"]) /\
  fst (get_logs (mkWorld
                   [completed ["https://blob.example/clips/short_clip_1.mp4"]]
                   [] [] [] []))
  = Ok (completed ["https://blob.example/clips/short_clip_1.mp4"]) /\
  ~ spec_poll_shape (errored "division by zero") /\
  fst (get_logs (snd (process_video_task Sample.env_flat_video app_config
                        "https://youtu.be/x" Sample.empty_world)))
  = Ok (errored "division by zero").
Proof.
  split; [|split; [reflexivity|split; [|vm_compute; reflexivity]]].
  - intros [[pending H] | [[_ [urls H]] | [[H | H] _]]]; discriminate H.
  - intros [[pending H] | [[H _] | [[H | H] _]]]; discriminate H.
Qed.

(** C8 (amended). Poll response shape: as long as the queue holds only what
    the program puts into it, a poll answers with exactly one of
    {status: logging, logs: [lines]}, {status: completed, clips: [urls]},
    {status: failed, message} and {status: error, message}; polling,
    submitting and running a job keep the queue that way. *)
Theorem poll_response_shape (env : Env) (cfg : Config)
    (youtube_link : string) (w : World) :
  Forall written_by_app (log_queue w) ->
  (exists response, fst (get_logs w) = Ok response /\ poll_shape response) /\
  Forall written_by_app (log_queue (snd (get_logs w))) /\
  Forall written_by_app (log_queue (snd (generate_clips youtube_link w))) /\
  Forall written_by_app
    (log_queue (snd (process_video_task env cfg youtube_link w))).
Proof.
  intro Hw. rewrite get_logs_run. cbn [fst snd log_queue].
  split; [|split; [|split]].
  - eexists. split; [reflexivity|].
    destruct (queue_split (log_queue w))
      as [Hp | (lines & record & after & Hq & Hl & Hr)].
    + rewrite (get_logs_loop_plain _ _ Hp). cbn [fst app].
      destruct (written_plain_lines _ Hw Hp) as [logs ->]. constructor.
    + rewrite Hq, (get_logs_loop_terminal _ _ _ _ Hl Hr). cbn [fst].
      rewrite Hq in Hw. apply Forall_app in Hw. destruct Hw as [_ Hw].
      inversion Hw; subst. apply written_terminal_shape; assumption.
  - destruct (queue_split (log_queue w))
      as [Hp | (lines & record & after & Hq & Hl & Hr)].
    + rewrite (get_logs_loop_plain _ _ Hp). constructor.
    + rewrite Hq, (get_logs_loop_terminal _ _ _ _ Hl Hr). cbn [snd].
      rewrite Hq in Hw. apply Forall_app in Hw. destruct Hw as [_ Hw].
      inversion Hw; assumption.
  - rewrite generate_clips_run.
    destruct (negb (truthy youtube_link) || _); [exact Hw|].
    cbn [snd log_queue].
    repeat (apply Forall_cons; [left; eexists; reflexivity|]).
    apply Forall_nil.
  - destruct (process_video_task_run env cfg youtube_link w)
      as (_ & pre & record & post & evs & _ & _ & Hshape).
    cbv zeta in Hshape.
    destruct (fst (task_body env cfg youtube_link w)).
    + destruct Hshape as (Hq & Hshape). rewrite Hq.
      apply Forall_app. split; [exact Hw|].
      apply Forall_app. split; [apply written_lines|].
      constructor; [|apply written_lines].
      unfold written_by_app.
      destruct (acquired env youtube_link w).
      * destruct Hshape as (_ & -> & _).
        destruct (published_urls evs); eauto 6.
      * destruct Hshape as (-> & _). auto.
    + destruct Hshape as (Hq & -> & _). rewrite Hq.
      apply Forall_app. split; [exact Hw|].
      apply Forall_app. split; [apply written_lines|].
      constructor; [|apply written_lines].
      unfold written_by_app. eauto 6.
    + destruct Hshape as (Hq & _). rewrite Hq.
      apply Forall_app. split; [exact Hw | apply written_lines].
Qed.

Lemma poll_response_shape_witness :
  exists response,
    fst (get_logs (snd (process_video_task Sample.env app_config
                          "https://youtu.be/x" Sample.empty_world)))
    = Ok response /\ poll_shape response.
Proof.
  destruct (poll_response_shape Sample.env app_config "https://youtu.be/x"
              (snd (process_video_task Sample.env app_config
                      "https://youtu.be/x" Sample.empty_world)))
    as (Hshape & _).
  - destruct (poll_response_shape Sample.env app_config "https://youtu.be/x"
                Sample.empty_world (Forall_nil _)) as (_ & _ & _ & H).
    exact H.
  - exact Hshape.
Defined.

(** ** Validation of a submission *)

Lemma truthy_false (s : string) : truthy s = false <-> s = EmptyString.
Proof.
  unfold truthy. rewrite negb_false_iff. apply String.eqb_eq.
Qed.

(** A link with a scheme other than http and https is turned down. *)
Lemma scheme_qualified_link_rejected :
  truthy "ftp://example.com/video.mp4" = true /\
  spec_scheme_qualified "ftp://example.com/video.mp4" = true /\
  rejected "ftp://example.com/video.mp4" Sample.empty_world /\
  ~ (forall youtube_link w,
        rejected youtube_link w <->
        youtube_link = EmptyString \/
        spec_scheme_qualified youtube_link = false).
Proof.
  split; [reflexivity|]. split; [reflexivity|]. split; [reflexivity|].
  intro H.
  destruct (proj1 (H "ftp://example.com/video.mp4" Sample.empty_world)
                  eq_refl) as [Habs | Habs]; discriminate Habs.
Qed.

(** C9 (amended). Submission validation: a submission is turned down, with
    the error response and without touching the queue or starting a thread,
    exactly when the link is empty or begins with neither http:// nor
    https://; otherwise the handler empties the queue, writes its three
    notices, starts one worker thread for the link and answers processing
    without running any part of the job itself. *)
Theorem submission_validation (youtube_link : string) (w : World) :
  (rejected youtube_link w <->
   youtube_link = EmptyString \/
   (startswith youtube_link "http://" = false /\
    startswith youtube_link "https://" = false)) /\
  (~ rejected youtube_link w ->
   exists w',
     generate_clips youtube_link w = (Ok processing, w') /\
     threads w' = threads w ++ [youtube_link] /\
     log_queue w'
     = [JStr "Starting video processing...";
        JStr "NOTE: Video processing is resource-intensive and may take time. Please monitor logs.";
        JStr "NOTE: Serverless functions have time limits (e.g., 5 min). Long videos might time out."] /\
     trace w' = trace w /\ files w' = files w).
Proof.
  unfold rejected. rewrite generate_clips_run.
  destruct (truthy youtube_link) eqn:Et; cbn [negb orb].
  - assert (Hne : youtube_link <> EmptyString).
    { intro H. apply truthy_false in H. congruence. }
    destruct (startswith youtube_link "http://"); cbn [negb orb].
    + split.
      * split; [discriminate|]. intros [H | [H _]]; [contradiction|discriminate].
      * intros _. eexists. split; [reflexivity|]. auto.
    + destruct (startswith youtube_link "https://"); cbn [negb].
      * split.
        -- split; [discriminate|].
           intros [H | [_ H]]; [contradiction|discriminate].
        -- intros _. eexists. split; [reflexivity|]. auto.
      * split; [split; auto|]. intro H. exfalso. apply H. reflexivity.
  - apply truthy_false in Et.
    split; [split; auto|]. intro H. exfalso. apply H. reflexivity.
Qed.

Lemma submission_validation_witness :
  exists w',
    generate_clips "https://youtu.be/x" Sample.empty_world
    = (Ok processing, w') /\
    threads w' = ["https://youtu.be/x"].
Proof.
  destruct (submission_validation "https://youtu.be/x" Sample.empty_world)
    as [_ Haccept].
  destruct Haccept as (w' & Hrun & Hthreads & _).
  - unfold rejected. discriminate.
  - exists w'. split; [exact Hrun | exact Hthreads].
Defined.

(** * Further properties of the code *)

(** ** The window schedule, continued *)

(** X1. With a whole number of seconds per clip, the emitted segments tile
    the video from 0 on: the first one starts at 0, each one ends where the
    next one starts and is a full clip long, and a segment whose end was
    clamped to the video duration is the last one. *)
Theorem segments_tile_the_video (video_duration : float) (clip_duration : Z)
    (num_clips : nat) :
  py_lt (Int 0) (Float video_duration) = true ->
  (0 < clip_duration)%Z ->
  let segments := plan video_duration (Int clip_duration) num_clips in
  (forall s e, nth_error segments 0 = Some (s, e) -> s = Int 0) /\
  (forall k s e s' e',
      nth_error segments k = Some (s, e) ->
      nth_error segments (S k) = Some (s', e') ->
      e = s' /\ py_sub e s = Ok (Int clip_duration)) /\
  (forall k s e,
      nth_error segments k = Some (s, e) -> e = Float video_duration ->
      List.length segments = S k).
Proof.
  intros Htotal Hpos segments. subst segments.
  assert (Hnext : forall k s e s' e',
             nth_error (plan video_duration (Int clip_duration) num_clips) k
             = Some (s, e) ->
             nth_error (plan video_duration (Int clip_duration) num_clips)
               (S k) = Some (s', e') ->
             e = s' /\ py_sub e s = Ok (Int clip_duration)).
  { intros k s e s' e' Hk Hk'.
    apply plan_nth, (window_whole_inv _ _ Htotal) in Hk, Hk'.
    destruct Hk' as (-> & Hlt' & _).
    destruct Hk as (-> & _ & [[-> _] | (-> & Hlt & _)]).
    - split; [f_equal; lia|]. unfold py_sub, py_binop. do 2 f_equal. lia.
    - exfalso.
      apply (xlt_between _ Htotal
               (Z.of_nat k * clip_duration + clip_duration)
               (Z.of_nat (S k) * clip_duration)); [lia | exact Hlt | exact Hlt']. }
  split; [|split; [exact Hnext|]].
  - intros s e H. apply plan_nth, (window_whole_inv _ _ Htotal) in H.
    destruct H as (-> & _). reflexivity.
  - intros k s e Hk ->.
    assert (Hlen : (k < List.length (plan video_duration (Int clip_duration)
                                       num_clips))%nat)
      by (apply nth_error_Some; congruence).
    destruct (Nat.eq_dec (List.length (plan video_duration (Int clip_duration)
                                         num_clips)) (S k)) as [|Hne];
      [assumption|].
    exfalso.
    assert (Hlater : (S k < List.length (plan video_duration
                                           (Int clip_duration) num_clips))%nat)
      by lia.
    apply nth_error_Some in Hlater.
    destruct (nth_error _ (S k)) as [[s' e']|] eqn:E; [|congruence].
    destruct (Hnext _ _ _ _ _ Hk E) as [<- _].
    apply plan_nth, (window_whole_inv _ _ Htotal) in E.
    destruct E as (Habs & _). discriminate Habs.
Qed.

Lemma segments_tile_the_video_witness :
  List.length (plan 100 (Int 27) 5) = 4%nat.
Proof.
  destruct (segments_tile_the_video 100 27 5 eq_refl eq_refl) as (_ & _ & H).
  apply (H 3%nat (Int 81) (Float 100)); reflexivity.
Defined.

(** Subtracting a zero from a float leaves its value. *)
Lemma sub_zero_value (x z : float) :
  Prim2SF z = S754_zero false ->
  SF_value (Prim2SF (x - z)) = SF_value (Prim2SF x).
Proof.
  intro Hz. rewrite sub_spec, Hz.
  destruct (Prim2SF x) as [[|]|[|]| |[|] m e]; reflexivity.
Qed.

Lemma positive_value_finite (f : float) (q : Q) :
  SF_value (Prim2SF f) = Real q -> 0 < q ->
  exists m e, Prim2SF f = S754_finite false m e.
Proof.
  destruct (Prim2SF f) as [s|[|]| |[|] m e]; simpl; try discriminate.
  - intros H Hq. inversion H; subst q. discriminate Hq.
  - intros H Hq. inversion H; subst q. exfalso.
    pose proof (finite_value_pos m e) as Hpos.
    unfold finite_value in *. lra.
  - eauto.
Qed.

(** The first iteration of the loop, for a clip duration that is a positive
    number: it starts at 0, its unclamped end is the clip duration, and the
    remaining time is the whole video. *)
Lemma window_first (video_duration : float) (clip_duration : num) (q : Q) :
  value clip_duration = Real q -> 0 < q ->
  exists start_time end_time remaining,
    value start_time = Real 0 /\ value end_time = Real q /\
    value remaining = value (Float video_duration) /\
    window video_duration clip_duration 0
    = (if py_ge start_time (Float video_duration) then Ok ReachedEnd
       else if py_gt end_time (Float video_duration) then
         and_then (py_truediv clip_duration (Int 2)) (fun half =>
           if py_lt remaining (Float half) then Ok (TooShort remaining)
           else Ok (Window start_time (Float video_duration)))
       else Ok (Window start_time end_time)).
Proof.
  intros Hq Hpos. destruct clip_duration as [d|f].
  - exists (Int 0), (Int d), (Float (video_duration - float_of_Z 0)).
    split; [reflexivity|]. split; [exact Hq|].
    split; [apply sub_zero_value; reflexivity | reflexivity].
  - destruct (positive_value_finite f q Hq Hpos) as (m & e & Ef).
    assert (Hs : Prim2SF (float_of_Z 0 * f) = S754_zero false).
    { rewrite mul_spec, Ef. reflexivity. }
    exists (Float (float_of_Z 0 * f)), (Float (float_of_Z 0 * f + f)),
           (Float (video_duration - float_of_Z 0 * f)).
    split; [simpl; rewrite Hs; reflexivity|].
    split; [simpl; rewrite add_spec, Hs, Ef; simpl in Hq; rewrite Ef in Hq;
            exact Hq|].
    split; [apply sub_zero_value, Hs | reflexivity].
Qed.

(** X2. For a clip duration that is a positive number whose computed half
    is positive and not above it, no segment at all is planned exactly when
    [num_clips] is 0 or the video duration compares below half a clip. *)
Theorem plan_empty_iff (video_duration : float) (clip_duration : num)
    (num_clips : nat) (half : float) :
  py_gt clip_duration (Int 0) = true ->
  py_lt clip_duration (Float infinity) = true ->
  py_truediv clip_duration (Int 2) = Ok half ->
  py_lt (Int 0) (Float half) = true ->
  py_le (Float half) clip_duration = true ->
  (plan video_duration clip_duration num_clips = [] <->
   num_clips = 0%nat \/ py_lt (Float video_duration) (Float half) = true).
Proof.
  intros Hpos Hfinite Hhalf Hhalf_pos Hhalf_le.
  destruct num_clips as [|n]; [split; [auto | reflexivity]|].
  assert (Hq : exists q, value clip_duration = Real q /\ 0 < q).
  { unfold py_gt, py_lt in Hpos, Hfinite.
    change (value (Int 0)) with (Real 0) in Hpos.
    change (value (Float infinity)) with PlusInfinity in Hfinite.
    destruct (value clip_duration) as [| |q|]; try discriminate.
    exists q. split; [reflexivity|]. simpl in Hpos. to_Q. exact Hpos. }
  destruct Hq as (q & Hq & Hq_pos).
  destruct (window_first video_duration clip_duration q Hq Hq_pos)
    as (s & e0 & remaining & Hs & He0 & Hrem & Hwin).
  unfold plan. cbn [seq plan_over]. rewrite Hwin, Hhalf. cbn [and_then].
  unfold py_ge, py_gt, py_lt, py_le in *.
  rewrite Hs, He0, Hrem. rewrite Hq in Hhalf_le.
  change (value (Int 0)) with (Real 0) in Hhalf_pos.
  change (value (Float half)) with (SF_value (Prim2SF half)) in *.
  destruct (value (Float video_duration)) as [| |v|],
           (SF_value (Prim2SF half)) as [| |h|];
    cbn [xle xlt] in *; try discriminate;
    try (split; [discriminate | intros [H | H]; discriminate]);
    try (split; [auto | reflexivity]).
  destruct (Qle_bool v 0) eqn:E1.
  - split; [intros _; right | reflexivity]. to_Q. lra.
  - destruct (Qlt_bool v q) eqn:E2.
    + destruct (Qlt_bool v h) eqn:E3.
      * split; [auto | reflexivity].
      * split; [discriminate | intros [H | H]; discriminate].
    + split; [discriminate|]. intros [H | H]; [discriminate|].
      exfalso. to_Q. lra.
Qed.

Lemma plan_empty_iff_witness :
  plan 13 (Int 27) 5 = [] /\ plan 1 (Float 2.5) 3 = [].
Proof.
  split.
  - apply (plan_empty_iff 13 (Int 27) 5 13.5
             eq_refl eq_refl eq_refl eq_refl eq_refl).
    right. reflexivity.
  - apply (plan_empty_iff 1 (Float 2.5) 3 1.25
             eq_refl eq_refl eq_refl eq_refl eq_refl).
    right. reflexivity.
Defined.

Lemma plan_over_app (video_duration : float) (clip_duration : num)
    (l1 l2 : list nat) :
  plan_over video_duration clip_duration (l1 ++ l2)
  = if (List.length (plan_over video_duration clip_duration l1)
        =? List.length l1)%nat
    then plan_over video_duration clip_duration l1
           ++ plan_over video_duration clip_duration l2
    else plan_over video_duration clip_duration l1.
Proof.
  induction l1 as [|i l1 IH]; [reflexivity|]. simpl.
  destruct (window video_duration clip_duration i) as [[| |s e]|?|?];
    try reflexivity.
  simpl. rewrite IH.
  destruct (_ =? _)%nat; reflexivity.
Qed.

Lemma plan_over_short (video_duration : float) (clip_duration : num)
    (l : list nat) :
  (List.length (plan_over video_duration clip_duration l)
   <= List.length l)%nat.
Proof.
  induction l as [|i l IH]; simpl; [lia|].
  destruct (window video_duration clip_duration i) as [[| |s e]|?|?];
    simpl; lia.
Qed.

(** X3. Raising the number of clips only appends: the plan for [n] clips is
    the first [n] segments of the plan for any larger number. *)
Theorem plan_is_prefix_of_longer_plan (video_duration : float)
    (clip_duration : num) (n m : nat) :
  plan video_duration clip_duration n
  = firstn n (plan video_duration clip_duration (n + m)).
Proof.
  unfold plan. rewrite seq_app, plan_over_app. simpl.
  pose proof (plan_over_short video_duration clip_duration (seq 0 n)) as Hle.
  rewrite length_seq in *.
  destruct (Nat.eqb_spec
              (List.length (plan_over video_duration clip_duration (seq 0 n)))
              n) as [Heq | Hne].
  - rewrite firstn_app, Heq, Nat.sub_diag. simpl. rewrite app_nil_r.
    symmetry. apply firstn_all2. lia.
  - symmetry. apply firstn_all2. lia.
Qed.

(** ** Relations that every step of a computation keeps *)

Section Keeps.

Variable R : World -> World -> Prop.
Hypothesis R_refl : forall w, R w w.
Hypothesis R_trans : forall w1 w2 w3, R w1 w2 -> R w2 w3 -> R w1 w3.

Lemma keeps_ret {A} (a : A) : keeps R (ret a).
Proof using R_refl. intro w. apply R_refl. Qed.

Lemma keeps_raise {A} (e : string) : keeps R (@raise A e).
Proof using R_refl. intro w. apply R_refl. Qed.

Lemma keeps_abort {A} (e : string) : keeps R (@abort A e).
Proof using R_refl. intro w. apply R_refl. Qed.

Lemma keeps_fail {A} (f : fault) : keeps R (@fail A f).
Proof using R_refl. intro w. destruct f; apply R_refl. Qed.

Lemma keeps_lift {A} (r : result A) : keeps R (lift r).
Proof using R_refl. intro w. apply R_refl. Qed.

Lemma keeps_path_exists (path : string) : keeps R (path_exists path).
Proof using R_refl. intro w. apply R_refl. Qed.

Lemma keeps_list_files : keeps R list_files.
Proof using R_refl. intro w. apply R_refl. Qed.

Lemma keeps_bind {A B} (m : M A) (k : A -> M B) :
  keeps R m -> (forall a, keeps R (k a)) -> keeps R (bind m k).
Proof using R_refl R_trans.
  intros Hm Hk w. unfold bind. specialize (Hm w).
  destruct (m w) as [[a|e|e] w1]; simpl in *; [|assumption ..].
  apply (R_trans _ _ _ Hm), Hk.
Qed.

Lemma keeps_try {A} (m : M A) (handler : string -> M A) :
  keeps R m -> (forall e, keeps R (handler e)) ->
  keeps R (try_except m handler).
Proof using R_refl R_trans.
  intros Hm Hh w. unfold try_except. specialize (Hm w).
  destruct (m w) as [[a|e|e] w1]; simpl in *; [assumption| |assumption].
  apply (R_trans _ _ _ Hm), Hh.
Qed.

End Keeps.

(** Walk through a computation, one bind or branch at a time. *)
Ltac keeps_step :=
  first
    [ assumption
    | match goal with H : context [keeps] |- _ => apply H end
    | apply keeps_ret; assumption
    | apply keeps_raise; assumption
    | apply keeps_abort; assumption
    | apply keeps_fail; assumption
    | apply keeps_lift; assumption
    | apply keeps_path_exists; assumption
    | apply keeps_list_files; assumption
    | match goal with
      | |- keeps _ (match ?x with _ => _ end) => destruct x
      end
    | apply keeps_try; [assumption | assumption | | intro]
    | apply keeps_bind; [assumption | assumption | | intro]
    ].

Ltac keeps_crawl := cbv zeta; repeat (keeps_step; cbv zeta).

Section KeepsProgram.

Variable env : Env.
Variable cfg : Config.
Variable R : World -> World -> Prop.
Hypothesis R_refl : forall w, R w w.
Hypothesis R_trans : forall w1 w2 w3, R w1 w2 -> R w2 w3 -> R w1 w3.
Hypothesis R_log : forall message, keeps R (log_message message).
Hypothesis R_create : forall paths, keeps R (create_files paths).

Lemma keeps_run_subprocess_command cmd_list error_msg_prefix cwd :
  keeps R (run_subprocess_command env cmd_list error_msg_prefix cwd).
Proof using R_refl R_trans R_log R_create.
  unfold run_subprocess_command. keeps_crawl.
Qed.

Lemma keeps_download_fallback temp_dir timestamp downloaded_filepath :
  keeps R (download_fallback env temp_dir timestamp downloaded_filepath).
Proof using R_refl R_trans R_log.
  unfold download_fallback. keeps_crawl.
Qed.

Lemma keeps_download youtube_url temp_dir :
  keeps R (download_youtube_video_to_temp env youtube_url temp_dir).
Proof using R_refl R_trans R_log R_create.
  pose proof keeps_run_subprocess_command as Hrun.
  pose proof keeps_download_fallback as Hfb.
  unfold download_youtube_video_to_temp. keeps_crawl.
Qed.

Lemma keeps_moviepy c : keeps R (moviepy env c).
Proof using R_refl. unfold moviepy. keeps_crawl. Qed.

Lemma keeps_crop_and_resize sub_clip target_aspect :
  keeps R (crop_and_resize env cfg sub_clip target_aspect).
Proof using R_refl R_trans.
  pose proof keeps_moviepy as Hmp.
  unfold crop_and_resize. keeps_crawl.
Qed.

Section Loop.

Variable temp_output_dir : string.
Hypothesis R_render :
  forall i c ok,
    keeps R (emit (EvRender i c (output_filepath env temp_output_dir i) ok)).

Lemma keeps_clip_loop full_clip target_aspect clip_duration indices :
  forall paths count,
    keeps R (clip_loop env cfg full_clip target_aspect clip_duration
                       temp_output_dir indices paths count).
Proof using R_refl R_trans R_log R_create R_render.
  pose proof keeps_moviepy as Hmp.
  pose proof keeps_crop_and_resize as Hcr.
  induction indices as [|i rest IH]; intros paths count; cbn [clip_loop].
  - keeps_crawl.
  - fold (output_filename env i). fold (output_filepath env temp_output_dir i).
    keeps_crawl.
Qed.

Lemma keeps_generate video_path clip_duration num_clips :
  keeps R (generate_short_clips_to_temp env cfg video_path clip_duration
             num_clips temp_output_dir).
Proof using R_refl R_trans R_log R_create R_render.
  pose proof keeps_clip_loop as Hloop.
  unfold generate_short_clips_to_temp. keeps_crawl.
Qed.

End Loop.

End KeepsProgram.

(** ** File names *)

Lemma append_cancel_l (a x y : string) :
  (a ++ x = a ++ y)%string -> x = y.
Proof.
  induction a as [|c a IH]; simpl; intro H; [assumption|].
  inversion H. auto.
Qed.

Lemma slash_free_append (a b : string) :
  slash_free (a ++ b) = slash_free a && slash_free b.
Proof.
  induction a as [|c a IH]; simpl; [reflexivity|].
  rewrite IH, andb_assoc. reflexivity.
Qed.

Lemma all_digits_uint (d : Decimal.uint) :
  all_digits (NilEmpty.string_of_uint d) = true.
Proof. induction d; simpl; auto. Qed.

Lemma all_digits_show_nat (n : nat) : all_digits (show_nat n) = true.
Proof. apply all_digits_uint. Qed.

Lemma all_digits_slash_free (s : string) :
  all_digits s = true -> slash_free s = true.
Proof.
  induction s as [|c s IH]; simpl; [reflexivity|].
  intro H. apply andb_true_iff in H. destruct H as [Hc Hs].
  rewrite (IH Hs), andb_true_r.
  destruct (Ascii.eqb c slash) eqn:E; [|reflexivity].
  apply Ascii.eqb_eq in E. subst c. discriminate Hc.
Qed.

Lemma show_nat_inj (n m : nat) : show_nat n = show_nat m -> n = m.
Proof.
  unfold show_nat. intro H.
  apply DecimalNat.Unsigned.to_uint_inj.
  pose proof (NilEmpty.usu (Nat.to_uint n)) as Hn.
  pose proof (NilEmpty.usu (Nat.to_uint m)) as Hm.
  rewrite H in Hn. congruence.
Qed.

(** Two runs of digits followed by an underscore agree when what they head
    agrees. *)
Lemma digits_then_underscore (a b x y : string) :
  all_digits a = true -> all_digits b = true ->
  (a ++ String "_" x = b ++ String "_" y)%string -> a = b.
Proof.
  revert b. induction a as [|c a IH]; intros [|d b] Ha Hb H; simpl in *.
  - reflexivity.
  - inversion H; subst. discriminate Hb.
  - inversion H; subst. discriminate Ha.
  - apply andb_true_iff in Ha, Hb. destruct Ha as [_ Ha], Hb as [_ Hb].
    inversion H; subst. f_equal. apply (IH b); assumption.
Qed.

Lemma output_filename_inj (env : Env) (i j : nat) :
  output_filename env i = output_filename env j -> i = j.
Proof.
  unfold output_filename. intro H.
  apply (append_cancel_l "short_clip_") in H.
  apply digits_then_underscore in H; try apply all_digits_show_nat.
  apply show_nat_inj in H. lia.
Qed.

Lemma path_join_inj (dir : string) (a b : string) :
  startswith a "/" = false -> startswith b "/" = false ->
  path_join dir a = path_join dir b -> a = b.
Proof.
  unfold path_join. intros -> ->.
  destruct (negb (truthy dir) || endswith_slash dir); intro H.
  - apply append_cancel_l in H. assumption.
  - apply append_cancel_l in H. inversion H. reflexivity.
Qed.

Lemma output_filepath_inj (env : Env) (dir : string) (i j : nat) :
  output_filepath env dir i = output_filepath env dir j -> i = j.
Proof.
  unfold output_filepath. intro H.
  apply path_join_inj in H; [|reflexivity|reflexivity].
  apply output_filename_inj in H. assumption.
Qed.

Lemma basename_from_slash_free (acc s : string) :
  slash_free s = true -> basename_from acc s = (acc ++ s)%string.
Proof.
  revert acc. induction s as [|c s IH]; intros acc H; simpl.
  - clear. induction acc; simpl; congruence.
  - simpl in H. apply andb_true_iff in H. destruct H as [Hc Hs].
    apply negb_true_iff in Hc. rewrite Hc, (IH _ Hs).
    clear. induction acc; simpl; congruence.
Qed.

Lemma basename_from_after_slash (acc a name : string) :
  slash_free name = true ->
  basename_from acc (a ++ String slash name) = name.
Proof.
  intro Hn. revert acc. induction a as [|c a IH]; intro acc; simpl.
  - apply (basename_from_slash_free EmptyString name Hn).
  - destruct (Ascii.eqb c slash); apply IH.
Qed.

Lemma basename_from_dir_slash (acc a name : string) :
  endswith_slash a = true -> slash_free name = true ->
  basename_from acc (a ++ name) = name.
Proof.
  intros Ha Hn. revert acc.
  induction a as [|c a IH]; intro acc; [discriminate|].
  destruct a as [|d a].
  - simpl in Ha. simpl. rewrite Ha.
    apply (basename_from_slash_free EmptyString name Hn).
  - change (endswith_slash (String d a) = true) in Ha.
    change ((String c (String d a) ++ name)%string)
      with (String c (String d a ++ name)%string).
    cbn [basename_from]. destruct (Ascii.eqb c slash); apply IH; assumption.
Qed.

Lemma slash_free_startswith (name : string) :
  slash_free name = true -> startswith name "/" = false.
Proof.
  destruct name as [|c name]; [reflexivity|]. cbn [slash_free]. intro H.
  apply andb_true_iff in H. destruct H as [Hc _].
  apply negb_true_iff in Hc. unfold startswith.
  change (String.prefix "/" (String c name))
    with (if ascii_dec "/" c then String.prefix EmptyString name else false).
  destruct (ascii_dec "/" c) as [<-|]; [discriminate Hc | reflexivity].
Qed.

(** X4. [basename] undoes [join]: the base name of a name joined to any
    directory is the name again, when the name holds no slash.  So the blob
    path built at line 172 for the clip of index [i] is the folder clips
    followed by the file name of line 144, the timestamp holding no slash. *)
Theorem basename_of_joined_path (env : Env) (dir name : string) (i : nat) :
  (slash_free name = true -> basename (path_join dir name) = name) /\
  (slash_free (clip_stamp env i) = true ->
   ("clips/" ++ basename (output_filepath env dir i))%string
   = ("clips/short_clip_" ++ show_nat (i + 1) ++ "_" ++ clip_stamp env i
      ++ ".mp4")%string).
Proof.
  assert (Hgen : forall n, slash_free n = true ->
                           basename (path_join dir n) = n).
  { intros n Hn. unfold path_join, basename.
    rewrite (slash_free_startswith _ Hn).
    destruct (truthy dir) eqn:Et; cbn [negb orb].
    - destruct (endswith_slash dir) eqn:Ee.
      + apply basename_from_dir_slash; assumption.
      + apply (basename_from_after_slash EmptyString dir n Hn).
    - unfold truthy in Et. apply negb_false_iff, String.eqb_eq in Et.
      subst dir. apply (basename_from_slash_free EmptyString n Hn). }
  split; [apply Hgen|].
  intro Hstamp. unfold output_filepath. rewrite Hgen; [reflexivity|].
  unfold output_filename.
  rewrite !slash_free_append, Hstamp,
    (all_digits_slash_free _ (all_digits_show_nat (i + 1))).
  reflexivity.
Qed.

Lemma basename_of_joined_path_witness :
  basename (path_join "/tmp" "short_clip_1_20240101_120500.mp4")
  = "short_clip_1_20240101_120500.mp4"%string.
Proof.
  apply (basename_of_joined_path Sample.env "/tmp"
           "short_clip_1_20240101_120500.mp4" 0).
  reflexivity.
Defined.

(** ** The whole job keeps a relation that its primitive steps keep *)

Section KeepsJob.

Variable env : Env.
Variable cfg : Config.
Variable R : World -> World -> Prop.
Hypothesis R_refl : forall w, R w w.
Hypothesis R_trans : forall w1 w2 w3, R w1 w2 -> R w2 w3 -> R w1 w3.
Hypothesis R_log : forall message, keeps R (log_message message).
Hypothesis R_create : forall paths, keeps R (create_files paths).
Hypothesis R_emit : forall ev, keeps R (emit ev).
Hypothesis R_unlink : forall path, keeps R (unlink path).
Hypothesis R_put : forall fields, keeps R (put (JObj fields)).

Lemma keeps_os_remove path : keeps R (os_remove env path).
Proof using R_refl R_trans R_emit R_unlink.
  unfold os_remove. keeps_crawl.
Qed.

Lemma keeps_upload_to_vercel_blob local_filepath :
  keeps R (upload_to_vercel_blob env local_filepath).
Proof using R_refl R_trans R_log R_emit.
  unfold upload_to_vercel_blob. keeps_crawl.
Qed.

Lemma keeps_upload_loop temp_clip_paths :
  forall blob_urls, keeps R (upload_loop env temp_clip_paths blob_urls).
Proof using R_refl R_trans R_log R_emit R_unlink.
  pose proof keeps_os_remove as Hrm.
  pose proof keeps_upload_to_vercel_blob as Hup.
  induction temp_clip_paths as [|temp_path rest IH]; intro blob_urls;
    cbn [upload_loop]; keeps_crawl.
Qed.

Lemma keeps_task_body youtube_link : keeps R (task_body env cfg youtube_link).
Proof using R_refl R_trans R_log R_create R_emit R_unlink R_put.
  pose proof keeps_os_remove as Hrm.
  pose proof keeps_upload_loop as Hup.
  pose proof (keeps_download env R R_refl R_trans R_log R_create) as Hdl.
  pose proof (fun dir => keeps_generate env cfg R R_refl R_trans R_log
                           R_create dir (fun i c ok => R_emit _)) as Hgen.
  unfold task_body. keeps_crawl.
Qed.

Lemma keeps_process_video_task youtube_link :
  keeps R (process_video_task env cfg youtube_link).
Proof using R_refl R_trans R_log R_create R_emit R_unlink R_put.
  pose proof keeps_task_body as Hbody.
  unfold process_video_task. keeps_crawl.
Qed.

End KeepsJob.

(** ** Console and queue *)

Lemma lines_of_app (q1 q2 : list json) :
  lines_of (q1 ++ q2) = lines_of q1 ++ lines_of q2.
Proof. apply flat_map_app. Qed.

Lemma mirrored_refl w : mirrored w w.
Proof. exists []. simpl. rewrite !app_nil_r. auto. Qed.

Lemma mirrored_trans w1 w2 w3 :
  mirrored w1 w2 -> mirrored w2 w3 -> mirrored w1 w3.
Proof.
  intros (q1 & Hq1 & Hc1) (q2 & Hq2 & Hc2). exists (q1 ++ q2).
  rewrite Hq2, Hq1, Hc2, Hc1, lines_of_app, !app_assoc. auto.
Qed.

Lemma mirrored_log message : keeps mirrored (log_message message).
Proof. intro w. exists [JStr message]. auto. Qed.

Lemma mirrored_silent (w w' : World) :
  log_queue w' = log_queue w -> console w' = console w -> mirrored w w'.
Proof. intros Hq Hc. exists []. simpl. rewrite !app_nil_r. auto. Qed.

Lemma mirrored_put fields : keeps mirrored (put (JObj fields)).
Proof. intro w. exists [JObj fields]. simpl. rewrite app_nil_r. auto. Qed.

(** X5. Console and queue: a run of the job never removes or reorders what
    is in the queue, it only appends; and apart from the terminal record
    every item it appends is a log line that it also printed, so the
    console receives exactly the appended log lines, in the same order. *)
Theorem console_mirrors_queue (env : Env) (cfg : Config)
    (youtube_link : string) (w : World) :
  let w' := snd (process_video_task env cfg youtube_link w) in
  exists written,
    log_queue w' = log_queue w ++ written /\
    console w' = console w ++ lines_of written.
Proof.
  apply (keeps_process_video_task env cfg mirrored mirrored_refl
           mirrored_trans mirrored_log).
  - intros paths w0. apply mirrored_silent; reflexivity.
  - intros ev w0. apply mirrored_silent; reflexivity.
  - intros path w0. apply mirrored_silent; reflexivity.
  - apply mirrored_put.
Qed.

(** ** Temporary files *)

Lemma grows_refl w : grows w w.
Proof. intros p H. exact H. Qed.

Lemma grows_trans w1 w2 w3 : grows w1 w2 -> grows w2 w3 -> grows w1 w3.
Proof. intros H1 H2 p H. auto. Qed.

Lemma grows_same_files (w w' : World) : files w' = files w -> grows w w'.
Proof. intros H p Hp. rewrite H. exact Hp. Qed.

Lemma grows_create paths : keeps grows (create_files paths).
Proof.
  intros w p Hp. unfold on_disk in *. simpl. rewrite existsb_app, Hp.
  apply orb_true_r.
Qed.

(** ** Render files *)

Lemma named_refl env dir w : named_renders env dir w w.
Proof. exists []. rewrite app_nil_r. auto. Qed.

Lemma named_trans env dir w1 w2 w3 :
  named_renders env dir w1 w2 -> named_renders env dir w2 w3 ->
  named_renders env dir w1 w3.
Proof.
  intros (e1 & H1 & F1) (e2 & H2 & F2). exists (e1 ++ e2).
  rewrite H2, H1, app_assoc. split; [reflexivity|].
  apply Forall_app. auto.
Qed.

Lemma named_same_trace env dir (w w' : World) :
  trace w' = trace w -> named_renders env dir w w'.
Proof. intro H. exists []. rewrite app_nil_r. auto. Qed.

Lemma render_outputs_named env dir evs :
  Forall (ev_named env dir) evs ->
  render_outputs evs = map (output_filepath env dir) (render_indices evs).
Proof.
  induction 1 as [|ev evs Hev _ IH]; [reflexivity|].
  unfold render_outputs, render_indices in *. simpl.
  rewrite map_app, IH. f_equal.
  destruct ev; simpl in *; congruence.
Qed.

Lemma NoDup_map_injective {A B} (f : A -> B) (l : list A) :
  (forall x y, f x = f y -> x = y) -> NoDup l -> NoDup (map f l).
Proof.
  intros Hinj H. induction H as [|x l Hx _ IH]; simpl; constructor;
    [|assumption].
  rewrite in_map_iff. intros (y & Hy & Hin). apply Hinj in Hy. subst y.
  contradiction.
Qed.

Lemma generate_render_outputs (env : Env) (cfg : Config)
    (video_path temp_output_dir : string) (w : World) :
  exists evs,
    trace (snd (generate_short_clips_to_temp env cfg video_path
                  (CLIP_DURATION_SECONDS cfg) (NUM_CLIPS_TO_GENERATE cfg)
                  temp_output_dir w))
    = trace w ++ evs /\
    render_outputs evs
    = map (output_filepath env temp_output_dir)
          (seq 0 (List.length (render_outputs evs))) /\
    NoDup (render_outputs evs).
Proof.
  pose proof (generate_spec env cfg video_path temp_output_dir w) as Hspec.
  unfold wp in Hspec.
  destruct Hspec as (lines & evs & (_ & Ht & _) & _ & Hidx & _).
  assert (Hnamed : named_renders env temp_output_dir w
                     (snd (generate_short_clips_to_temp env cfg video_path
                             (CLIP_DURATION_SECONDS cfg)
                             (NUM_CLIPS_TO_GENERATE cfg)
                             temp_output_dir w))).
  { apply (keeps_generate env cfg (named_renders env temp_output_dir)
             (named_refl env temp_output_dir)
             (named_trans env temp_output_dir)).
    - intros message w0. apply named_same_trace. reflexivity.
    - intros paths w0. apply named_same_trace. reflexivity.
    - intros i c ok w0.
      exists [EvRender i c (output_filepath env temp_output_dir i) ok].
      split; [reflexivity|]. repeat constructor. }
  destruct Hnamed as (evs' & Ht' & Hall).
  rewrite Ht in Ht'. apply app_inv_head in Ht'. subst evs'.
  exists evs. split; [exact Ht|].
  pose proof (render_outputs_named _ _ _ Hall) as Hout.
  assert (Hlen : List.length (render_outputs evs)
                 = List.length (render_indices evs))
    by (rewrite Hout; apply length_map).
  split; [rewrite Hlen, <- Hidx; exact Hout|].
  rewrite Hout, Hidx.
  apply NoDup_map_injective; [|apply seq_NoDup].
  intros i j. apply output_filepath_inj.
Qed.

(** X6. Within one job no two render attempts write to the same file: the
    file names of lines 144-145 differ as soon as the indices differ,
    whatever the timestamps are. *)
Theorem render_files_are_distinct (env : Env) (cfg : Config)
    (video_path temp_output_dir : string) (w : World) :
  (forall i j, output_filepath env temp_output_dir i
               = output_filepath env temp_output_dir j -> i = j) /\
  exists evs,
    trace (snd (generate_short_clips_to_temp env cfg video_path
                  (CLIP_DURATION_SECONDS cfg) (NUM_CLIPS_TO_GENERATE cfg)
                  temp_output_dir w))
    = trace w ++ evs /\
    render_outputs evs
    = map (output_filepath env temp_output_dir)
          (seq 0 (List.length (render_outputs evs))) /\
    NoDup (render_outputs evs).
Proof.
  split; [apply output_filepath_inj | apply generate_render_outputs].
Qed.

(** ** What a job leaves on disk *)

Lemma on_disk_cons (p q : string) (fs : list string) :
  on_disk p (q :: fs) = String.eqb p q || on_disk p fs.
Proof. reflexivity. Qed.

Lemma rendered_kept_refl w : rendered_kept w w.
Proof.
  split; [apply grows_refl|]. exists []. rewrite app_nil_r.
  split; [reflexivity | contradiction].
Qed.

Lemma rendered_kept_trans w1 w2 w3 :
  rendered_kept w1 w2 -> rendered_kept w2 w3 -> rendered_kept w1 w3.
Proof.
  intros (G1 & e1 & H1 & K1) (G2 & e2 & H2 & K2).
  split; [apply (grows_trans _ _ _ G1 G2)|].
  exists (e1 ++ e2). rewrite H2, H1, app_assoc. split; [reflexivity|].
  intros p Hp. unfold rendered_paths in Hp. rewrite flat_map_app in Hp.
  apply in_app_or in Hp. destruct Hp as [Hp | Hp]; auto.
Qed.

Lemma rendered_kept_quiet (w w' : World) :
  grows w w' -> trace w' = trace w -> rendered_kept w w'.
Proof.
  intros G H. split; [exact G|]. exists []. rewrite app_nil_r.
  split; [exact H | contradiction].
Qed.

Lemma rendered_kept_log message : keeps rendered_kept (log_message message).
Proof.
  intro w. apply rendered_kept_quiet; [apply grows_same_files|]; reflexivity.
Qed.

Lemma rendered_kept_create paths : keeps rendered_kept (create_files paths).
Proof.
  intro w. apply rendered_kept_quiet; [apply grows_create | reflexivity].
Qed.

Lemma rendered_kept_failed i c p :
  keeps rendered_kept (emit (EvRender i c p false)).
Proof.
  intro w. split; [apply grows_same_files; reflexivity|].
  exists [EvRender i c p false]. split; [reflexivity | contradiction].
Qed.

(** The file is created and the render event is recorded: one step. *)
Lemma rendered_kept_written i c p :
  keeps rendered_kept (create_files [p] ;; emit (EvRender i c p true)).
Proof.
  intro w. split.
  - apply (grows_create [p] w).
  - exists [EvRender i c p true]. split; [reflexivity|].
    intros q [<- | []]. cbn. unfold on_disk. simpl.
    rewrite String.eqb_refl. reflexivity.
Qed.

Lemma keeps_bind_pair (R : World -> World -> Prop)
    (R_trans : forall w1 w2 w3, R w1 w2 -> R w2 w3 -> R w1 w3)
    {B} (m1 m2 : M unit) (k : M B) :
  keeps R (m1 ;; m2) -> keeps R k -> keeps R (m1 ;; m2 ;; k).
Proof.
  intros Hm Hk w. specialize (Hm w). unfold bind in *.
  destruct (m1 w) as [[[]|e|e] w1]; simpl in *; [|assumption ..].
  destruct (m2 w1) as [[[]|e|e] w2]; simpl in *; [|assumption ..].
  apply (R_trans _ _ _ Hm), Hk.
Qed.

Section DiskAfterRendering.

Variable env : Env.
Variable cfg : Config.

Lemma rendered_kept_clip_loop full_clip target_aspect clip_duration
      temp_output_dir indices :
  forall paths count,
    keeps rendered_kept
      (clip_loop env cfg full_clip target_aspect clip_duration
                 temp_output_dir indices paths count).
Proof.
  pose proof rendered_kept_refl as R_refl.
  pose proof rendered_kept_trans as R_trans.
  pose proof rendered_kept_log as R_log.
  pose proof (keeps_moviepy env rendered_kept R_refl) as Hmp.
  pose proof (keeps_crop_and_resize env cfg rendered_kept R_refl R_trans)
    as Hcr.
  induction indices as [|i rest IH]; intros paths count; cbn [clip_loop].
  - keeps_crawl.
  - apply keeps_bind; [assumption | assumption | apply keeps_lift; assumption
                      | intros [|remaining|start_time end_time]];
      [keeps_crawl | keeps_crawl |].
    apply keeps_bind; [assumption | assumption | keeps_crawl | intro shown_start].
    apply keeps_bind; [assumption | assumption | keeps_crawl | intro shown_end].
    apply keeps_bind; [assumption | assumption | apply R_log | intros _].
    apply keeps_bind; [assumption | assumption | apply Hmp | intro sub_clip].
    apply keeps_bind; [assumption | assumption | apply Hcr | intro processed].
    cbv zeta.
    apply keeps_bind; [assumption | assumption | apply R_log | intros _].
    pose proof rendered_kept_failed as R_failed.
    destruct (write_videofile env processed _) as [[e|e]|].
    + keeps_crawl.
    + keeps_crawl.
    + apply keeps_bind_pair; [assumption | apply rendered_kept_written|].
      keeps_crawl.
Qed.

Lemma rendered_kept_generate video_path clip_duration num_clips
      temp_output_dir :
  keeps rendered_kept
    (generate_short_clips_to_temp env cfg video_path clip_duration num_clips
                                  temp_output_dir).
Proof.
  pose proof rendered_kept_refl as R_refl.
  pose proof rendered_kept_trans as R_trans.
  pose proof rendered_kept_log as R_log.
  pose proof rendered_kept_clip_loop as Hloop.
  unfold generate_short_clips_to_temp. keeps_crawl.
Qed.

Lemma grows_download youtube_url temp_dir :
  keeps grows (download_youtube_video_to_temp env youtube_url temp_dir).
Proof.
  apply (keeps_download env grows grows_refl grows_trans).
  - intros message w. apply grows_same_files. reflexivity.
  - apply grows_create.
Qed.

End DiskAfterRendering.

Section DiskAfterJob.

Variable env : Env.
Variable cfg : Config.

(** The disk when the body of the job is left, by the way it is left. *)
Lemma task_body_disk youtube_link w :
  wp (task_body env cfg youtube_link) w
     (fun r w' =>
        match r with
        | Raise _ =>
            rendered_kept w w' /\
            forall path, acquired env youtube_link w = Some path ->
                         on_disk path (files w') = true
        | Abort _ => True
        | Ok _ =>
            forall path, acquired env youtube_link w = Some path ->
                         remove_fault env path = None ->
                         on_disk path (files w') = false
        end).
Proof.
  unfold task_body, acquired.
  apply wp_bind. unfold wp at 1.
  pose proof (download_quiet env youtube_link (tempdir env) w) as Hq.
  pose proof (grows_download env youtube_link (tempdir env) w) as Hg.
  unfold wp in Hq.
  destruct (download_youtube_video_to_temp env youtube_link (tempdir env) w)
    as [[downloaded|e|e] w1]; cbn [fst snd] in *.
  2:{ split; [|discriminate].
      apply rendered_kept_quiet; [exact Hg|].
      destruct Hq as (lines & _ & Ht & _). rewrite Ht. apply app_nil_r. }
  2:{ exact I. }
  assert (Hno_source :
            wp (put failed_download ;;
                log_message "Failed to download the YouTube video. Cannot generate clips.")
               w1
               (fun r w' => match r with
                            | Raise _ => False
                            | Abort _ => False
                            | Ok _ => True
                            end)).
  { wp_step put_spec. intros r w2 (-> & _).
    eapply wp_conseq; [apply log_message_spec|].
    intros r w3 (-> & _). exact I. }
  destruct downloaded as [path|].
  2:{ apply wp_bind, wp_ret. cbn [negb].
      eapply wp_conseq; [apply Hno_source|].
      intros [[]|e|e] w' H; [discriminate | contradiction ..]. }
  destruct (truthy path).
  2:{ apply wp_bind, wp_ret. cbn [negb andb].
      eapply wp_conseq; [apply Hno_source|].
      intros [[]|e|e] w' H; [discriminate | contradiction ..]. }
  apply wp_bind. unfold wp at 1, path_exists. cbn [fst snd andb].
  destruct (on_disk path (files w1)) eqn:Epath.
  2:{ cbn [negb].
      eapply wp_conseq; [apply Hno_source|].
      intros [[]|e|e] w' H; [discriminate | contradiction ..]. }
  cbn [negb].
  apply wp_bind. unfold wp at 1.
  pose proof (rendered_kept_generate env cfg path (CLIP_DURATION_SECONDS cfg)
                (NUM_CLIPS_TO_GENERATE cfg) (tempdir env) w1) as Hgen.
  destruct (generate_short_clips_to_temp env cfg path
              (CLIP_DURATION_SECONDS cfg) (NUM_CLIPS_TO_GENERATE cfg)
              (tempdir env) w1) as [[temp_clip_paths|e|e] w2];
    cbn [fst snd] in *.
  2:{ split.
      - apply rendered_kept_trans with w1; [|exact Hgen].
        apply rendered_kept_quiet; [exact Hg|].
        destruct Hq as (lines & _ & Ht & _). rewrite Ht. apply app_nil_r.
      - intros p Hp. inversion Hp; subst p.
        destruct Hgen as [Hgrow _]. apply Hgrow. exact Epath. }
  2:{ exact I. }
  assert (Huploads :
            wp (match temp_clip_paths with
                | [] => ret []
                | _ :: _ =>
                    log_message (nl ++ "--- Uploading generated clips to Vercel Blob ---") ;;
                    upload_loop env temp_clip_paths []
                end) w2
               (fun r _ => (exists blob_urls, r = Ok blob_urls) \/
                           exists e, r = Abort e)).
  { destruct temp_clip_paths as [|p ps].
    - apply wp_ret. eauto.
    - wp_line. eapply wp_conseq; [apply upload_loop_spec|].
      intros [urls|e|e] w4 (lines4 & uploads & _ & _ & _ & Hr);
        [eauto | contradiction | eauto]. }
  wp_step Huploads. intros r w3 [[blob_urls ->] | [e ->]]; [|exact I].
  wp_step cleanup_spec.
  intros r w4 (-> & line & ok & _ & _ & Hgone).
  assert (Hend : forall record,
             wp (put record) w4
                (fun r w' =>
                   match r with
                   | Raise _ => False
                   | Abort _ => False
                   | Ok _ => files w' = files w4
                   end)).
  { intro record. eapply wp_conseq; [apply put_spec|].
    intros r w5 (-> & _ & _ & _ & Hf). exact Hf. }
  destruct blob_urls as [|url urls].
  - eapply wp_conseq; [apply Hend|].
    intros [[]|e|e] w' H; [|contradiction ..].
    intros p Hp Hnone. inversion Hp; subst p. rewrite H. auto.
  - eapply wp_conseq; [apply Hend|].
    intros [[]|e|e] w' H; [|contradiction ..].
    intros p Hp Hnone. inversion Hp; subst p. rewrite H. auto.
Qed.

(** The handler of the outer [except] leaves disk and trace alone. *)
Lemma process_video_task_disk youtube_link w :
  files (snd (process_video_task env cfg youtube_link w))
  = files (snd (task_body env cfg youtube_link w)) /\
  trace (snd (process_video_task env cfg youtube_link w))
  = trace (snd (task_body env cfg youtube_link w)).
Proof.
  unfold process_video_task, try_except.
  destruct (task_body env cfg youtube_link w) as [[[]|e|e] w1]; auto.
Qed.

End DiskAfterJob.

(** X7. A job stopped by an uncaught fault cleans nothing up: it has deleted
    no file, the downloaded source file is still on disk, and so is every
    clip it had rendered. *)
Theorem fault_leaves_temp_files (env : Env) (cfg : Config)
    (youtube_link : string) (w : World) (path e : string) :
  fst (task_body env cfg youtube_link w) = Raise e ->
  acquired env youtube_link w = Some path ->
  let w' := snd (process_video_task env cfg youtube_link w) in
  grows w w' /\
  on_disk path (files w') = true /\
  exists evs,
    trace w' = trace w ++ evs /\
    forall p, In p (rendered_paths evs) -> on_disk p (files w') = true.
Proof.
  intros Hbody Hacq. cbv zeta.
  pose proof (task_body_disk env cfg youtube_link w) as H. unfold wp in H.
  destruct (process_video_task_disk env cfg youtube_link w) as [Hf Ht].
  rewrite Hbody in H. destruct H as [[Hgrow (evs & Hevs & Hkept)] Hsrc].
  unfold grows. rewrite Hf, Ht.
  split; [exact Hgrow|]. split; [apply Hsrc, Hacq|].
  exists evs. auto.
Qed.

Lemma fault_leaves_temp_files_witness :
  on_disk Sample.source_file
    (files (snd (process_video_task Sample.env_flat_video app_config
                   "https://youtu.be/x" Sample.empty_world)))
  = true.
Proof.
  apply (fault_leaves_temp_files Sample.env_flat_video app_config
           "https://youtu.be/x" Sample.empty_world Sample.source_file
           "division by zero").
  - vm_compute. reflexivity.
  - vm_compute. reflexivity.
Defined.

(** X8. A job that runs through to its terminal record has removed the
    downloaded source file, unless that removal itself failed. *)
Theorem finished_job_removes_source (env : Env) (cfg : Config)
    (youtube_link : string) (w : World) (path : string) :
  fst (task_body env cfg youtube_link w) = Ok tt ->
  acquired env youtube_link w = Some path ->
  remove_fault env path = None ->
  on_disk path
    (files (snd (process_video_task env cfg youtube_link w))) = false.
Proof.
  intros Hbody Hacq Hnone.
  pose proof (task_body_disk env cfg youtube_link w) as H. unfold wp in H.
  destruct (process_video_task_disk env cfg youtube_link w) as [Hf _].
  rewrite Hbody in H. rewrite Hf. apply H; assumption.
Qed.

Lemma finished_job_removes_source_witness :
  on_disk Sample.source_file
    (files (snd (process_video_task Sample.env_encoder_down app_config
                   "https://youtu.be/x" Sample.empty_world)))
  = false.
Proof.
  apply (finished_job_removes_source Sample.env_encoder_down app_config
           "https://youtu.be/x" Sample.empty_world Sample.source_file).
  - vm_compute. reflexivity.
  - vm_compute. reflexivity.
  - reflexivity.
Defined.

(** ** Acquisition *)

Section AcquisitionResults.

Variable env : Env.

Lemma run_subprocess_command_result cmd_list error_msg_prefix cwd w :
  fst (run_subprocess_command env cmd_list error_msg_prefix cwd w)
  = match subprocess_run env cmd_list cwd with
    | Exited0 stdout => Ok (Some stdout)
    | CalledProcessError _ _ _ => Ok None
    | FileNotFoundError => Ok None
    | OtherError e => Raise e
    | OtherBaseException e => Abort e
    end.
Proof.
  unfold run_subprocess_command, bind, create_files.
  destruct (subprocess_run env cmd_list cwd); reflexivity.
Qed.

Lemma download_fallback_exists temp_dir timestamp downloaded_filepath w :
  wp (download_fallback env temp_dir timestamp downloaded_filepath) w
     (fun r w' =>
        exists found, r = Ok found /\
          forall p, found = Some p -> on_disk p (files w') = true).
Proof.
  unfold download_fallback. wp_log.
  apply wp_bind. unfold wp at 1, list_files. cbn [fst snd].
  destruct (glob_newest_first env _ (files w0)) as [|newest rest].
  - wp_log. apply wp_ret. exists None. split; [reflexivity | discriminate].
  - wp_log. apply wp_bind. unfold wp at 1, path_exists. cbn [fst snd].
    destruct (on_disk newest (files w1)) eqn:E.
    + apply wp_ret. exists (Some newest). split; [reflexivity|].
      intros p Hp. inversion Hp; subst. exact E.
    + wp_log. apply wp_ret. exists None.
      split; [reflexivity | discriminate].
Qed.

Lemma download_result youtube_url temp_dir w :
  wp (download_youtube_video_to_temp env youtube_url temp_dir) w
     (fun r w' =>
        (forall p, r = Ok (Some p) -> on_disk p (files w') = true) /\
        ((forall cmd_list cwd,
             command_failed (subprocess_run env cmd_list cwd) = true) ->
         r = Ok None) /\
        (forall e,
            (forall cmd_list cwd, subprocess_run env cmd_list cwd
                                  = OtherError e) ->
            r = Raise e)).
Proof.
  unfold download_youtube_video_to_temp. do 2 wp_log.
  apply wp_bind. unfold wp at 1.
  set (cmd := "yt-dlp" :: _).
  pose proof (run_subprocess_command_result cmd
                "Error downloading video with yt-dlp" (Some temp_dir) w1)
    as Hres.
  destruct (run_subprocess_command env cmd _ (Some temp_dir) w1)
    as [r w2]. cbn [fst snd] in *. subst r.
  destruct (subprocess_run env cmd (Some temp_dir)) as [stdout| | |e|e] eqn:E.
  - assert (Hfb : forall d,
               wp (download_fallback env temp_dir (download_stamp env) d) w2
                  (fun r w' =>
                     (forall p, r = Ok (Some p) ->
                                on_disk p (files w') = true) /\
                     ((forall cmd_list cwd,
                          command_failed (subprocess_run env cmd_list cwd)
                          = true) -> r = Ok None) /\
                     (forall e,
                         (forall cmd_list cwd,
                             subprocess_run env cmd_list cwd = OtherError e) ->
                         r = Raise e))).
    { intro d. eapply wp_conseq; [apply download_fallback_exists|].
      intros r w' (found & -> & Hfound).
      split; [intros p Hp; inversion Hp; subst; auto|].
      split.
      - intro Hall. specialize (Hall cmd (Some temp_dir)).
        rewrite E in Hall. discriminate Hall.
      - intros e Hall. specialize (Hall cmd (Some temp_dir)). congruence. }
    destruct (destination_in env stdout) as [dest|]; [|apply Hfb].
    apply wp_bind. unfold wp at 1, path_exists. cbn [fst snd].
    destruct (on_disk _ (files w2)) eqn:Ed; [|apply Hfb].
    wp_log. apply wp_ret.
    split; [intros p Hp; inversion Hp; subst; rewrite Hf1; exact Ed|].
    split.
    + intro Hall. specialize (Hall cmd (Some temp_dir)).
      rewrite E in Hall. discriminate Hall.
    + intros e Hall. specialize (Hall cmd (Some temp_dir)). congruence.
  - split; [discriminate|]. split; [reflexivity|].
    intros e Hall. specialize (Hall cmd (Some temp_dir)). congruence.
  - split; [discriminate|]. split; [reflexivity|].
    intros e Hall. specialize (Hall cmd (Some temp_dir)). congruence.
  - split; [discriminate|]. split.
    + intro Hall. specialize (Hall cmd (Some temp_dir)).
      rewrite E in Hall. discriminate Hall.
    + intros e' Hall. specialize (Hall cmd (Some temp_dir)). congruence.
  - split; [discriminate|]. split.
    + intro Hall. specialize (Hall cmd (Some temp_dir)).
      rewrite E in Hall. discriminate Hall.
    + intros e' Hall. specialize (Hall cmd (Some temp_dir)). congruence.
Qed.

End AcquisitionResults.

(** X9. The downloader only ever returns a file that exists: whenever
    [download_youtube_video_to_temp] returns a path, that path is on disk
    when it returns.  It deletes nothing, writes log lines only, and returns
    [None] without raising when the command exits with an error or is not
    installed. *)
Theorem download_returns_existing_file (env : Env)
    (youtube_url temp_dir : string) (w : World) :
  let r := fst (download_youtube_video_to_temp env youtube_url temp_dir w) in
  let w' := snd (download_youtube_video_to_temp env youtube_url temp_dir w) in
  (forall p, r = Ok (Some p) -> on_disk p (files w') = true) /\
  grows w w' /\
  (exists lines, step lines [] w w') /\
  ((forall cmd_list cwd,
       command_failed (subprocess_run env cmd_list cwd) = true) ->
   r = Ok None).
Proof.
  cbv zeta.
  pose proof (download_result env youtube_url temp_dir w) as H.
  pose proof (download_quiet env youtube_url temp_dir w) as Hq.
  unfold wp in H, Hq. destruct H as (Hex & Hfail & _).
  split; [exact Hex|]. split; [apply grows_download|].
  split; [exact Hq | exact Hfail].
Qed.

Lemma download_returns_existing_file_witness :
  on_disk Sample.source_file
    (files (snd (download_youtube_video_to_temp Sample.env
                   "https://youtu.be/x" "/tmp" Sample.empty_world)))
  = true /\
  fst (download_youtube_video_to_temp Sample.env_no_source
         "https://youtu.be/x" "/tmp" Sample.empty_world)
  = Ok None.
Proof.
  split.
  - destruct (download_returns_existing_file Sample.env "https://youtu.be/x"
                "/tmp" Sample.empty_world) as (Hexists & _).
    apply Hexists. vm_compute. reflexivity.
  - destruct (download_returns_existing_file Sample.env_no_source
                "https://youtu.be/x" "/tmp" Sample.empty_world)
      as (_ & _ & _ & Hfailed).
    apply Hfailed. intros cmd_list cwd. reflexivity.
Defined.

(** ** The job, phase by phase *)

Section Phases.

Variable env : Env.
Variable cfg : Config.

Lemma task_body_download_raises youtube_link w e w1 :
  download_youtube_video_to_temp env youtube_link (tempdir env) w
  = (Raise e, w1) ->
  task_body env cfg youtube_link w = (Raise e, w1) /\
  acquired env youtube_link w = None.
Proof.
  intro H. unfold task_body, acquired, bind. rewrite H. auto.
Qed.

Lemma task_body_download_none youtube_link w w1 :
  download_youtube_video_to_temp env youtube_link (tempdir env) w
  = (Ok None, w1) ->
  fst (task_body env cfg youtube_link w) = Ok tt /\
  acquired env youtube_link w = None.
Proof.
  intro H. unfold task_body, acquired, bind. rewrite H. auto.
Qed.

(** Once the source is acquired, the body of the job is the clip
    generation followed by lines 206-231. *)
Lemma task_body_acquired youtube_link w path :
  acquired env youtube_link w = Some path ->
  task_body env cfg youtube_link w
  = (temp_clip_paths <-
       generate_short_clips_to_temp env cfg path (CLIP_DURATION_SECONDS cfg)
         (NUM_CLIPS_TO_GENERATE cfg) (tempdir env) ;;
     after_generate env path temp_clip_paths)
      (snd (download_youtube_video_to_temp env youtube_link (tempdir env) w)).
Proof.
  unfold task_body, acquired, bind at 1 2.
  destruct (download_youtube_video_to_temp env youtube_link (tempdir env) w)
    as [[[p|]|e|e] w1]; try discriminate.
  destruct (truthy p); [|discriminate].
  unfold path_exists. cbn [fst snd andb].
  destruct (on_disk p (files w1)); [|discriminate].
  intro H. inversion H; subst. reflexivity.
Qed.

End Phases.

(** X10. When the download command exits with an error or is not installed,
    the job ends right after the acquisition: it writes the failed record
    and the failure line, and renders, publishes and removes nothing. *)
Theorem failed_command_ends_job (env : Env) (cfg : Config)
    (youtube_link : string) (w : World) :
  (forall cmd_list cwd,
      command_failed (subprocess_run env cmd_list cwd) = true) ->
  let w' := snd (process_video_task env cfg youtube_link w) in
  fst (process_video_task env cfg youtube_link w) = Ok tt /\
  (exists lines,
      log_queue w'
      = log_queue w ++ map JStr lines
          ++ [failed_download;
              JStr "Failed to download the YouTube video. Cannot generate clips."]) /\
  trace w' = trace w.
Proof.
  intros Hfail. cbv zeta.
  pose proof (download_result env youtube_link (tempdir env) w) as Hdl.
  unfold wp in Hdl. destruct Hdl as (_ & Hnone & _).
  specialize (Hnone Hfail).
  destruct (download_youtube_video_to_temp env youtube_link (tempdir env) w)
    as [r w1] eqn:E. cbn [fst] in Hnone. subst r.
  destruct (task_body_download_none env cfg youtube_link w w1 E)
    as [Hbody Hacq].
  destruct (process_video_task_run env cfg youtube_link w)
    as (_ & pre & record & post & evs & Ht & _ & Hshape).
  cbv zeta in Ht, Hshape. rewrite Hbody, Hacq in Hshape.
  destruct Hshape as (Hq & -> & -> & ->).
  split.
  - unfold process_video_task, try_except.
    destruct (task_body env cfg youtube_link w) as [[[]|e|e] w2];
      [reflexivity | discriminate Hbody ..].
  - split; [exists pre; exact Hq|]. rewrite Ht. apply app_nil_r.
Qed.

Lemma failed_command_ends_job_witness :
  trace (snd (process_video_task Sample.env_no_source app_config
                "https://youtu.be/x" Sample.empty_world))
  = [].
Proof.
  destruct (failed_command_ends_job Sample.env_no_source app_config
              "https://youtu.be/x" Sample.empty_world) as (_ & _ & Ht).
  - intros cmd_list cwd. reflexivity.
  - exact Ht.
Defined.

(** X11. An exception of [subprocess.run] other than the two that
    [run_subprocess_command] catches is caught nowhere on its way up: it
    ends the job with the error record that carries its message, and
    nothing is rendered, published or removed. *)
Theorem uncaught_command_error_ends_job (env : Env) (cfg : Config)
    (youtube_link : string) (w : World) (e : string) :
  (forall cmd_list cwd, subprocess_run env cmd_list cwd = OtherError e) ->
  let w' := snd (process_video_task env cfg youtube_link w) in
  fst (download_youtube_video_to_temp env youtube_link (tempdir env) w)
  = Raise e /\
  (exists lines,
      log_queue w'
      = log_queue w ++ map JStr lines
          ++ [errored e;
              JStr ("An unexpected error occurred in processing task: " ++ e)])
  /\ trace w' = trace w.
Proof.
  intros Hother. cbv zeta.
  pose proof (download_result env youtube_link (tempdir env) w) as Hdl.
  pose proof (download_quiet env youtube_link (tempdir env) w) as Hquiet.
  unfold wp in Hdl, Hquiet. destruct Hdl as (_ & _ & Hraise).
  specialize (Hraise e Hother).
  destruct (download_youtube_video_to_temp env youtube_link (tempdir env) w)
    as [r w1] eqn:E. cbn [fst snd] in *. subst r.
  destruct (task_body_download_raises env cfg youtube_link w e w1 E)
    as [Hbody Hacq].
  split; [reflexivity|].
  destruct (process_video_task_run env cfg youtube_link w)
    as (_ & pre & record & post & evs & _ & _ & Hshape).
  cbv zeta in Hshape. rewrite Hbody in Hshape. cbn [fst] in Hshape.
  destruct Hshape as (Hq & -> & -> & _).
  split; [exists pre; exact Hq|].
  destruct (process_video_task_disk env cfg youtube_link w) as [_ Ht].
  rewrite Ht, Hbody. cbn [snd].
  destruct Hquiet as (lines & _ & Htr & _). rewrite Htr. apply app_nil_r.
Qed.

Lemma uncaught_command_error_ends_job_witness :
  let env := Sample.make_env (OtherError "Permission denied")
               (Sample.hd_video 200) Sample.encoder_ok Sample.store_ok in
  exists lines,
    log_queue (snd (process_video_task env app_config "https://youtu.be/x"
                      Sample.empty_world))
    = map JStr lines
        ++ [errored "Permission denied";
            JStr "An unexpected error occurred in processing task: Permission denied"].
Proof.
  cbv zeta.
  destruct (uncaught_command_error_ends_job
              (Sample.make_env (OtherError "Permission denied")
                 (Sample.hd_video 200) Sample.encoder_ok Sample.store_ok)
              app_config "https://youtu.be/x" Sample.empty_world
              "Permission denied") as (_ & Hq & _).
  - intros cmd_list cwd. reflexivity.
  - exact Hq.
Defined.

(** ** A source that cannot be opened, a target that cannot be divided by *)

Section GenerateEdges.

Variable env : Env.
Variable cfg : Config.

Lemma generate_unreadable video_path clip_duration num_clips temp_output_dir
      e w :
  open_video env video_path = Raise e ->
  generate_short_clips_to_temp env cfg video_path clip_duration num_clips
    temp_output_dir w
  = (Ok [],
     mkWorld
       (log_queue w
        ++ [JStr (nl ++ "--- Processing video: " ++ basename video_path
                  ++ " ---");
            JStr ("Error loading full video clip from " ++ video_path ++ ": "
                  ++ e);
            JStr "This might be due to a corrupted download or an unsupported video format."])
       (console w
        ++ [(nl ++ "--- Processing video: " ++ basename video_path
             ++ " ---")%string;
            ("Error loading full video clip from " ++ video_path ++ ": "
             ++ e)%string;
            "This might be due to a corrupted download or an unsupported video format."%string])
       (files w) (trace w) (threads w)).
Proof.
  intro H. unfold generate_short_clips_to_temp. rewrite H.
  cbv beta iota zeta
      delta [bind log_message print put ret fst snd log_queue console files
             trace threads].
  rewrite <- !app_assoc. reflexivity.
Qed.

Lemma generate_zero_height video_path clip_duration num_clips temp_output_dir
      video w :
  open_video env video_path = Ok video ->
  SHORT_VIDEO_HEIGHT cfg = 0%Z ->
  fst (generate_short_clips_to_temp env cfg video_path clip_duration
         num_clips temp_output_dir w)
  = Raise "division by zero" /\
  trace (snd (generate_short_clips_to_temp env cfg video_path clip_duration
                num_clips temp_output_dir w))
  = trace w.
Proof.
  intros Hopen Hzero. unfold generate_short_clips_to_temp.
  rewrite Hopen, Hzero. destruct video as [[video_duration fw] fh].
  cbv beta iota zeta
      delta [bind log_message print put ret lift fst snd log_queue console
             files trace threads].
  assert (Hdiv : py_truediv (Int (SHORT_VIDEO_WIDTH cfg)) (Int 0)
                 = Raise "division by zero") by reflexivity.
  rewrite Hdiv. cbv beta iota. auto.
Qed.

Lemma after_generate_nothing path w :
  wp (after_generate env path []) w
     (fun r w' =>
        r = Ok tt /\
        exists line ok,
          log_queue w' = log_queue w ++ [JStr line; failed_no_clips] /\
          trace w' = trace w ++ [EvRemove path ok]).
Proof.
  unfold after_generate. apply wp_bind, wp_ret.
  wp_step cleanup_spec.
  intros r w1 (-> & line & ok & (Hq & Ht & _) & _).
  eapply wp_conseq; [apply put_spec|].
  intros r w2 (-> & Hq2 & Ht2 & _). split; [reflexivity|].
  exists line, ok. rewrite Hq2, Hq, Ht2, Ht, <- app_assoc. auto.
Qed.

End GenerateEdges.

(** X12. A downloaded file that MoviePy cannot open is not a fault:
    [generate_short_clips_to_temp] logs the error and returns the empty
    list, and the job then removes the file and ends with the failed record
    that says no clips were generated, having rendered and published
    nothing. *)
Theorem unreadable_video_yields_no_clip (env : Env) (cfg : Config)
    (youtube_link : string) (w : World) (path e : string) :
  acquired env youtube_link w = Some path ->
  open_video env path = Raise e ->
  let w' := snd (process_video_task env cfg youtube_link w) in
  (forall w0,
      fst (generate_short_clips_to_temp env cfg path
             (CLIP_DURATION_SECONDS cfg) (NUM_CLIPS_TO_GENERATE cfg)
             (tempdir env) w0) = Ok []) /\
  fst (task_body env cfg youtube_link w) = Ok tt /\
  (exists lines,
      log_queue w' = log_queue w ++ map JStr lines ++ [failed_no_clips]) /\
  exists ok, trace w' = trace w ++ [EvRemove path ok].
Proof.
  intros Hacq Hopen. cbv zeta.
  split; [intro w0; rewrite (generate_unreadable env cfg _ _ _ _ e w0 Hopen);
          reflexivity|].
  pose proof (download_quiet env youtube_link (tempdir env) w) as Hquiet.
  unfold wp in Hquiet. destruct Hquiet as (lines & Hq1 & Ht1 & _).
  assert (Hbody : exists line ok w2,
             task_body env cfg youtube_link w = (Ok tt, w2) /\
             log_queue w2
             = log_queue w ++ map JStr (lines ++ [
                 (nl ++ "--- Processing video: " ++ basename path
                  ++ " ---")%string;
                 ("Error loading full video clip from " ++ path ++ ": "
                  ++ e)%string;
                 "This might be due to a corrupted download or an unsupported video format."%string;
                 line])
               ++ [failed_no_clips] /\
             trace w2 = trace w ++ [EvRemove path ok]).
  { rewrite (task_body_acquired env cfg youtube_link w path Hacq).
    unfold bind at 1.
    rewrite (generate_unreadable env cfg _ _ _ _ e _ Hopen).
    match goal with
    | |- context [after_generate env path [] ?w1] =>
        pose proof (after_generate_nothing env path w1) as Hafter;
        unfold wp in Hafter;
        destruct (after_generate env path [] w1) as [r w2]
    end.
    cbn [fst snd log_queue trace] in Hafter.
    destruct Hafter as (-> & line & ok & Hq2 & Ht2).
    exists line, ok, w2. split; [reflexivity|].
    rewrite Hq2, Ht2, Hq1, Ht1, app_nil_r, map_app.
    cbn [map app]. rewrite <- !app_assoc. cbn [app]. auto. }
  destruct Hbody as (line & ok & w2 & Hbody & Hq2 & Ht2).
  assert (Hrun : process_video_task env cfg youtube_link w = (Ok tt, w2)).
  { unfold process_video_task, try_except. rewrite Hbody. reflexivity. }
  rewrite Hbody, Hrun. cbn [fst snd].
  split; [reflexivity|]. split; [eexists; exact Hq2 | eexists; exact Ht2].
Qed.

Lemma unreadable_video_yields_no_clip_witness :
  let env := Sample.make_env Sample.yt_dlp_ok (Raise "moov atom not found")
               Sample.encoder_ok Sample.store_ok in
  exists ok,
    trace (snd (process_video_task env app_config "https://youtu.be/x"
                  Sample.empty_world))
    = [EvRemove Sample.source_file ok].
Proof.
  cbv zeta.
  destruct (unreadable_video_yields_no_clip
              (Sample.make_env Sample.yt_dlp_ok (Raise "moov atom not found")
                 Sample.encoder_ok Sample.store_ok)
              app_config "https://youtu.be/x" Sample.empty_world
              Sample.source_file "moov atom not found")
    as (_ & _ & _ & Ht).
  - vm_compute. reflexivity.
  - reflexivity.
  - exact Ht.
Defined.

(** X13. The target aspect ratio is computed with an unguarded division
    before the first clip (line 113): when [SHORT_VIDEO_HEIGHT] is 0 and the
    source opens, the job faults with Python's "division by zero", renders
    nothing, and ends with the error record that carries that message. *)
Theorem zero_target_height_faults (env : Env) (cfg : Config)
    (youtube_link : string) (w : World) (path : string)
    (video : float * Z * Z) :
  acquired env youtube_link w = Some path ->
  open_video env path = Ok video ->
  SHORT_VIDEO_HEIGHT cfg = 0%Z ->
  let w' := snd (process_video_task env cfg youtube_link w) in
  fst (task_body env cfg youtube_link w) = Raise "division by zero" /\
  trace w' = trace w /\
  exists lines,
    log_queue w'
    = log_queue w ++ map JStr lines
        ++ [errored "division by zero";
            JStr "An unexpected error occurred in processing task: division by zero"].
Proof.
  intros Hacq Hopen Hzero. cbv zeta.
  pose proof (download_quiet env youtube_link (tempdir env) w) as Hquiet.
  unfold wp in Hquiet. destruct Hquiet as (lines & _ & Ht1 & _).
  assert (Hbody : exists w2,
             task_body env cfg youtube_link w
             = (Raise "division by zero", w2) /\ trace w2 = trace w).
  { rewrite (task_body_acquired env cfg youtube_link w path Hacq).
    unfold bind at 1.
    match goal with
    | |- context [generate_short_clips_to_temp env cfg path ?cd ?n ?dir ?w1] =>
        destruct (generate_zero_height env cfg path cd n dir video w1
                    Hopen Hzero) as [Hr Htr];
        destruct (generate_short_clips_to_temp env cfg path cd n dir w1)
          as [r w2]
    end.
    cbn [fst snd] in *. subst r. exists w2.
    rewrite Htr, Ht1, app_nil_r. auto. }
  destruct Hbody as (w2 & Hbody & Htrace).
  split; [rewrite Hbody; reflexivity|].
  destruct (process_video_task_disk env cfg youtube_link w) as [_ Ht].
  split; [rewrite Ht, Hbody; exact Htrace|].
  destruct (process_video_task_run env cfg youtube_link w)
    as (_ & pre & record & post & evs & _ & _ & Hshape).
  cbv zeta in Hshape. rewrite Hbody in Hshape. cbn [fst] in Hshape.
  destruct Hshape as (Hq & -> & -> & _).
  exists pre. exact Hq.
Qed.

Lemma zero_target_height_faults_witness :
  trace (snd (process_video_task Sample.env
                {| SHORT_VIDEO_WIDTH := 1080;
                   SHORT_VIDEO_HEIGHT := 0;
                   CLIP_DURATION_SECONDS := Int 27;
                   NUM_CLIPS_TO_GENERATE := 5 |}
                "https://youtu.be/x" Sample.empty_world))
  = trace Sample.empty_world.
Proof.
  destruct (zero_target_height_faults Sample.env
              {| SHORT_VIDEO_WIDTH := 1080;
                 SHORT_VIDEO_HEIGHT := 0;
                 CLIP_DURATION_SECONDS := Int 27;
                 NUM_CLIPS_TO_GENERATE := 5 |}
              "https://youtu.be/x" Sample.empty_world Sample.source_file
              (200%float, 1920%Z, 1080%Z)) as (_ & Ht & _).
  - vm_compute. reflexivity.
  - reflexivity.
  - reflexivity.
  - exact Ht.
Defined.

(** ** What the clip generation hands to the upload loop *)

Lemma rendered_paths_length (evs : list event) :
  (List.length (rendered_paths evs) <= List.length (render_indices evs))%nat.
Proof.
  unfold rendered_paths, render_indices.
  induction evs as [|ev evs IH]; [apply Nat.le_refl|].
  cbn [flat_map]. rewrite !length_app.
  destruct ev as [i c p [|]| |]; cbn [ev_rendered ev_index List.length]; lia.
Qed.

Ltac step_trace :=
  match goal with
  | H : step _ _ ?w ?w' |- trace ?w' = _ =>
      destruct H as (_ & H & _); exact H
  end.

Lemma generate_attempts (env : Env) (cfg : Config)
      video_path clip_duration num_clips temp_output_dir w :
  wp (generate_short_clips_to_temp env cfg video_path clip_duration num_clips
        temp_output_dir) w
     (fun _ w' =>
        exists evs,
          trace w' = trace w ++ evs /\
          (List.length (render_indices evs) <= num_clips)%nat).
Proof.
  unfold generate_short_clips_to_temp. wp_line.
  destruct (open_video env video_path) as [[[video_duration fw] fh]|e|e].
  - wp_line. apply wp_bind, wp_lift.
    destruct (py_truediv _ _) as [target_aspect|e|e].
    + wp_step clip_loop_spec.
      intros r w3 (lines & evs & Hs3 & _ & [rest Hrest] & _).
      assert (Hlen : (List.length (render_indices evs) <= num_clips)%nat).
      { apply (f_equal (@List.length nat)) in Hrest.
        rewrite length_seq, length_app in Hrest. lia. }
      destruct r as [out|e|e].
      * wp_line. apply wp_ret. chain.
        exists evs. split; [step_trace|exact Hlen].
      * chain. exists evs. split; [step_trace|exact Hlen].
      * chain. exists evs. split; [step_trace|exact Hlen].
    + chain. exists []. split; [step_trace | apply Nat.le_0_l].
    + chain. exists []. split; [step_trace | apply Nat.le_0_l].
  - do 2 wp_line. apply wp_ret. chain.
    exists []. split; [step_trace | apply Nat.le_0_l].
  - apply wp_abort. chain.
    exists []. split; [step_trace | apply Nat.le_0_l].
Qed.

(** X14. A clip whose encoding fails is skipped, not fatal: the list
    [generate_short_clips_to_temp] returns holds exactly the files of the
    renders the encoder accepted, in render order; there are at most
    [NUM_CLIPS_TO_GENERATE] of them, each is on disk when the function
    returns, and the list is empty when the encoder refuses every clip. *)
Theorem returned_clips_are_rendered_files (env : Env) (cfg : Config)
    (video_path temp_output_dir : string) (w : World) (paths : list string) :
  fst (generate_short_clips_to_temp env cfg video_path
         (CLIP_DURATION_SECONDS cfg) (NUM_CLIPS_TO_GENERATE cfg)
         temp_output_dir w) = Ok paths ->
  let w' := snd (generate_short_clips_to_temp env cfg video_path
                   (CLIP_DURATION_SECONDS cfg) (NUM_CLIPS_TO_GENERATE cfg)
                   temp_output_dir w) in
  exists evs,
    trace w' = trace w ++ evs /\
    Forall (encoder_said env) evs /\
    paths = rendered_paths evs /\
    (List.length paths <= List.length (render_indices evs)
     <= NUM_CLIPS_TO_GENERATE cfg)%nat /\
    (forall p, In p paths -> on_disk p (files w') = true) /\
    ((forall c p, write_videofile env c p <> None) -> paths = []).
Proof.
  intro Hok. cbv zeta.
  pose proof (generate_spec env cfg video_path temp_output_dir w) as Hspec.
  pose proof (generate_attempts env cfg video_path
                (CLIP_DURATION_SECONDS cfg) (NUM_CLIPS_TO_GENERATE cfg)
                temp_output_dir w) as Hatt.
  pose proof (rendered_kept_generate env cfg video_path
                (CLIP_DURATION_SECONDS cfg) (NUM_CLIPS_TO_GENERATE cfg)
                temp_output_dir w) as Hkept.
  unfold wp in Hspec, Hatt.
  destruct Hspec as (lines & evs & (_ & Ht & _) & [_ Hsaid] & _ & _ & Hpaths).
  destruct (Hpaths paths Hok) as [-> _].
  destruct Hatt as (evs1 & Ht1 & Hlen).
  destruct Hkept as (_ & evs2 & Ht2 & Hdisk).
  rewrite Ht in Ht1, Ht2.
  apply app_inv_head in Ht1. apply app_inv_head in Ht2. subst evs1 evs2.
  exists evs. split; [exact Ht|]. split; [exact Hsaid|].
  split; [reflexivity|].
  split; [split; [apply rendered_paths_length | exact Hlen]|].
  split; [exact Hdisk|].
  intro Hdown. apply (rendered_paths_none env); assumption.
Qed.

Lemma returned_clips_are_rendered_files_witness :
  exists evs,
    trace (snd (generate_short_clips_to_temp Sample.env app_config
                  Sample.source_file (Int 27) 5 "/tmp" Sample.empty_world))
    = evs /\
    [Sample.clip_file 1; Sample.clip_file 2; Sample.clip_file 3;
     Sample.clip_file 4; Sample.clip_file 5]
    = rendered_paths evs.
Proof.
  destruct (returned_clips_are_rendered_files Sample.env app_config
              Sample.source_file "/tmp" Sample.empty_world
              [Sample.clip_file 1; Sample.clip_file 2; Sample.clip_file 3;
               Sample.clip_file 4; Sample.clip_file 5])
    as (evs & Ht & _ & Hpaths & _).
  - vm_compute. reflexivity.
  - exists evs. split; [exact Ht | exact Hpaths].
Defined.

(** ** Every rendered clip reaches the store *)

Lemma on_disk_filter_other (path q : string) (fs : list string) :
  q <> path ->
  on_disk q (filter (fun p => negb (String.eqb path p)) fs) = on_disk q fs.
Proof.
  intro Hne. unfold on_disk. induction fs as [|f fs IH]; [reflexivity|].
  cbn [filter existsb]. destruct (String.eqb path f) eqn:E; cbn [negb].
  - apply String.eqb_eq in E. subst f. rewrite IH.
    destruct (String.eqb q path) eqn:E'; [|reflexivity].
    apply String.eqb_eq in E'. contradiction.
  - cbn [existsb]. rewrite IH. reflexivity.
Qed.

Lemma render_outputs_rendered (evs : list event) (p : string) :
  In p (rendered_paths evs) -> In p (render_outputs evs).
Proof.
  unfold rendered_paths, render_outputs.
  induction evs as [|ev evs IH]; [auto|].
  cbn [flat_map]. rewrite !in_app_iff. intros [H|H]; [left | right; auto].
  destruct ev as [i c q [|]| |]; cbn [ev_rendered ev_output] in *;
    solve [assumption | contradiction].
Qed.

Lemma rendered_paths_NoDup (evs : list event) :
  NoDup (render_outputs evs) -> NoDup (rendered_paths evs).
Proof.
  induction evs as [|ev evs IH]; [auto|].
  unfold rendered_paths, render_outputs in *. cbn [flat_map].
  destruct ev as [i c q [|]| |]; cbn [ev_rendered ev_output app]; auto.
  - intro H. apply NoDup_cons_iff in H. destruct H as [Hq Hnd].
    constructor; [|auto].
    intro Hin. apply Hq. apply render_outputs_rendered. exact Hin.
  - intro H. apply NoDup_cons_iff in H. apply IH, H.
Qed.

Lemma renders_store_answered (env : Env) (evs : list event) :
  forallb is_render evs = true -> Forall (ev_store_answered env) evs.
Proof.
  induction evs as [|ev evs IH]; [constructor|].
  cbn [forallb]. intro H. apply andb_true_iff in H. destruct H as [Hev H].
  constructor; [|auto].
  destruct ev; [exact I | discriminate Hev | discriminate Hev].
Qed.

Section StoreAnswers.

Variable env : Env.
Variable cfg : Config.

(** The cleanup block removes at most the file it names. *)
Lemma cleanup_others path (done : string) (failed : string -> string) w :
  wp (try_except (os_remove env path ;; log_message done)
                 (fun e => log_message (failed e))) w
     (fun r w' =>
        forall q, q <> path ->
                  on_disk q (files w') = on_disk q (files w)).
Proof.
  apply wp_try. wp_step os_remove_spec.
  intros r w1 (ok & Hstep & [(-> & -> & Hf) | (e & -> & -> & Hf & Hwhy)]).
  - eapply wp_conseq; [apply log_message_spec|].
    intros r w2 (-> & _ & Hf2) q Hq.
    rewrite Hf2, Hf. apply on_disk_filter_other, Hq.
  - eapply wp_conseq; [apply log_message_spec|].
    intros r w2 (-> & _ & Hf2) q Hq. rewrite Hf2, Hf. reflexivity.
Qed.

Lemma upload_loop_store temp_clip_paths :
  NoDup temp_clip_paths ->
  forall blob_urls w,
  (forall p, In p temp_clip_paths -> on_disk p (files w) = true) ->
  wp (upload_loop env temp_clip_paths blob_urls) w
     (fun _ w' =>
        exists evs,
          trace w' = trace w ++ evs /\
          Forall (ev_store_answered env) evs).
Proof.
  induction 1 as [|temp_path rest Hfresh Hnodup IH]; intros blob_urls w Hdisk.
  - apply wp_ret. exists []. rewrite app_nil_r. auto.
  - cbn [upload_loop].
    wp_step upload_to_vercel_blob_spec.
    intros r w1 (lines1 & url & (_ & Ht1 & _) & Hf1 & Hr & Hurl).
    specialize (Hurl (Hdisk temp_path (or_introl eq_refl))).
    destruct Hr as [-> | (-> & e & ->)].
    2:{ exists [EvPublish temp_path None]. split; [exact Ht1|].
        constructor; [exact Hurl | constructor]. }
    apply wp_bind.
    pose proof (cleanup_spec env temp_path
                  ("Cleaned up temporary clip file: " ++ temp_path)
                  (fun e => "Error cleaning up temp clip file "
                            ++ temp_path ++ ": " ++ e) w1)%string as Hclean.
    pose proof (cleanup_others temp_path
                  ("Cleaned up temporary clip file: " ++ temp_path)
                  (fun e => "Error cleaning up temp clip file "
                            ++ temp_path ++ ": " ++ e) w1)%string as Hothers.
    unfold wp in Hclean, Hothers. unfold wp at 1.
    destruct Hclean as (-> & line & ok & (_ & Ht2 & _) & _).
    eapply wp_conseq.
    + apply IH. intros p Hp. rewrite Hothers.
      * rewrite Hf1. apply Hdisk. right. exact Hp.
      * intros ->. contradiction.
    + intros r w3 (evs & Ht3 & Hall).
      exists (EvPublish temp_path url :: EvRemove temp_path ok :: evs).
      split.
      * rewrite Ht3, Ht2, Ht1, <- !app_assoc. reflexivity.
      * constructor; [exact Hurl|]. constructor; [exact I | exact Hall].
Qed.

Lemma after_generate_store path temp_clip_paths w :
  NoDup temp_clip_paths ->
  (forall p, In p temp_clip_paths -> on_disk p (files w) = true) ->
  wp (after_generate env path temp_clip_paths) w
     (fun _ w' =>
        exists evs,
          trace w' = trace w ++ evs /\
          Forall (ev_store_answered env) evs).
Proof.
  intros Hnodup Hdisk. unfold after_generate.
  apply wp_bind.
  assert (Hup : wp (match temp_clip_paths with
                    | [] => ret []
                    | _ :: _ =>
                        log_message
                          (nl ++ "--- Uploading generated clips to Vercel Blob ---") ;;
                        upload_loop env temp_clip_paths []
                    end) w
                   (fun _ w' =>
                      exists evs,
                        trace w' = trace w ++ evs /\
                        Forall (ev_store_answered env) evs)).
  { destruct temp_clip_paths as [|p rest] eqn:E.
    - apply wp_ret. exists []. rewrite app_nil_r. auto.
    - rewrite <- E in *. wp_line.
      eapply wp_conseq; [apply (upload_loop_store _ Hnodup)|].
      + intros q Hq. rewrite Hf. apply Hdisk, Hq.
      + intros r w2 (evs & Ht & Hall). exists evs.
        destruct Hs as (_ & Ht0 & _). rewrite app_nil_r in Ht0.
        rewrite Ht, Ht0. auto. }
  eapply wp_conseq; [exact Hup|].
  intros r w1 (evs & Ht1 & Hall).
  destruct r as [blob_urls|e|e].
  - wp_step cleanup_spec.
    intros r w2 (-> & line & ok & (_ & Ht2 & _) & _).
    assert (Hput : forall item,
               wp (put item) w2
                  (fun _ w' =>
                     exists evs0,
                       trace w' = trace w ++ evs0 /\
                       Forall (ev_store_answered env) evs0)).
    { intro item. eapply wp_conseq; [apply put_spec|].
      intros r w3 (_ & _ & Ht3 & _).
      exists (evs ++ [EvRemove path ok]).
      rewrite Ht3, Ht2, Ht1, <- app_assoc. split; [reflexivity|].
      apply Forall_app. split; [exact Hall|]. constructor; [exact I|].
      constructor. }
    destruct blob_urls; apply Hput.
  - exists evs. auto.
  - exists evs. auto.
Qed.

Lemma task_body_unacquired youtube_link w :
  acquired env youtube_link w = None ->
  trace (snd (task_body env cfg youtube_link w)) = trace w.
Proof.
  intro Hacq.
  pose proof (download_quiet env youtube_link (tempdir env) w) as Hquiet.
  unfold wp in Hquiet. destruct Hquiet as (lines & _ & Ht0 & _).
  rewrite app_nil_r in Ht0.
  unfold task_body, acquired in *. unfold bind at 1.
  destruct (download_youtube_video_to_temp env youtube_link (tempdir env) w)
    as [[[p|]|e|e] w1]; cbn [fst snd] in *; try exact Ht0.
  - destruct (truthy p); cbn [andb] in Hacq.
    + unfold bind at 1, path_exists. cbn [fst snd].
      destruct (on_disk p (files w1)); [discriminate Hacq|].
      exact Ht0.
    + exact Ht0.
Qed.

Lemma task_body_store youtube_link w :
  exists evs,
    trace (snd (task_body env cfg youtube_link w)) = trace w ++ evs /\
    Forall (ev_store_answered env) evs.
Proof.
  destruct (acquired env youtube_link w) as [path|] eqn:Hacq.
  - rewrite (task_body_acquired env cfg youtube_link w path Hacq).
    pose proof (download_quiet env youtube_link (tempdir env) w) as Hquiet.
    unfold wp in Hquiet. destruct Hquiet as (lines & _ & Ht0 & _).
    rewrite app_nil_r in Ht0.
    set (w1 := snd (download_youtube_video_to_temp env youtube_link
                      (tempdir env) w)) in *.
    pose proof (generate_spec env cfg path (tempdir env) w1) as Hspec.
    pose proof (generate_render_outputs env cfg path (tempdir env) w1)
      as Hout.
    pose proof (rendered_kept_generate env cfg path
                  (CLIP_DURATION_SECONDS cfg) (NUM_CLIPS_TO_GENERATE cfg)
                  (tempdir env) w1) as Hkept.
    unfold wp in Hspec. unfold bind.
    destruct (generate_short_clips_to_temp env cfg path
                (CLIP_DURATION_SECONDS cfg) (NUM_CLIPS_TO_GENERATE cfg)
                (tempdir env) w1) as [r w2].
    cbn [fst snd] in *.
    destruct Hspec as (lines2 & evs & (_ & Ht & _) & [Hrender _] & _ & _
                       & Hpaths).
    destruct Hout as (evs1 & Ht1 & _ & Hnodup).
    destruct Hkept as (_ & evs2 & Ht2 & Hdisk).
    rewrite Ht in Ht1, Ht2.
    apply app_inv_head in Ht1. apply app_inv_head in Ht2. subst evs1 evs2.
    pose proof (renders_store_answered env evs Hrender) as Hall.
    destruct r as [paths|e|e].
    + destruct (Hpaths paths eq_refl) as [-> _].
      pose proof (after_generate_store path (rendered_paths evs) w2
                    (rendered_paths_NoDup evs Hnodup) Hdisk) as Hafter.
      unfold wp in Hafter. destruct Hafter as (evs3 & Ht3 & Hall3).
      exists (evs ++ evs3).
      rewrite Ht3, Ht, Ht0, <- app_assoc. split; [reflexivity|].
      apply Forall_app. auto.
    + cbn [snd]. exists evs. rewrite Ht, Ht0. auto.
    + cbn [snd]. exists evs. rewrite Ht, Ht0. auto.
  - exists []. rewrite app_nil_r.
    split; [apply task_body_unacquired, Hacq | constructor].
Qed.

End StoreAnswers.

(** X15. Inside a job the branch of [upload_to_vercel_blob] for a missing
    local file is never taken: every rendered clip is still on disk when its
    turn to be uploaded comes, because the clips have distinct files and the
    cleanup of one clip removes no other. So every publish step of a job
    carries the answer of the store for that clip's blob path. *)
Theorem rendered_clips_reach_the_store (env : Env) (cfg : Config)
    (youtube_link : string) (w : World) :
  exists evs,
    trace (snd (process_video_task env cfg youtube_link w)) = trace w ++ evs /\
    Forall (ev_store_answered env) evs.
Proof.
  destruct (process_video_task_disk env cfg youtube_link w) as [_ Ht].
  rewrite Ht. apply task_body_store.
Qed.

(** ** Submitting, running and polling *)

Lemma plain_lines (lines : list string) : plain (map JStr lines) = true.
Proof. induction lines; [reflexivity | assumption]. Qed.

Lemma process_video_task_record (env : Env) (cfg : Config)
    (youtube_link : string) (w : World) :
  fst (process_video_task env cfg youtube_link w) = Ok tt ->
  exists pre record post,
    log_queue (snd (process_video_task env cfg youtube_link w))
    = log_queue w ++ map JStr pre ++ record :: map JStr post /\
    terminal record = true /\
    (List.length post <= 1)%nat.
Proof.
  intro Hreturns.
  destruct (process_video_task_run env cfg youtube_link w)
    as (Hout & pre & record & post & evs & _ & _ & Hshape).
  cbv zeta in Hout, Hshape. rewrite Hout in Hreturns.
  exists pre, record, post.
  destruct (fst (task_body env cfg youtube_link w)) as [[]|e|e];
    [| |discriminate Hreturns].
  - destruct Hshape as (Hq & Hshape). split; [exact Hq|].
    destruct (acquired env youtube_link w) as [path|].
    + destruct Hshape as (-> & -> & _).
      split; [|apply Nat.le_0_l].
      destruct (published_urls evs); reflexivity.
    + destruct Hshape as (-> & -> & _). split; [reflexivity | apply Nat.le_refl].
  - destruct Hshape as (Hq & -> & -> & _). split; [exact Hq|].
    split; [reflexivity | apply Nat.le_refl].
Qed.

(** X16. A client that polls only after the job has returned never sees its
    log: the first poll after an accepted submission and a job that returned
    gives the terminal record alone, the three notices of the submission and
    every log line written before the record are dropped, and the second
    poll returns what the job wrote after the record (at most one line) and
    leaves the queue empty. *)
Theorem late_poll_returns_only_the_record (env : Env) (cfg : Config)
    (youtube_link : string) (w : World) :
  fst (generate_clips youtube_link w) = Ok processing ->
  let submitted := snd (generate_clips youtube_link w) in
  fst (process_video_task env cfg youtube_link submitted) = Ok tt ->
  let finished := snd (process_video_task env cfg youtube_link submitted) in
  exists record post,
    terminal record = true /\
    (List.length post <= 1)%nat /\
    fst (get_logs finished) = Ok record /\
    log_queue (snd (get_logs finished)) = map JStr post /\
    fst (get_logs (snd (get_logs finished))) = Ok (logging (map JStr post)) /\
    log_queue (snd (get_logs (snd (get_logs finished)))) = [].
Proof.
  intro Haccepted. cbv zeta.
  rewrite (generate_clips_run youtube_link w) in *.
  destruct (negb (truthy youtube_link) || _); [discriminate Haccepted|].
  cbn [snd].
  set (submitted := mkWorld _ _ _ _ _).
  intro Hreturns.
  destruct (process_video_task_record env cfg youtube_link submitted Hreturns)
    as (pre & record & post & Hq & Hterminal & Hpost).
  set (finished := snd (process_video_task env cfg youtube_link submitted))
    in *.
  exists record, post.
  split; [exact Hterminal|]. split; [exact Hpost|].
  assert (Hfirst : get_logs_loop (log_queue finished) []
                   = (record, map JStr post)).
  { rewrite Hq.
    change (log_queue submitted)
      with (map JStr
              ["Starting video processing...";
               "NOTE: Video processing is resource-intensive and may take time. Please monitor logs.";
               "NOTE: Serverless functions have time limits (e.g., 5 min). Long videos might time out."]%string).
    rewrite app_assoc, <- map_app.
    apply get_logs_loop_terminal; [apply plain_lines | exact Hterminal]. }
  rewrite (get_logs_run finished), Hfirst. cbn [fst snd log_queue].
  split; [reflexivity|]. split; [reflexivity|].
  rewrite get_logs_run. cbn [fst snd log_queue].
  rewrite (get_logs_loop_plain _ [] (plain_lines post)).
  cbn [fst snd app]. auto.
Qed.

Lemma late_poll_returns_only_the_record_witness :
  exists (record : json) (post : list string),
    terminal record = true /\
    fst (get_logs
           (snd (process_video_task Sample.env app_config
                   "https://youtu.be/x"
                   (snd (generate_clips "https://youtu.be/x"
                           Sample.empty_world)))))
    = Ok record /\
    (List.length post <= 1)%nat.
Proof.
  destruct (late_poll_returns_only_the_record Sample.env app_config
              "https://youtu.be/x" Sample.empty_world)
    as (record & post & Hterminal & Hpost & Hfirst & _).
  - reflexivity.
  - vm_compute. reflexivity.
  - exists record, post. auto.
Defined.
(** ** What leaves the thread target *)

Lemma to_float_no_abort (x : num) (e : string) : to_float x <> Abort e.
Proof.
  destruct x as [z|f]; simpl; [|discriminate].
  destruct (Z.abs z <? _)%Z; discriminate.
Qed.

Lemma py_binop_no_abort on_ints on_floats (a b : num) (e : string) :
  py_binop on_ints on_floats a b <> Abort e.
Proof.
  unfold py_binop, and_then.
  destruct a as [x|x], b as [y|y]; try discriminate;
    repeat match goal with
      | |- context [to_float ?v] =>
          let E := fresh "E" in
          destruct (to_float v) eqn:E;
          [| | exfalso; eapply to_float_no_abort; exact E]
      end; discriminate.
Qed.

Lemma py_truediv_no_abort (a b : num) (e : string) : py_truediv a b <> Abort e.
Proof.
  unfold py_truediv, and_then.
  destruct a as [x|x], b as [y|y];
    repeat match goal with
      | |- context [to_float ?v] =>
          let E := fresh "E" in
          destruct (to_float v) eqn:E;
          [| | exfalso; eapply to_float_no_abort; exact E]
      end;
    try discriminate.
  - destruct (y =? 0)%Z; [discriminate|].
    destruct (SFdiv _ _ _ _); discriminate.
  - destruct (PrimFloat.eqb _ _); discriminate.
  - destruct (PrimFloat.eqb _ _); discriminate.
  - destruct (PrimFloat.eqb _ _); discriminate.
Qed.

Lemma py_int_no_abort (x : num) (e : string) : py_int x <> Abort e.
Proof.
  destruct x as [z|f]; simpl; [discriminate|].
  destruct (Prim2SF f); discriminate.
Qed.

Lemma window_no_abort video_duration clip_duration (i : nat) (e : string) :
  window video_duration clip_duration i <> Abort e.
Proof.
  unfold window, and_then, py_mul, py_add, py_sub.
  destruct (py_binop Z.mul _ _ _) as [s|?|?] eqn:Es;
    [|discriminate | exfalso; eapply py_binop_no_abort; exact Es].
  destruct (py_binop Z.add _ _ _) as [e0|?|?] eqn:Ee;
    [|discriminate | exfalso; eapply py_binop_no_abort; exact Ee].
  destruct (py_ge _ _); [discriminate|].
  destruct (py_gt _ _); [|discriminate].
  destruct (py_binop Z.sub _ _ _) as [r|?|?] eqn:Er;
    [|discriminate | exfalso; eapply py_binop_no_abort; exact Er].
  destruct (py_truediv _ _) as [h|?|?] eqn:Eh;
    [|discriminate | exfalso; eapply py_truediv_no_abort; exact Eh].
  destruct (py_lt _ _); discriminate.
Qed.

Lemma never_aborts_ret {A} (a : A) : never_aborts (ret a).
Proof. intros w e. discriminate. Qed.

Lemma never_aborts_raise {A} (e : string) : never_aborts (@raise A e).
Proof. intros w e'. discriminate. Qed.

Lemma never_aborts_lift {A} (r : result A) :
  (forall e, r <> Abort e) -> never_aborts (lift r).
Proof. intros H w e. apply H. Qed.

Lemma never_aborts_bind {A B} (m : M A) (k : A -> M B) :
  never_aborts m -> (forall a, never_aborts (k a)) -> never_aborts (bind m k).
Proof.
  intros Hm Hk w e. unfold bind. specialize (Hm w).
  destruct (m w) as [[a|e1|e1] w1]; cbn [fst] in *.
  - apply Hk.
  - discriminate.
  - exfalso. apply (Hm e1). reflexivity.
Qed.

Lemma never_aborts_try {A} (m : M A) (handler : string -> M A) :
  never_aborts m -> (forall e, never_aborts (handler e)) ->
  never_aborts (try_except m handler).
Proof.
  intros Hm Hh w e. unfold try_except. specialize (Hm w).
  destruct (m w) as [[a|e1|e1] w1]; cbn [fst] in *.
  - discriminate.
  - apply Hh.
  - exfalso. apply (Hm e1). reflexivity.
Qed.

Lemma never_aborts_put item : never_aborts (put item).
Proof. intros w e. discriminate. Qed.

Lemma never_aborts_emit ev : never_aborts (emit ev).
Proof. intros w e. discriminate. Qed.

Lemma never_aborts_create paths : never_aborts (create_files paths).
Proof. intros w e. discriminate. Qed.

Lemma never_aborts_unlink path : never_aborts (unlink path).
Proof. intros w e. discriminate. Qed.

Lemma never_aborts_path_exists path : never_aborts (path_exists path).
Proof. intros w e. discriminate. Qed.

Lemma never_aborts_list_files : never_aborts list_files.
Proof. intros w e. discriminate. Qed.

Lemma never_aborts_log message : never_aborts (log_message message).
Proof. intros w e. discriminate. Qed.

(** Walk through a computation, one bind or branch at a time. *)
Ltac calm_step :=
  first
    [ match goal with H : context [never_aborts] |- _ => apply H end
    | apply never_aborts_ret
    | apply never_aborts_raise
    | apply never_aborts_put
    | apply never_aborts_emit
    | apply never_aborts_create
    | apply never_aborts_unlink
    | apply never_aborts_path_exists
    | apply never_aborts_list_files
    | apply never_aborts_log
    | apply never_aborts_lift;
      first [ apply to_float_no_abort | apply py_binop_no_abort
            | apply py_truediv_no_abort | apply py_int_no_abort
            | apply window_no_abort ]
    | match goal with
      | |- never_aborts (match ?x with _ => _ end) => destruct x
      end
    | apply never_aborts_try; [|intro]
    | apply never_aborts_bind; [|intro]
    ].

Ltac calm_crawl := cbv zeta; repeat (calm_step; cbv zeta).

Section OnlyExceptions.

Variable env : Env.
Variable cfg : Config.
Hypothesis calm : only_exceptions env.

Lemma never_aborts_moviepy c : never_aborts (moviepy env c).
Proof using calm.
  destruct calm as (_ & _ & Hframe & _).
  unfold moviepy. specialize (Hframe c).
  destruct (frame_fault env c) as [[e|e]|].
  - apply never_aborts_raise.
  - exfalso. apply (Hframe e). reflexivity.
  - apply never_aborts_ret.
Qed.

Lemma never_aborts_run_subprocess_command cmd_list error_msg_prefix cwd :
  never_aborts (run_subprocess_command env cmd_list error_msg_prefix cwd).
Proof using calm.
  destruct calm as (Hrun & _).
  unfold run_subprocess_command. specialize (Hrun cmd_list cwd).
  apply never_aborts_bind; [apply never_aborts_create | intros _].
  destruct (subprocess_run env cmd_list cwd) as [| | | |e]; calm_crawl.
  exfalso. apply (Hrun e). reflexivity.
Qed.

Lemma never_aborts_download_fallback temp_dir timestamp downloaded_filepath :
  never_aborts (download_fallback env temp_dir timestamp downloaded_filepath).
Proof using Type.
  unfold download_fallback. calm_crawl.
Qed.

Lemma never_aborts_download youtube_url temp_dir :
  never_aborts (download_youtube_video_to_temp env youtube_url temp_dir).
Proof using calm.
  pose proof never_aborts_run_subprocess_command as Hrun.
  pose proof never_aborts_download_fallback as Hfb.
  unfold download_youtube_video_to_temp. calm_crawl.
Qed.

Lemma never_aborts_format_2f x : never_aborts (format_2f env x).
Proof using Type. unfold format_2f. calm_crawl. Qed.

Lemma never_aborts_crop_and_resize sub_clip target_aspect :
  never_aborts (crop_and_resize env cfg sub_clip target_aspect).
Proof using calm.
  pose proof never_aborts_moviepy as Hmp.
  unfold crop_and_resize. calm_crawl.
Qed.

Lemma never_aborts_clip_loop full_clip target_aspect clip_duration
      temp_output_dir indices :
  forall paths count,
    never_aborts (clip_loop env cfg full_clip target_aspect clip_duration
                            temp_output_dir indices paths count).
Proof using calm.
  pose proof never_aborts_moviepy as Hmp.
  pose proof never_aborts_crop_and_resize as Hcr.
  pose proof never_aborts_format_2f as Hfmt.
  destruct calm as (_ & _ & _ & Hwrite & _).
  induction indices as [|i rest IH]; intros paths count; cbn [clip_loop].
  - calm_crawl.
  - apply never_aborts_bind;
      [apply never_aborts_lift, window_no_abort
      | intros [|remaining|start_time end_time]];
      [calm_crawl | calm_crawl |].
    apply never_aborts_bind; [apply Hfmt | intro shown_start].
    apply never_aborts_bind; [apply Hfmt | intro shown_end].
    apply never_aborts_bind; [apply never_aborts_log | intros _].
    apply never_aborts_bind; [apply Hmp | intro sub_clip].
    apply never_aborts_bind; [apply Hcr | intro processed].
    cbv zeta.
    apply never_aborts_bind; [apply never_aborts_log | intros _].
    match goal with
    | |- context [write_videofile env ?c ?p] =>
        specialize (Hwrite c p);
        destruct (write_videofile env c p) as [[e|e]|]
    end.
    + calm_crawl.
    + exfalso. apply (Hwrite e). reflexivity.
    + calm_crawl.
Qed.

Lemma never_aborts_generate video_path clip_duration num_clips
      temp_output_dir :
  never_aborts (generate_short_clips_to_temp env cfg video_path clip_duration
                  num_clips temp_output_dir).
Proof using calm.
  pose proof never_aborts_clip_loop as Hloop.
  destruct calm as (_ & Hopen & _).
  unfold generate_short_clips_to_temp. specialize (Hopen video_path).
  apply never_aborts_bind; [apply never_aborts_log | intros _].
  destruct (open_video env video_path) as [[[video_duration fw] fh]|e|e].
  - calm_crawl.
  - calm_crawl.
  - exfalso. apply (Hopen e). reflexivity.
Qed.

Lemma never_aborts_os_remove path : never_aborts (os_remove env path).
Proof using Type. unfold os_remove. calm_crawl. Qed.

Lemma never_aborts_upload local_filepath :
  never_aborts (upload_to_vercel_blob env local_filepath).
Proof using calm.
  destruct calm as (_ & _ & _ & _ & Hput).
  unfold upload_to_vercel_blob.
  apply never_aborts_bind; [apply never_aborts_path_exists | intro present].
  destruct (negb present); [calm_crawl|]. cbv zeta.
  apply never_aborts_bind; [apply never_aborts_log | intros _].
  match goal with
  | |- context [blob_put env ?b ?p] =>
      specialize (Hput b p); destruct (blob_put env b p) as [url|e|e]
  end.
  - calm_crawl.
  - calm_crawl.
  - exfalso. apply (Hput e). reflexivity.
Qed.

Lemma never_aborts_upload_loop temp_clip_paths :
  forall blob_urls, never_aborts (upload_loop env temp_clip_paths blob_urls).
Proof using calm.
  pose proof never_aborts_os_remove as Hrm.
  pose proof never_aborts_upload as Hup.
  induction temp_clip_paths as [|temp_path rest IH]; intro blob_urls;
    cbn [upload_loop]; calm_crawl.
Qed.

Lemma never_aborts_task_body youtube_link :
  never_aborts (task_body env cfg youtube_link).
Proof using calm.
  pose proof never_aborts_os_remove as Hrm.
  pose proof never_aborts_upload_loop as Hup.
  pose proof never_aborts_download as Hdl.
  pose proof never_aborts_generate as Hgen.
  unfold task_body. calm_crawl.
Qed.

End OnlyExceptions.

(** X17. The thread target never lets an instance of [Exception] escape
    and never starts a thread of its own.  When no collaborator raises a
    fault outside [Exception], [process_video_task] returns normally, and so
    does [upload_to_vercel_blob], which reports every failure as [None] and
    leaves the files alone. *)
Theorem job_never_raises (env : Env) (cfg : Config) (youtube_link : string)
    (w : World) :
  (forall e, fst (process_video_task env cfg youtube_link w) <> Raise e) /\
  threads (snd (process_video_task env cfg youtube_link w)) = threads w /\
  (forall local_filepath w0 e,
      fst (upload_to_vercel_blob env local_filepath w0) <> Raise e) /\
  (forall local_filepath w0,
      files (snd (upload_to_vercel_blob env local_filepath w0)) = files w0) /\
  (only_exceptions env ->
   fst (process_video_task env cfg youtube_link w) = Ok tt /\
   forall local_filepath w0,
     exists url, fst (upload_to_vercel_blob env local_filepath w0) = Ok url).
Proof.
  destruct (process_video_task_run env cfg youtube_link w)
    as (Hout & pre & record & post & evs & _ & Hthreads & _).
  cbv zeta in Hout, Hthreads.
  assert (Hupload : forall local_filepath w0,
             files (snd (upload_to_vercel_blob env local_filepath w0))
             = files w0 /\
             ((exists url,
                  fst (upload_to_vercel_blob env local_filepath w0) = Ok url)
              \/ exists e,
                  fst (upload_to_vercel_blob env local_filepath w0)
                  = Abort e)).
  { intros local_filepath w0.
    pose proof (upload_to_vercel_blob_spec env local_filepath w0) as H.
    unfold wp in H. destruct H as (lines & url & _ & Hf & Hr & _).
    split; [exact Hf|].
    destruct Hr as [Hr | (_ & e & Hr)]; eauto. }
  split; [|split; [exact Hthreads | split; [|split]]].
  - intro e. rewrite Hout.
    destruct (fst (task_body env cfg youtube_link w)); discriminate.
  - intros local_filepath w0 e.
    destruct (Hupload local_filepath w0) as [_ [[url Hr] | [e' Hr]]];
      rewrite Hr; discriminate.
  - intros local_filepath w0. apply Hupload.
  - intro Hcalm. split.
    + rewrite Hout.
      pose proof (never_aborts_task_body env cfg Hcalm youtube_link w)
        as Hbody.
      destruct (fst (task_body env cfg youtube_link w)) as [[]|e|e];
        [reflexivity | reflexivity |].
      exfalso. apply (Hbody e). reflexivity.
    + intros local_filepath w0.
      destruct (Hupload local_filepath w0) as [_ [Hr | [e Hr]]];
        [exact Hr|].
      exfalso.
      apply (never_aborts_upload env Hcalm local_filepath w0 e). exact Hr.
Qed.

Lemma job_never_raises_witness :
  fst (process_video_task Sample.env_no_permission app_config
         "https://youtu.be/x" Sample.empty_world) = Ok tt.
Proof.
  destruct (job_never_raises Sample.env_no_permission app_config
              "https://youtu.be/x" Sample.empty_world)
    as (_ & _ & _ & _ & Hcalm).
  destruct Hcalm as [Hreturns _]; [|exact Hreturns].
  repeat split; intros; discriminate.
Defined.

(** ** The two counters of the clip loop *)

(** A postcondition on the outcome alone passes through a step whose
    outcome does not matter. *)
Lemma wp_any {A B} (m : M A) (k : A -> M B) w
      (Q : result B -> World -> Prop) :
  (forall a w', wp (k a) w' Q) -> (forall e w', Q (Raise e) w') ->
  (forall e w', Q (Abort e) w') ->
  wp (bind m k) w Q.
Proof.
  intros Hk He Ha. unfold wp, bind. destruct (m w) as [[a|e|e] w'].
  - apply Hk.
  - apply He.
  - apply Ha.
Qed.

Section Counters.

Variable env : Env.
Variable cfg : Config.

Lemma clip_loop_count full_clip target_aspect clip_duration temp_output_dir
      indices :
  forall paths count w,
  wp (clip_loop env cfg full_clip target_aspect clip_duration temp_output_dir
                indices paths count) w
     (fun r _ =>
        forall out, r = Ok out ->
          (snd out + List.length paths = List.length (fst out) + count)%nat).
Proof.
  induction indices as [|i rest IH]; intros paths count w.
  - apply wp_ret. intros out H. inversion H. cbn [fst snd]. apply Nat.add_comm.
  - cbn [clip_loop].
    apply wp_any; [|discriminate ..].
    intros [|remaining|start_time end_time] w0.
    + apply wp_any; [|discriminate ..]. intros _ w1. apply wp_ret.
      intros out H. inversion H. cbn [fst snd]. apply Nat.add_comm.
    + apply wp_any; [|discriminate ..]. intros shown w1.
      apply wp_any; [|discriminate ..]. intros _ w2. apply wp_ret.
      intros out H. inversion H. cbn [fst snd]. apply Nat.add_comm.
    + apply wp_any; [|discriminate ..]. intros shown_start w1.
      apply wp_any; [|discriminate ..]. intros shown_end w2.
      apply wp_any; [|discriminate ..]. intros _ w3.
      apply wp_any; [|discriminate ..]. intros sub_clip w4.
      apply wp_any; [|discriminate ..]. intros processed_clip w5.
      cbv zeta.
      apply wp_any; [|discriminate ..]. intros _ w6.
      destruct (write_videofile env processed_clip _) as [[e|e]|].
      * apply wp_any; [|discriminate ..]. intros _ w7.
        apply wp_any; [|discriminate ..]. intros _ w8.
        apply wp_any; [|discriminate ..]. intros _ w9.
        apply IH.
      * apply wp_any; [|discriminate ..]. intros _ w7.
        unfold wp, abort. cbn [fst]. discriminate.
      * apply wp_any; [|discriminate ..]. intros _ w7.
        apply wp_any; [|discriminate ..]. intros _ w8.
        apply wp_any; [|discriminate ..]. intros _ w9.
        eapply wp_conseq; [apply IH|].
        intros r w10 H out Hout. specialize (H out Hout).
        rewrite length_app in H. cbn [List.length] in H. lia.
Qed.

End Counters.

(** X19. The two counters of the clip loop agree: when the source opens and
    [generate_short_clips_to_temp] returns, the number named in its closing
    log line is the number of paths it returns. *)
Theorem closing_line_counts_returned_clips (env : Env) (cfg : Config)
    (video_path temp_output_dir : string) (clip_duration : num)
    (num_clips : nat) (w : World) (video : float * Z * Z)
    (paths : list string) :
  open_video env video_path = Ok video ->
  fst (generate_short_clips_to_temp env cfg video_path clip_duration
         num_clips temp_output_dir w) = Ok paths ->
  exists written,
    log_queue (snd (generate_short_clips_to_temp env cfg video_path
                      clip_duration num_clips temp_output_dir w))
    = written
      ++ [JStr (nl ++ "--- Finished generating "
                ++ show_nat (List.length paths) ++ " temporary clips. ---")].
Proof.
  intros Hopen.
  change (wp (generate_short_clips_to_temp env cfg video_path clip_duration
                num_clips temp_output_dir) w
             (fun r w' =>
                r = Ok paths ->
                exists written,
                  log_queue w'
                  = written
                    ++ [JStr (nl ++ "--- Finished generating "
                              ++ show_nat (List.length paths)
                              ++ " temporary clips. ---")])).
  unfold generate_short_clips_to_temp. rewrite Hopen.
  destruct video as [[video_duration fw] fh].
  apply wp_any; [|discriminate ..]. intros _ w1. cbv zeta.
  apply wp_any; [|discriminate ..]. intros _ w2.
  apply wp_any; [|discriminate ..]. intros target_aspect w3.
  apply wp_bind. eapply wp_conseq; [apply clip_loop_count|].
  intros r w4 Hcount. destruct r as [out|e|e]; [|discriminate ..].
  specialize (Hcount out eq_refl). cbn [List.length] in Hcount.
  rewrite !Nat.add_0_r in Hcount.
  wp_line. apply wp_ret. intro Hout. inversion Hout; subst paths.
  exists (log_queue w4). destruct Hs as (Hq & _).
  rewrite Hq, Hcount. reflexivity.
Qed.

Lemma closing_line_counts_returned_clips_witness :
  exists written,
    log_queue (snd (generate_short_clips_to_temp Sample.env_flaky_store
                      app_config Sample.source_file (Int 27) 3 "/tmp"
                      Sample.empty_world))
    = written ++ [JStr (nl ++ "--- Finished generating 3 temporary clips. ---")].
Proof.
  apply (closing_line_counts_returned_clips Sample.env_flaky_store app_config
           Sample.source_file "/tmp" (Int 27) 3 Sample.empty_world
           (200%float, 1920%Z, 1080%Z)
           [Sample.clip_file 1; Sample.clip_file 2; Sample.clip_file 3]).
  - reflexivity.
  - vm_compute. reflexivity.
Defined.

(** ** The URLs of the terminal record *)

Lemma publish_cleanup_urls (env : Env) paths uploads :
  publish_cleanup paths uploads ->
  Forall (ev_store_answered env) uploads ->
  published_urls uploads = flat_map (kept_url env) paths.
Proof.
  induction 1 as [|path url ok rest evs _ IH]; [reflexivity|].
  intro Hall. inversion Hall as [|? ? Hurl Hall1]; subst.
  inversion Hall1 as [|? ? _ Hall2]; subst.
  unfold published_urls in *. cbn [flat_map ev_published app].
  rewrite (IH Hall2). cbn [ev_store_answered] in Hurl.
  unfold kept_url at 2. rewrite <- Hurl. destruct url; reflexivity.
Qed.

(** X20. The URL list of a job is computed from the store alone: in a job
    that acquired its source and met no uncaught fault, the published URLs
    are exactly the non-empty URLs the store answered for the rendered
    clips, in render order, and the terminal record is the completed record
    with that list, or the failed record when the list is empty. *)
Theorem result_urls_are_store_answers (env : Env) (cfg : Config)
    (youtube_link : string) (w : World) (path : string) :
  fst (task_body env cfg youtube_link w) = Ok tt ->
  acquired env youtube_link w = Some path ->
  let w' := snd (process_video_task env cfg youtube_link w) in
  exists evs pre,
    trace w' = trace w ++ evs /\
    published_urls evs = flat_map (kept_url env) (rendered_paths evs) /\
    log_queue w'
    = log_queue w ++ map JStr pre
        ++ [match published_urls evs with
            | [] => failed_no_clips
            | _ :: _ => completed (published_urls evs)
            end].
Proof.
  intros Hbody Hacq. cbv zeta.
  destruct (process_video_task_run env cfg youtube_link w)
    as (_ & pre & record & post & evs & Ht & _ & Hshape).
  cbv zeta in Ht, Hshape. rewrite Hbody, Hacq in Hshape.
  destruct Hshape as (Hq & -> & -> & renders & uploads & ok & Hevs
                      & [Hrender _] & _ & _ & Hpc & _).
  destruct (task_body_store env cfg youtube_link w) as (evs' & Ht' & Hall).
  destruct (process_video_task_disk env cfg youtube_link w) as [_ Hsame].
  rewrite <- Hsame, Ht in Ht'. apply app_inv_head in Ht'. subst evs'.
  exists evs, pre. split; [exact Ht|]. split; [|exact Hq].
  rewrite Hevs in Hall |- *.
  apply Forall_app in Hall. destruct Hall as [_ Hall].
  apply Forall_app in Hall. destruct Hall as [Hall _].
  rewrite (published_urls_run _ _ _ _ Hrender).
  rewrite (rendered_paths_run _ _ _ _ _ Hpc).
  apply publish_cleanup_urls; assumption.
Qed.

Lemma result_urls_are_store_answers_witness :
  exists evs pre,
    trace (snd (process_video_task Sample.env_flaky_store app_config
                  "https://youtu.be/x" Sample.empty_world))
    = trace Sample.empty_world ++ evs /\
    published_urls evs
    = flat_map (kept_url Sample.env_flaky_store) (rendered_paths evs) /\
    log_queue (snd (process_video_task Sample.env_flaky_store app_config
                      "https://youtu.be/x" Sample.empty_world))
    = log_queue Sample.empty_world ++ map JStr pre
        ++ [match published_urls evs with
            | [] => failed_no_clips
            | _ :: _ => completed (published_urls evs)
            end].
Proof.
  apply (result_urls_are_store_answers Sample.env_flaky_store app_config
           "https://youtu.be/x" Sample.empty_world Sample.source_file).
  - vm_compute. reflexivity.
  - vm_compute. reflexivity.
Defined.
